(** * Candidate generation engine of the smart human password generator

    A shallow embedding of [main_Cli.py] (the class
    [SmartHumanPasswordGenerator] and the engine part of [main]; the
    generator of [Gui/v2.py] has the same [parse_human_date]) and of
    [save_to_file] of [old_versions/Var3.py], with the properties of the
    specification that concern them.  Further parts: the module [Gui] (the
    advanced filter, the complexity score, the pattern table and the end of
    [generate_passwords] of [Gui/v2.py]) and the module [Var3] (the
    generator of [old_versions/Var3.py] up to [pattern_special]), with
    properties read off the code.

    Modelling conventions.
    - A Python [str] is a [string]; characters are the code points below
      256.  The classes [\d] and [[a-zA-Z]] of the regular expressions are
      the ASCII digits and letters, as they are in Python on these code
      points.  The methods [isalpha], [isupper], [islower] and [isdigit]
      are those of Python on all these code points ([Py.isalpha], ...).
      The case functions [lower], [upper], [title] and [capitalize] are
      those of Python on ASCII text; a statement that depends on what they
      return is about a profile of ASCII text ([ascii_fields]).
    - A Python [set] of [str] is a [gset string].  The order in which a set
      is iterated ([list(s)], [for x in s], [sorted(s)]) is not determined by
      the profile and the configuration: CPython orders a set of strings by
      their hashes, salted anew in every process.  It is a parameter of the
      run, [set_iter].
    - A [dict] with [str] keys is a [gmap string _]; the profile dictionary
      [data], whose values have several types, is a record of optional fields.
    - The module [random] is an abstract generator state with the draws the
      code uses: [random.random()], the index behind [random.choice] and the
      positions behind [random.sample].
    - [str.format] and [random.sample] may raise; exceptions are values of
      [exn] and a call that may raise returns a [result].  An index that the
      code reads behind a guard ([last_name[0]] after [if not last_name:
      return], [parts[1]] after [len(parts) > 1]) is a pattern match.  The
      modules [Gui] and [Var3] have result types of their own, for the
      [AttributeError] and the [TypeError] that their code raises.
    - Printing, the pattern statistics of [analyze_and_filter], the examples
      shown by [show_examples] and the writing of the file are left out: the
      engine's result is the sequence of candidates that [main] writes. *)

From stdpp Require Import gmap strings list fin_maps sorting pretty.
From Stdlib Require Import Ascii QArith.

Local Open Scope stdpp_scope.
Local Open Scope nat_scope.

(** ** Python strings *)

Module Py.

Definition code (c : ascii) : N := N_of_ascii c.

(** [c.isdigit()] on ASCII, the class [\d]. *)
Definition is_digit (c : ascii) : bool :=
  (48 <=? code c)%N && (code c <=? 57)%N.

Definition is_lower (c : ascii) : bool :=
  (97 <=? code c)%N && (code c <=? 122)%N.

Definition is_upper (c : ascii) : bool :=
  (65 <=? code c)%N && (code c <=? 90)%N.

(** The class [[a-zA-Z]]; on ASCII also "the character is cased". *)
Definition is_alpha (c : ascii) : bool := is_lower c || is_upper c.

Definition to_lower (c : ascii) : ascii :=
  if is_upper c then ascii_of_N (code c + 32) else c.

Definition to_upper (c : ascii) : ascii :=
  if is_lower c then ascii_of_N (code c - 32) else c.

Definition len (s : string) : nat := String.length s.

Fixpoint map_chars (f : ascii → ascii) (s : string) : string :=
  match s with
  | EmptyString => EmptyString
  | String c s' => String (f c) (map_chars f s')
  end.

(** [s.lower()] and [s.upper()], as they act on ASCII text. *)
Definition lower (s : string) : string := map_chars to_lower s.
Definition upper (s : string) : string := map_chars to_upper s.

(** [s.title()], as it acts on ASCII text: a cased character is
    upper-cased when the character before it is not cased, and lower-cased
    otherwise.  (On other text [str.title()], [str.capitalize()] and
    [str.upper()] can change the length or leave the code points below
    256: ['ß'] becomes ['Ss'].  The statements that depend on the result of
    [title] or [capitalize] are about profiles of ASCII text,
    [ascii_fields].) *)
Fixpoint title_go (prev_cased : bool) (s : string) : string :=
  match s with
  | EmptyString => EmptyString
  | String c s' =>
      String (if prev_cased then to_lower c else to_upper c)
             (title_go (is_alpha c) s')
  end.
Definition title (s : string) : string := title_go false s.

(** [s.capitalize()], as it acts on ASCII text. *)
Definition capitalize (s : string) : string :=
  match s with
  | EmptyString => EmptyString
  | String c s' => String (to_upper c) (lower s')
  end.

Fixpoint filter_chars (p : ascii → bool) (s : string) : string :=
  match s with
  | EmptyString => EmptyString
  | String c s' => if p c then String c (filter_chars p s') else filter_chars p s'
  end.

(** [re.sub(r'[^\d]', '', s)]. *)
Definition re_sub_non_digits (s : string) : string := filter_chars is_digit s.

(** [s[a:b]] for indices [0 <= a], [0 <= b]. *)
Definition slice (a b : nat) (s : string) : string := String.substring a (b - a) s.

(** [s[:n]] and [s[n:]]. *)
Definition take (n : nat) (s : string) : string := String.substring 0 n s.
Fixpoint drop (n : nat) (s : string) : string :=
  match n, s with
  | O, _ => s
  | S n', EmptyString => EmptyString
  | S n', String _ s' => drop n' s'
  end.

(** [s[0] if s else ''], the idiom of [vars_dict]. *)
Definition first_or_empty (s : string) : string :=
  match s with
  | EmptyString => EmptyString
  | String c _ => String c EmptyString
  end.

Fixpoint existsb_chars (p : ascii → bool) (s : string) : bool :=
  match s with
  | EmptyString => false
  | String c s' => p c || existsb_chars p s'
  end.

(** [c in s] for a one-character [c]. *)
Definition contains (c : ascii) (s : string) : bool :=
  existsb_chars (Ascii.eqb c) s.

(** [s.replace(c, r)] for a one-character [c]. *)
Fixpoint replace (c : ascii) (r : string) (s : string) : string :=
  match s with
  | EmptyString => EmptyString
  | String x s' => if Ascii.eqb x c then r +:+ replace c r s' else String x (replace c r s')
  end.

(** [re.split(cls, s)] for a class [cls] of single characters: the pieces
    between the separators, empty ones included. *)
Fixpoint re_split (sep : ascii → bool) (s : string) : list string :=
  match s with
  | EmptyString => [EmptyString]
  | String c s' =>
      if sep c then EmptyString :: re_split sep s'
      else match re_split sep s' with
           | [] => [String c EmptyString]
           | p :: ps => String c p :: ps
           end
  end.

(** [re.search(cls{n,}, s)] is not [None]: [s] has [n] consecutive
    characters of the class. *)
Fixpoint has_run_go (p : ascii → bool) (n : nat) (run : nat) (s : string) : bool :=
  match s with
  | EmptyString => false
  | String c s' =>
      if p c then (n <=? S run) || has_run_go p n (S run) s'
      else has_run_go p n 0 s'
  end.
Definition has_run (p : ascii → bool) (n : nat) (s : string) : bool :=
  has_run_go p n 0 s.

(** The number of digits at the end of [s]. *)
Fixpoint trailing_digits (s : string) : nat :=
  match s with
  | EmptyString => 0
  | String c s' =>
      let k := trailing_digits s' in
      if is_digit c && (k =? len s') then S k else k
  end.

Definition newline : ascii := ascii_of_N 10.

Definition ends_with_newline (s : string) : bool :=
  match String.get (len s - 1) s with
  | Some c => Ascii.eqb c newline
  | None => false
  end.

(** [re.search(r'\d+$', s)]: [Some] of the match's start, [None] when
    there is no match.  [$] matches at the end of the string and also just
    before a newline that ends it. *)
Definition search_trailing_digits (s : string) : option nat :=
  let body := if ends_with_newline s then take (len s - 1) s else s in
  let k := trailing_digits body in
  if k =? 0 then None else Some (len body - k).

(** The methods [c.isalpha()], [c.isupper()], [c.islower()] and
    [c.isdigit()] of a one-character [str], on the code points below 256:
    beside the ASCII letters and digits, the letters of the Latin-1 range
    (all but the signs [U+00D7] and [U+00F7]), the ordinal indicators and
    the micro sign, and the superscript digits. *)
Definition between (lo hi : N) (c : ascii) : bool :=
  (lo <=? code c)%N && (code c <=? hi)%N.

Definition isupper (c : ascii) : bool :=
  between 65 90 c || between 192 214 c || between 216 222 c.

Definition islower (c : ascii) : bool :=
  between 97 122 c || between 170 170 c || between 181 181 c || between 186 186 c
  || between 223 246 c || between 248 255 c.

Definition isalpha (c : ascii) : bool := isupper c || islower c.

Definition isdigit (c : ascii) : bool :=
  between 48 57 c || between 178 179 c || between 185 185 c.

End Py.

(** ** Exceptions *)

Inductive exn : Type :=
  | KeyError (key : string)
  | IndexError
  | ValueError
  | NotModelled.

Inductive result (A : Type) : Type :=
  | Ok (a : A)
  | Raise (e : exn).
Arguments Ok {A} a.
Arguments Raise {A} e.

Global Instance result_ret : MRet result := λ A a, Ok a.

Global Instance result_bind : MBind result := λ A B k r,
  match r with
  | Ok a => k a
  | Raise e => Raise e
  end.

(** ** [str.format] with keyword arguments

    The replacement fields of the pattern table are plain names, [{name}].
    A field is looked up when its closing brace is read, so the first
    missing name raises [KeyError] before anything to its right is parsed.
    An empty or all-digit name is a positional index and, no positional
    argument being passed, raises [IndexError].  [{{] and [}}] are the
    escaped braces.  Attribute and index access, conversions and format
    specifications ([.], [[], [!], [:] inside a field) are outside the
    model: [NotModelled]. *)

Definition all_digits (s : string) : bool :=
  negb (Py.existsb_chars (λ c, negb (Py.is_digit c)) s).

Definition lookup_field (name : string) (kw : gmap string string) : result string :=
  if all_digits name then Raise IndexError
  else match kw !! name with
       | Some v => Ok v
       | None => Raise (KeyError name)
       end.

Definition field_syntax (c : ascii) : bool :=
  Py.contains c ".[!:".

Fixpoint format_go (field : option string) (kw : gmap string string)
    (p : string) : result string :=
  match p with
  | EmptyString =>
      match field with
      | None => Ok EmptyString
      | Some _ => Raise ValueError
      end
  | String c p' =>
      match field with
      | None =>
          if Ascii.eqb c "{" then
            match p' with
            | String "{"%char p'' => r ← format_go None kw p''; Ok (String "{" r)
            | _ => format_go (Some EmptyString) kw p'
            end
          else if Ascii.eqb c "}" then
            match p' with
            | String "}"%char p'' => r ← format_go None kw p''; Ok (String "}" r)
            | _ => Raise ValueError
            end
          else r ← format_go None kw p'; Ok (String c r)
      | Some name =>
          if Ascii.eqb c "}" then
            v ← lookup_field name kw;
            r ← format_go None kw p';
            Ok (v +:+ r)
          else if Ascii.eqb c "{" then Raise ValueError
          else if field_syntax c then Raise NotModelled
          else format_go (Some (name +:+ String c EmptyString)) kw p'
      end
  end.

(** [pattern.format] applied to the keywords [kw]. *)
Definition format (pattern : string) (kw : gmap string string) : result string :=
  format_go None kw pattern.

(** The names a pattern refers to, in order; [None] for a pattern that
    [format_go] cannot read whatever the keywords are (unbalanced braces,
    positional fields, field syntax outside the model). *)
Fixpoint template_fields_go (field : option string) (p : string) : option (list string) :=
  match p with
  | EmptyString =>
      match field with
      | None => Some []
      | Some _ => None
      end
  | String c p' =>
      match field with
      | None =>
          if Ascii.eqb c "{" then
            match p' with
            | String "{"%char p'' => template_fields_go None p''
            | _ => template_fields_go (Some EmptyString) p'
            end
          else if Ascii.eqb c "}" then
            match p' with
            | String "}"%char p'' => template_fields_go None p''
            | _ => None
            end
          else template_fields_go None p'
      | Some name =>
          if Ascii.eqb c "}" then
            if all_digits name then None
            else names ← template_fields_go None p'; Some (name :: names)
          else if Ascii.eqb c "{" then None
          else if field_syntax c then None
          else template_fields_go (Some (name +:+ String c EmptyString)) p'
      end
  end.

Definition template_fields (pattern : string) : option (list string) :=
  template_fields_go None pattern.

(** ** The runtime: [random] and the iteration order of sets

    [set_iter] lists a set in the order of the run; it is any listing
    without repetition.  A set that the code iterates twice without changing
    it in between is listed twice in the same order, and two sets the engine
    iterates in one run are the same unchanged object or differ in their
    contents, so that a function of the set's contents loses no run. *)

Class Runtime : Type := {
  rng : Type;
  (** [random.random()] *)
  random_random : rng → Q * rng;
  (** the index [random.choice] draws for a sequence of length [n] *)
  random_below : nat → rng → nat * rng;
  random_below_lt : ∀ n g, 0 < n → (random_below n g).1 < n;
  (** the [k] distinct positions [random.sample] draws from a population of
      size [n] *)
  random_positions : nat → nat → rng → list nat * rng;
  random_positions_length : ∀ n k g, k ≤ n → length (random_positions n k g).1 = k;
  random_positions_NoDup : ∀ n k g, k ≤ n → NoDup (random_positions n k g).1;
  random_positions_lt : ∀ n k g, k ≤ n → Forall (λ i, i < n) (random_positions n k g).1;
  (** [list(s)] for a set [s] *)
  set_iter : gset string → list string;
  set_iter_perm : ∀ s, set_iter s ≡ₚ elements s;
}.

(** ** Tables of [SmartHumanPasswordGenerator.__init__] *)

Definition human_patterns : list string :=
  [ "{first}{last}";
    "{last}{first}";
    "{first}{last}{year}";
    "{last}{first}{year}";
    "{first}{last_initial}{year}";
    "{first_initial}{last}{year}";
    "{first}{last}{day}{month}";
    "{first}{last}{month}{year}";
    "{first}{last}{year_short}";
    "{first}{year}";
    "{last}{year}";
    "{nick}{year}";
    "{nick}{birth_day}";
    "{nick}{birth_month}";
    "{nick}{birth_day}{birth_month}";
    "{last}{first}{year_short}";
    "{year}{first}{last}";
    "{first}.{last}{year_short}";
    "{first}_{last}{year}";
    "{first}{special}{last}{year}";
    "{first}{last}{special}{year}";
    "{first}{last}123";
    "{first}{last}1234";
    "{first}{last}12345";
    "{first}{last}!";
    "{first}{last}!!";
    "{first}{last}?";
    "{first}{spouse_initial}{year}";
    "{child_name}{year}";
    "{pet_name}{year}";
    "{first}{birth_day}";
    "{last}{birth_month}";
    "{first_initial}{last_initial}{year}";
    "{first}{year}{last}";
    "{year}{first}{year_short}" ].

Definition common_specials : list string :=
  ["!"; "@"; "#"; "$"; "%"; "&"; "*"; "_"; "."; "-"].

Definition common_numbers : list string :=
  [ "123"; "1234"; "12345"; "123456";
    "321"; "4321"; "54321";
    "111"; "222"; "333"; "444"; "555";
    "666"; "777"; "888"; "999";
    "007"; "100"; "200"; "300";
    "69"; "420"; "777"; "888";
    "01"; "02"; "03"; "04"; "05";
    "10"; "20"; "30"; "40"; "50";
    "99"; "88"; "77"; "66";
    "1111"; "2222"; "3333"; "4444";
    "0000"; "11111"; "22222" ].

(** [leet_map.items()], in insertion order. *)
Definition leet_map : list (ascii * list string) :=
  [ ("a"%char, ["4"; "@"]);
    ("e"%char, ["3"]);
    ("i"%char, ["1"; "!"]);
    ("o"%char, ["0"]);
    ("s"%char, ["5"; "$"]);
    ("t"%char, ["7"]) ].

(** ** The profile dictionary [data] *)

Record Data : Type := {
  first_name : option string;
  last_name : option string;
  nickname : option string;
  birth_date : option string;
  spouse_name : option string;
  child_name : option string;
  pet_name : option string;
  use_specials : option bool;
  use_leet : option bool;
  add_numbers : option bool;
  specials : option (list string);
}.

(** [d.get(key, '')] on a [dict] of strings. *)
Definition get_str (d : gmap string string) (key : string) : string :=
  default EmptyString (d !! key).

(** ** [parse_human_date] *)

Definition parse_human_date (date_str : string) : gmap string string :=
  if decide (date_str = EmptyString) then ∅
  else
    let clean_date := Py.re_sub_non_digits date_str in
    let date_info : gmap string string :=
      if Py.len clean_date =? 8 then
        <["year_short" := Py.slice 6 8 clean_date]>
          (<["year" := Py.slice 4 8 clean_date]>
             (<["month" := Py.slice 2 4 clean_date]>
                (<["day" := Py.slice 0 2 clean_date]> ∅)))
      else if Py.len clean_date =? 6 then
        <["year_short" := Py.slice 4 6 clean_date]>
          (<["year" := "20" +:+ Py.slice 4 6 clean_date]>
             (<["month" := Py.slice 2 4 clean_date]>
                (<["day" := Py.slice 0 2 clean_date]> ∅)))
      else if Py.len clean_date =? 4 then
        <["month" := Py.slice 2 4 clean_date]>
          (<["day" := Py.slice 0 2 clean_date]> ∅)
      else ∅ in
    <["full" := clean_date]> date_info.

(** ** The generator *)

(** Truth value of a string, and of [data.get(key)] for an optional flag. *)
Definition truthy (s : string) : bool :=
  match s with
  | EmptyString => false
  | String _ _ => true
  end.

Definition flag (dflt : bool) (o : option bool) : bool := default dflt o.

(** The fields the generator reads with [data.get(key, '')], lower-cased
    where it lower-cases them. *)
Definition first_of (data : Data) : string := Py.lower (default EmptyString (first_name data)).
Definition last_of (data : Data) : string := Py.lower (default EmptyString (last_name data)).
Definition nick_of (data : Data) : string := Py.lower (default EmptyString (nickname data)).
Definition birth_of (data : Data) : string := default EmptyString (birth_date data).

(** An optional entry of [vars_dict]: present when the key is in [data]. *)
Definition with_optional (key : string) (value : option string)
    (vars : gmap string string) : gmap string string :=
  match value with
  | Some v => <[key := v]> vars
  | None => vars
  end.

(** [vars_dict], given the value drawn for the slot [special]. *)
Definition vars_dict (data : Data) (date_info : gmap string string)
    (special : string) : gmap string string :=
  with_optional "pet_name" (Py.lower <$> pet_name data)
    (with_optional "child_name" (Py.lower <$> child_name data)
       (with_optional "spouse_initial"
          ((λ spouse, Py.first_or_empty (Py.lower spouse)) <$> spouse_name data)
          (<["special" := special]>
             (<["month" := get_str date_info "month"]>
                (<["day" := get_str date_info "day"]>
                   (<["birth_month" := get_str date_info "month"]>
                      (<["birth_day" := get_str date_info "day"]>
                         (<["year_short" := get_str date_info "year_short"]>
                            (<["year" := get_str date_info "year"]>
                               (<["nick" := nick_of data]>
                                  (<["last_initial" := Py.first_or_empty (last_of data)]>
                                     (<["last" := last_of data]>
                                        (<["first_initial" := Py.first_or_empty (first_of data)]>
                                           (<["first" := first_of data]> ∅)))))))))))))).

Definition sep_dot_underscore (c : ascii) : bool := Py.contains c "._".
Definition sep_dot_underscore_dash (c : ascii) : bool := Py.contains c "._-".

(** The inner loop over [common_numbers[:10]] of the pattern loop. *)
Definition numbered (password : string) : list string :=
  take 10 common_numbers ≫= λ num,
    (password +:+ num) ::
    (if Py.contains "_" password || Py.contains "." password then
       match Py.re_split sep_dot_underscore password with
       | p0 :: p1 :: _ => [p0 +:+ num +:+ p1]
       | _ => []
       end
     else []).

(** What the body of the [try] adds for the formatted [password]. *)
Definition pattern_candidates (data : Data) (password : string) : list string :=
  if (6 <=? Py.len password) && (Py.len password <=? 20) then
    [password; Py.title password; Py.capitalize password]
    ++ (if flag true (add_numbers data) then numbered password else [])
  else [].

(** One turn of the pattern loop: [KeyError] is caught and the pattern is
    skipped; any other exception propagates. *)
Definition apply_pattern (data : Data) (vars : gmap string string)
    (passwords : gset string) (pattern : string) : result (gset string) :=
  match format pattern vars with
  | Ok password => Ok (passwords ∪ list_to_set (pattern_candidates data password))
  | Raise (KeyError _) => Ok passwords
  | Raise e => Raise e
  end.

Fixpoint apply_patterns (data : Data) (vars : gmap string string)
    (patterns : list string) (passwords : gset string) : result (gset string) :=
  match patterns with
  | [] => Ok passwords
  | pattern :: rest =>
      passwords' ← apply_pattern data vars passwords pattern;
      apply_patterns data vars rest passwords'
  end.

(** [generate_specific_examples] adds to the set it is given; [last_name[0]]
    and [first_name[0]] are read after the guard that both are non-empty. *)
Definition specific_examples (first_name last_name : string)
    (date_info : gmap string string) : list string :=
  let day := get_str date_info "day" in
  let month := get_str date_info "month" in
  let year := get_str date_info "year" in
  let year_short := get_str date_info "year_short" in
  [ first_name +:+ last_name +:+ day +:+ month +:+ year_short;
    first_name +:+ last_name +:+ year;
    first_name +:+ last_name +:+ day;
    first_name +:+ last_name +:+ month;
    first_name +:+ last_name +:+ year_short;
    last_name +:+ first_name +:+ day +:+ month +:+ year;
    last_name +:+ first_name +:+ year;
    last_name +:+ first_name +:+ day +:+ month;
    first_name +:+ last_name +:+ last_name +:+ year;
    first_name +:+ first_name +:+ last_name +:+ year;
    first_name +:+ "." +:+ last_name +:+ year_short;
    first_name +:+ "_" +:+ last_name +:+ year;
    first_name +:+ last_name +:+ "@" +:+ year_short;
    first_name +:+ year +:+ last_name;
    year_short +:+ first_name +:+ last_name;
    first_name +:+ Py.first_or_empty last_name +:+ year;
    first_name +:+ last_name;
    last_name +:+ first_name;
    Py.first_or_empty first_name +:+ last_name;
    first_name +:+ Py.first_or_empty last_name;
    first_name +:+ last_name +:+ "123";
    first_name +:+ last_name +:+ "!23";
    first_name +:+ last_name +:+ "@123" ].

Definition generate_specific_examples (passwords : gset string)
    (first_name last_name : string) (date_info : gmap string string) : gset string :=
  if negb (truthy first_name) || negb (truthy last_name) then passwords
  else passwords ∪ list_to_set (specific_examples first_name last_name date_info).

Definition date_combinations (date_info : gmap string string) : list string :=
  let day := get_str date_info "day" in
  let month := get_str date_info "month" in
  let year := get_str date_info "year" in
  let year_short := get_str date_info "year_short" in
  (if truthy day && truthy month then [day +:+ month; month +:+ day] else [])
  ++ (if truthy day && truthy month && truthy year_short
      then [day +:+ month +:+ year_short; month +:+ day +:+ year_short] else [])
  ++ (if truthy year then [year] else [])
  ++ (if truthy year_short then [year_short] else []).

(** First loop of [add_number_variations], for one [pwd]. *)
Definition dated (date_combos : list string) (pwd : string) : list string :=
  take 3 date_combos ≫= λ date_combo,
    [pwd +:+ date_combo; date_combo +:+ pwd]
    ++ (if Py.existsb_chars Py.is_digit pwd then
          match Py.search_trailing_digits pwd with
          | Some start => [Py.take start pwd +:+ date_combo]
          | None => []
          end
        else []).

(** Second loop of [add_number_variations], for one [pwd]. *)
Definition suffixed (pwd : string) : list string :=
  take 5 common_numbers ≫= λ num,
    (pwd +:+ num) ::
    (if (5 <? Py.len pwd)
        && (Py.contains "_" pwd || Py.contains "." pwd || Py.contains "-" pwd) then
       match Py.re_split sep_dot_underscore_dash pwd with
       | [p0; p1] => [p0 +:+ num +:+ p1]
       | _ => []
       end
     else []).

(** [add_special_variations], for one [pwd]. *)
Definition decorated (specials : list string) (pwd : string) : list string :=
  pwd ::
  (take 3 specials ≫= λ special,
     [pwd +:+ special; special +:+ pwd; special +:+ pwd +:+ special]
     ++ (if Py.contains " " pwd then [Py.replace " " special pwd] else [])
     ++ (if 8 <? Py.len pwd then
           let mid := Py.len pwd / 2 in
           [Py.take mid pwd +:+ special +:+ Py.drop mid pwd]
         else [])).

Definition generate_common_passwords (first_name last_name : string)
    (date_info : gmap string string) : gset string :=
  if negb (truthy first_name) || negb (truthy last_name) then ∅
  else
    let year := get_str date_info "year" in
    let year_short := get_str date_info "year_short" in
    list_to_set
      ([ first_name +:+ "123";
         first_name +:+ "1234";
         last_name +:+ "123";
         first_name +:+ Py.first_or_empty last_name +:+ "123";
         first_name +:+ "!23";
         first_name +:+ "@123";
         first_name +:+ "#123" ]
       ++ (if truthy year then
             [ first_name +:+ year;
               last_name +:+ year;
               first_name +:+ Py.first_or_empty last_name +:+ year_short ]
           else [])
       ++ [ Py.lower first_name; Py.title first_name;
            Py.lower last_name; Py.title last_name ]).

(** The double nearest to [0.3], the bound of the first draw of
    [add_leet_variations]: [5404319552844595 / 2^54]. *)
Definition float_0_3 : Q := 5404319552844595 # 18014398509481984.

Definition Qltb (x y : Q) : bool := negb (Qle_bool y x).

(** ** [analyze_and_filter] *)

Definition is_special (c : ascii) : bool := Py.contains c "!@#$%^&*".

Definition keeps (min_len max_len : Z) (pwd : string) : bool :=
  (min_len <=? Z.of_nat (Py.len pwd))%Z && (Z.of_nat (Py.len pwd) <=? max_len)%Z
  && negb (Py.has_run is_special 3 pwd)
  && negb (Py.has_run Py.is_digit 6 pwd)
  && Py.existsb_chars Py.is_alpha pwd.

Definition analyze_and_filter (passwords : gset string) (min_len max_len : Z)
    : gset string :=
  filter (λ pwd, keeps min_len max_len pwd) passwords.

(** The order of the keys [(len(x), x)]. *)
Definition key_le (x y : string) : Prop :=
  Py.len x < Py.len y ∨ (Py.len x = Py.len y ∧ String.le x y).

Global Instance key_le_dec : RelDecision key_le.
Proof. intros x y. unfold key_le. apply _. Defined.

(** ** The strata of [save_to_file] of [old_versions/Var3.py] *)

(** The three strata: short candidates, candidates with a special
    character, candidates with a digit and a letter. *)
Definition is_short (p : string) : bool := Py.len p <=? 8.
Definition has_special (p : string) : bool := Py.existsb_chars is_special p.
Definition is_mixed (p : string) : bool :=
  Py.existsb_chars (λ c, Py.contains c "0123456789") p
  && Py.existsb_chars Py.isalpha p.

Definition quota (n : N) : nat := N.to_nat n.

Definition strata (password_list : list string) : gset string :=
  list_to_set (take (quota 100000) (filter (λ p, is_short p) password_list))
  ∪ list_to_set (take (quota 200000) (filter (λ p, has_special p) password_list))
  ∪ list_to_set (take (quota 300000) (filter (λ p, is_mixed p) password_list)).

(** ** The parts of the engine that draw random numbers or iterate sets *)

Section Engine.
Context {R : Runtime}.

(** [random.choice(seq)]. *)
Definition random_choice (seq : list string) (g : rng) : result (string * rng) :=
  match seq with
  | [] => Raise IndexError
  | _ =>
      let '(i, g') := random_below (length seq) g in
      match seq !! i with
      | Some x => Ok (x, g')
      | None => Raise IndexError
      end
  end.

Definition add_number_variations (passwords : gset string)
    (date_info : gmap string string) : gset string :=
  list_to_set
    ((take 100 (set_iter passwords) ≫= dated (date_combinations date_info))
     ++ (take 50 (set_iter passwords) ≫= suffixed)).

Definition add_special_variations (passwords : gset string)
    (specials : list string) : gset string :=
  list_to_set (take 200 (set_iter passwords) ≫= decorated specials).

(** One turn of the loop over [leet_map.items()]. *)
Definition leet_entry (leet_pwd : string) (entry : ascii * list string)
    (g : rng) : result (string * rng) :=
  let '(char, subs) := entry in
  if Py.contains char (Py.lower leet_pwd) then
    let '(x, g1) := random_random g in
    if Qltb x (1 # 2) then
      '(sub1, g2) ← random_choice subs g1;
      '(sub2, g3) ← random_choice subs g2;
      Ok (Py.replace (Py.to_upper char) sub2 (Py.replace char sub1 leet_pwd), g3)
    else Ok (leet_pwd, g1)
  else Ok (leet_pwd, g).

Fixpoint leet_entries (entries : list (ascii * list string)) (leet_pwd : string)
    (g : rng) : result (string * rng) :=
  match entries with
  | [] => Ok (leet_pwd, g)
  | entry :: rest =>
      '(leet_pwd', g') ← leet_entry leet_pwd entry g;
      leet_entries rest leet_pwd' g'
  end.

(** What [add_leet_variations] adds for one [pwd]. *)
Definition leeted (pwd : string) (g : rng) : result (list string * rng) :=
  let '(x, g1) := random_random g in
  if Qltb x float_0_3 then
    '(leet_pwd, g2) ← leet_entries leet_map pwd g1;
    Ok (if decide (leet_pwd = pwd) then [pwd] else [pwd; leet_pwd], g2)
  else Ok ([pwd], g1).

Fixpoint leet_loop (pwds : list string) (new_passwords : gset string)
    (g : rng) : result (gset string * rng) :=
  match pwds with
  | [] => Ok (new_passwords, g)
  | pwd :: rest =>
      '(added, g') ← leeted pwd g;
      leet_loop rest (new_passwords ∪ list_to_set added) g'
  end.

Definition add_leet_variations (passwords : gset string) (g : rng)
    : result (gset string * rng) :=
  leet_loop (take 100 (set_iter passwords)) ∅ g.

(** The three mutation stages of [generate_smart_combinations], each
    behind its flag. *)
Definition number_stage (data : Data) (date_info : gmap string string)
    (passwords : gset string) : gset string :=
  if flag true (add_numbers data)
  then passwords ∪ add_number_variations passwords date_info
  else passwords.

Definition special_stage (data : Data) (passwords : gset string) : gset string :=
  if flag false (use_specials data)
  then passwords ∪ add_special_variations passwords (default common_specials (specials data))
  else passwords.

Definition leet_stage (data : Data) (passwords : gset string) (g : rng)
    : result (gset string * rng) :=
  if flag false (use_leet data)
  then '(new_passwords, g') ← add_leet_variations passwords g;
       Ok (passwords ∪ new_passwords, g')
  else Ok (passwords, g).

(** The value of the slot [special], drawn once before the pattern loop. *)
Definition draw_special (data : Data) (g : rng) : result (string * rng) :=
  if flag false (use_specials data) then random_choice common_specials g
  else Ok (EmptyString, g).

(** The pattern loop: the first-generation candidates. *)
Definition first_generation (data : Data) (g : rng) : result (gset string * rng) :=
  let date_info := parse_human_date (birth_of data) in
  '(special, g1) ← draw_special data g;
  passwords ← apply_patterns data (vars_dict data date_info special) human_patterns ∅;
  Ok (passwords, g1).

Definition generate_smart_combinations (data : Data) (g : rng)
    : result (gset string * rng) :=
  let date_info := parse_human_date (birth_of data) in
  '(passwords, g1) ← first_generation data g;
  let passwords :=
    generate_specific_examples passwords (first_of data) (last_of data) date_info in
  let passwords := number_stage data date_info passwords in
  let passwords := special_stage data passwords in
  '(passwords, g2) ← leet_stage data passwords g1;
  Ok (passwords ∪ generate_common_passwords (first_of data) (last_of data) date_info, g2).

(** ** The rest of [main]: size limit and final ordering *)

(** [if args.max > 0 and len(filtered) > args.max:
       filtered = set(list(filtered)[:args.max])]. *)
Definition limit (max : Z) (filtered : gset string) : gset string :=
  if (0 <? max)%Z && (max <? Z.of_nat (size filtered))%Z
  then list_to_set (take (Z.to_nat max) (set_iter filtered))
  else filtered.

(** [sorted(filtered, key=lambda x: (len(x), x))]. *)
Definition sorted_passwords (filtered : gset string) : list string :=
  merge_sort key_le (set_iter filtered).

(** The engine, with the configuration [min_len], [max_len], [max] as
    parameters: generation, filter, size limit, final ordering. *)
Definition engine (data : Data) (min_len max_len max : Z) (g : rng)
    : result (list string) :=
  '(passwords, _) ← generate_smart_combinations data g;
  let filtered := analyze_and_filter passwords min_len max_len in
  let filtered := limit max filtered in
  Ok (sorted_passwords filtered).

(** [main] calls the filter with [min_len=6, max_len=20]. *)
Definition main (data : Data) (args_max : Z) (g : rng) : result (list string) :=
  engine data 6 20 args_max g.

(** ** [save_to_file] of [old_versions/Var3.py]: the stratified sampler *)

(** [random.sample(population, k)]. *)
Definition random_sample (population : list string) (k : Z) (g : rng)
    : result (list string * rng) :=
  if (k <? 0)%Z || (Z.of_nat (length population) <? k)%Z then Raise ValueError
  else
    let '(positions, g') := random_positions (length population) (Z.to_nat k) g in
    Ok (omap (λ i, population !! i) positions, g').

(** The sampling branch, taken when [len(password_list) > max_passwords]:
    the new [password_list]. *)
Definition sample_passwords (password_list : list string) (max_passwords : Z)
    (g : rng) : result (list string) :=
  let sampled := strata password_list in
  let remaining := filter (λ p, p ∉ sampled) password_list in
  sampled' ←
    (if (max_passwords - Z.of_nat (size sampled) <? Z.of_nat (length remaining))%Z
     then '(drawn, _) ← random_sample remaining (max_passwords - Z.of_nat (size sampled)) g;
          Ok (sampled ∪ list_to_set drawn)
     else Ok sampled);
  Ok (set_iter sampled').

(** The lines [save_to_file] writes. *)
Definition save_to_file (passwords : gset string) (max_passwords : Z) (g : rng)
    : result (list string) :=
  let password_list := set_iter passwords in
  password_list' ←
    (if (max_passwords <? Z.of_nat (length password_list))%Z
     then sample_passwords password_list max_passwords g
     else Ok password_list);
  Ok (merge_sort String.le password_list').

End Engine.

(** * The advanced filter and the complexity score of [Gui/v2.py]

    [apply_advanced_filters] is a method of [SmartHumanPasswordGenerator];
    [generate_passwords] of the window calls it on the result of
    [analyze_and_filter] with the values of the option widgets.
    [calculate_complexity] and [get_complexity_color] are methods of
    [PasswordGeneratorGUI]: the generator class has no attribute
    [calculate_complexity].  The integer options are the values that [int]
    reads from the widgets. *)

Module Gui.

(** [sub in s] for strings. *)
Fixpoint str_in (sub s : string) : bool :=
  String.prefix sub s
  || match s with
     | EmptyString => false
     | String _ s' => str_in sub s'
     end.

(** [s.count(char)] for a one-character [char]. *)
Fixpoint count (char : ascii) (s : string) : nat :=
  match s with
  | EmptyString => 0
  | String c s' => (if Ascii.eqb c char then 1 else 0) + count char s'
  end.

(** [sum(1 for c in s if p(c))]. *)
Fixpoint count_if (p : ascii → bool) (s : string) : nat :=
  match s with
  | EmptyString => 0
  | String c s' => (if p c then 1 else 0) + count_if p s'
  end.

Definition sequences : list string :=
  [ "012"; "123"; "234"; "345"; "456"; "567"; "678"; "789"; "890";
    "321"; "432"; "543"; "654"; "765"; "876"; "987" ].

Definition _contains_sequential (pwd : string) : bool :=
  existsb (λ seq, str_in seq pwd) sequences.

(** The loop over [set(pwd)] returns [True] at the first character that
    occurs more than [max_allowed] times. *)
Definition _has_repeating_chars (pwd : string) (max_allowed : Z) : bool :=
  existsb (λ char, (max_allowed <? Z.of_nat (count char pwd))%Z)
          (remove_dups (String.list_ascii_of_string pwd)).

Record Options : Type := {
  exclude_similar : option bool;
  exclude_sequential : option bool;
  avoid_repeats : option bool;
  require_uppercase : option bool;
  require_lowercase : option bool;
  require_digits : option bool;
  require_special : option bool;
  min_strength : option Z;
  max_repeat : option Z;
  min_uppercase : option Z;
  min_digits : option Z;
  min_special : option Z
}.

(** [set('il1Lo0O')], or the empty set. *)
Definition similar_chars (options : Options) : list ascii :=
  if flag false (exclude_similar options)
  then String.list_ascii_of_string "il1Lo0O"
  else [].

(** The checks of the loop body before the strength check: [true] when
    one of them says [continue]. *)
Definition skipped (options : Options) (pwd : string) : bool :=
  let has_upper := Py.existsb_chars Py.isupper pwd in
  let has_lower := Py.existsb_chars Py.islower pwd in
  let has_digit := Py.existsb_chars Py.isdigit pwd in
  let has_special := Py.existsb_chars is_special pwd in
  let upper_count := Z.of_nat (count_if Py.isupper pwd) in
  let digit_count := Z.of_nat (count_if Py.isdigit pwd) in
  let special_count := Z.of_nat (count_if is_special pwd) in
  existsb (λ c, Py.contains c pwd) (similar_chars options)
  || (flag false (exclude_sequential options) && _contains_sequential pwd)
  || (flag false (avoid_repeats options)
      && _has_repeating_chars pwd (default 3%Z (max_repeat options)))
  || (flag false (require_uppercase options) && negb has_upper)
  || (flag false (require_lowercase options) && negb has_lower)
  || (flag false (require_digits options) && negb has_digit)
  || (flag false (require_special options) && negb has_special)
  || ((upper_count <? default 0 (min_uppercase options))%Z
      || (digit_count <? default 0 (min_digits options))%Z
      || (special_count <? default 0 (min_special options))%Z).

(** A call either returns or raises [AttributeError] for the attribute
    that the object lacks. *)
Inductive outcome (A : Type) : Type :=
  | Returned (a : A)
  | AttributeError (attribute : string).
Arguments Returned {A} a.
Arguments AttributeError {A} attribute.

(** The loop [for pwd in passwords]: the strength check evaluates
    [self.calculate_complexity(pwd)] on the generator. *)
Fixpoint filter_loop (options : Options) (pwds : list string)
    (filtered : gset string) : outcome (gset string) :=
  match pwds with
  | [] => Returned filtered
  | pwd :: rest =>
      if skipped options pwd then filter_loop options rest filtered
      else if (0 <? default 0 (min_strength options))%Z
           then AttributeError "calculate_complexity"
           else filter_loop options rest (filtered ∪ {[ pwd ]})
  end.

Definition apply_advanced_filters {R : Runtime} (passwords : gset string)
    (options : Options) : outcome (gset string) :=
  filter_loop options (set_iter passwords) ∅.

(** [re.search(r'\d{4,}$', password)] is not [None]; [$] as in
    [Py.search_trailing_digits]. *)
Definition ends_with_digits (n : nat) (s : string) : bool :=
  let body := if Py.ends_with_newline s then Py.take (Py.len s - 1) s else s in
  n <=? Py.trailing_digits body.

(** [calculate_complexity], given the contents of the first-name and
    last-name fields of the window. *)
Definition calculate_complexity (first_name_var last_name_var : string)
    (password : string) : Z :=
  let score := 0%Z in
  let score :=
    if 12 <=? Py.len password then (score + 3)%Z
    else if 8 <=? Py.len password then (score + 2)%Z
    else if 6 <=? Py.len password then (score + 1)%Z
    else score in
  let score := if Py.existsb_chars Py.isupper password then (score + 1)%Z else score in
  let score := if Py.existsb_chars Py.islower password then (score + 1)%Z else score in
  let score := if Py.existsb_chars Py.isdigit password then (score + 1)%Z else score in
  let score := if Py.existsb_chars is_special password then (score + 2)%Z else score in
  let score :=
    if String.eqb (Py.lower password)
                  (Py.lower first_name_var +:+ Py.lower last_name_var)
    then (score - 1)%Z else score in
  let score := if ends_with_digits 4 password then (score + 1)%Z else score in
  Z.min (Z.max score 1) 10.

Inductive color : Type := simple | medium | complex | strong.

Definition get_complexity_color (score : Z) : color :=
  if (score <=? 3)%Z then simple
  else if (score <=? 5)%Z then medium
  else if (score <=? 7)%Z then complex
  else strong.

(** The empty dictionary of options: every [options.get] gives its
    default. *)
Definition no_options : Options :=
  {| exclude_similar := None; exclude_sequential := None; avoid_repeats := None;
     require_uppercase := None; require_lowercase := None; require_digits := None;
     require_special := None; min_strength := None; max_repeat := None;
     min_uppercase := None; min_digits := None; min_special := None |}.

(** The options that [generate_passwords] reads from the widgets before
    any of them is touched: [require_lowercase_var] starts as [True]. *)
Definition initial_options : Options :=
  {| exclude_similar := Some false; exclude_sequential := Some false;
     avoid_repeats := Some false; require_uppercase := Some false;
     require_lowercase := Some true; require_digits := Some false;
     require_special := Some false; min_strength := Some 0%Z;
     max_repeat := Some 3%Z; min_uppercase := Some 0%Z;
     min_digits := Some 0%Z; min_special := Some 0%Z |}.

(** ** The pattern table and [vars_dict] of the generator of [Gui/v2.py]

    The text fields of the profile are a dictionary here: the window puts
    a key in it only when its field is filled in and its group is
    enabled. *)

Definition human_patterns : list string :=
  [ "{first}{last}"; "{last}{first}"; "{first}{year}"; "{last}{year}";
    "{first}{year_short}"; "{last}{year_short}"; "{first}{day}{month}";
    "{last}{day}{month}"; "{first}{month}{year}"; "{last}{month}{year}";
    "{first}{day}{month}{year}"; "{last}{day}{month}{year}";
    "{first}{month}{day}{year}"; "{last}{month}{day}{year}";
    "{first}{year}{month}{day}"; "{last}{year}{month}{day}"; "{first}{last}{year}";
    "{last}{first}{year}"; "{first}{last}{year_short}"; "{last}{first}{year_short}";
    "{first}{last}{day}{month}"; "{last}{first}{day}{month}";
    "{first}{last}{month}{year}"; "{last}{first}{month}{year}";
    "{first}{last}{day}{month}{year}"; "{last}{first}{day}{month}{year}";
    "{first}{last}{month}{day}{year}"; "{last}{first}{month}{day}{year}";
    "{first}{last}{year}{month}{day}"; "{last}{first}{year}{month}{day}";
    "{first_initial}{last}{year}"; "{first}{last_initial}{year}";
    "{first_initial}{last_initial}{year}"; "{first_initial}{last}{year_short}";
    "{first}{last_initial}{year_short}"; "{first_initial}{last_initial}{year_short}";
    "{first_initial}{last}{day}{month}"; "{first}{last_initial}{day}{month}";
    "{first_initial}{last_initial}{day}{month}"; "{first_initial}{last}{month}{year}";
    "{first}{last_initial}{month}{year}"; "{first_initial}{last_initial}{month}{year}";
    "{first_initial}{last}{day}{month}{year}";
    "{first}{last_initial}{day}{month}{year}";
    "{first_initial}{last_initial}{day}{month}{year}";
    "{first}{last}{day}{month}{year_short}"; "{last}{first}{day}{month}{year_short}";
    "{first}{last}{month}{day}{year_short}"; "{last}{first}{month}{day}{year_short}";
    "{first}{last}{year_short}{day}{month}"; "{last}{first}{year_short}{day}{month}";
    "{first}{last}{year_short}{month}{day}"; "{last}{first}{year_short}{month}{day}";
    "{first}{last}{day}{year_short}"; "{last}{first}{day}{year_short}";
    "{first}{last}{month}{year_short}"; "{last}{first}{month}{year_short}";
    "{first}{last}{day}"; "{last}{first}{day}"; "{first}{last}{day}{day}";
    "{last}{first}{day}{day}"; "{first}{last}{birth_day}"; "{last}{first}{birth_day}";
    "{first}{last}{birth_day}{birth_day}"; "{last}{first}{birth_day}{birth_day}";
    "{first}{day}{last}"; "{last}{day}{first}"; "{day}{first}{last}";
    "{day}{last}{first}"; "{first}{last}{day}123"; "{last}{first}{day}123";
    "{first}{last}{month}"; "{last}{first}{month}"; "{first}{last}{birth_month}";
    "{last}{first}{birth_month}"; "{first}{last}{month}{month}";
    "{last}{first}{month}{month}"; "{first}{month}{last}"; "{last}{month}{first}";
    "{month}{first}{last}"; "{month}{last}{first}"; "{first}{last}{month_name}";
    "{last}{first}{month_name}"; "{first}{last}{month_name_short}";
    "{last}{first}{month_name_short}"; "{first}{last}{year}"; "{last}{first}{year}";
    "{first}{last}{year_short}"; "{last}{first}{year_short}";
    "{first}{last}{birth_year}"; "{last}{first}{birth_year}";
    "{first}{last}{year}{year}"; "{last}{first}{year}{year}"; "{first}{year}{last}";
    "{last}{year}{first}"; "{year}{first}{last}"; "{year}{last}{first}";
    "{first}{year_short}{last}"; "{last}{year_short}{first}";
    "{year_short}{first}{last}"; "{year_short}{last}{first}";
    "{first}{last}{day}{month}{year_short}"; "{last}{first}{day}{month}{year_short}";
    "{first}{last}{month}{day}{year_short}"; "{last}{first}{month}{day}{year_short}";
    "{first}{last}{year_short}{month}{day}"; "{last}{first}{year_short}{month}{day}";
    "{first}{last}{year_short}{day}{month}"; "{last}{first}{year_short}{day}{month}";
    "{first}{last}{year}123"; "{last}{first}{year}123"; "{first}{last}{year_short}123";
    "{last}{first}{year_short}123"; "{first}{last}{day}123"; "{last}{first}{day}123";
    "{first}{last}{month}123"; "{last}{first}{month}123"; "{first}{last}{year}007";
    "{last}{first}{year}007"; "{first}{last}{year}111"; "{last}{first}{year}111";
    "{first}{last}{year}999"; "{last}{first}{year}999"; "{first}.{last}{year}";
    "{first}_{last}{year}"; "{first}-{last}{year}"; "{first}@{last}{year}";
    "{first}.{last}{year_short}"; "{first}_{last}{year_short}";
    "{first}-{last}{year_short}"; "{first}@{last}{year_short}";
    "{first}.{last}{day}{month}"; "{first}_{last}{day}{month}";
    "{first}-{last}{day}{month}"; "{first}@{last}{day}{month}";
    "{first}.{last}{month}{year}"; "{first}_{last}{month}{year}";
    "{first}-{last}{month}{year}"; "{first}@{last}{month}{year}";
    "{first}{special}{last}{year}"; "{last}{special}{first}{year}";
    "{first}{special}{last}{year_short}"; "{last}{special}{first}{year_short}";
    "{first}{special}{last}{day}{month}"; "{last}{special}{first}{day}{month}";
    "{first}{special}{last}{month}{year}"; "{last}{special}{first}{month}{year}";
    "{first}{last}{special}{year}"; "{last}{first}{special}{year}";
    "{first}{last}{special}{year_short}"; "{last}{first}{special}{year_short}";
    "{special}{first}{last}{year}"; "{special}{last}{first}{year}";
    "{first}{last}{year}{special}"; "{last}{first}{year}{special}";
    "{special}{first}{last}{year_short}"; "{special}{last}{first}{year_short}";
    "{first}{last}{year_short}{special}"; "{last}{first}{year_short}{special}";
    "{special}{first}{last}{special}{year}"; "{special}{last}{first}{special}{year}";
    "{nick}{year}"; "{nick}{year_short}"; "{nick}{day}"; "{nick}{month}";
    "{nick}{day}{month}"; "{nick}{month}{day}"; "{nick}{day}{month}{year}";
    "{nick}{month}{day}{year}"; "{nick}{year}{day}{month}"; "{nick}{year}{month}{day}";
    "{nick}{birth_day}"; "{nick}{birth_month}"; "{nick}{birth_year}";
    "{nick}{birth_day}{birth_month}"; "{nick}{birth_month}{birth_year}";
    "{nick}{birth_day}{birth_year}"; "{first}{year}"; "{first}{year_short}";
    "{first}{day}"; "{first}{month}"; "{first}{day}{month}"; "{first}{month}{day}";
    "{first}{day}{month}{year}"; "{first}{month}{day}{year}";
    "{first}{year}{day}{month}"; "{first}{year}{month}{day}"; "{first}{birth_day}";
    "{first}{birth_month}"; "{first}{birth_year}"; "{first}{birth_day}{birth_month}";
    "{first}{birth_month}{birth_year}"; "{first}{birth_day}{birth_year}";
    "{last}{year}"; "{last}{year_short}"; "{last}{day}"; "{last}{month}";
    "{last}{day}{month}"; "{last}{month}{day}"; "{last}{day}{month}{year}";
    "{last}{month}{day}{year}"; "{last}{year}{day}{month}"; "{last}{year}{month}{day}";
    "{last}{birth_day}"; "{last}{birth_month}"; "{last}{birth_year}";
    "{last}{birth_day}{birth_month}"; "{last}{birth_month}{birth_year}";
    "{last}{birth_day}{birth_year}"; "{first_initial}{last}{year}";
    "{first}{last_initial}{year}"; "{first_initial}{last_initial}{year}";
    "{first_initial}{last}{year_short}"; "{first}{last_initial}{year_short}";
    "{first_initial}{last_initial}{year_short}"; "{first_initial}{last}{day}{month}";
    "{first}{last_initial}{day}{month}"; "{first_initial}{last_initial}{day}{month}";
    "{first_initial}{last}{month}{year}"; "{first}{last_initial}{month}{year}";
    "{first_initial}{last_initial}{month}{year}"; "{year}{first}{last}";
    "{year}{last}{first}"; "{year_short}{first}{last}"; "{year_short}{last}{first}";
    "{day}{month}{first}{last}"; "{day}{month}{last}{first}";
    "{month}{day}{first}{last}"; "{month}{day}{last}{first}";
    "{year}{month}{first}{last}"; "{year}{month}{last}{first}";
    "{month}{year}{first}{last}"; "{month}{year}{last}{first}";
    "{day}{year}{first}{last}"; "{day}{year}{last}{first}"; "{first}{year}{last}";
    "{last}{year}{first}"; "{first}{year_short}{last}"; "{last}{year_short}{first}";
    "{first}{day}{last}{month}"; "{last}{month}{first}{day}";
    "{first}{month}{last}{day}"; "{last}{day}{first}{month}";
    "{first}{year}{last}{day}"; "{last}{year}{first}{month}";
    "{first}{last}{day_padded}{month_padded}";
    "{last}{first}{day_padded}{month_padded}";
    "{first}{last}{month_padded}{day_padded}";
    "{last}{first}{month_padded}{day_padded}";
    "{first}{last}{day_padded}{month_padded}{year}";
    "{last}{first}{day_padded}{month_padded}{year}";
    "{first}{last}{month_padded}{day_padded}{year}";
    "{last}{first}{month_padded}{day_padded}{year}";
    "{first}{last}{month}/{day}/{year_short}";
    "{last}{first}{month}/{day}/{year_short}"; "{first}{last}{day}-{month}-{year}";
    "{last}{first}{day}-{month}-{year}"; "{first}{last}{year}-{month}-{day}";
    "{last}{first}{year}-{month}-{day}"; "{first}{last}{month}.{day}.{year}";
    "{last}{first}{month}.{day}.{year}"; "{first}{last}{day}{day}";
    "{last}{first}{day}{day}"; "{first}{last}{month}{month}";
    "{last}{first}{month}{month}"; "{first}{last}{year}{year}";
    "{last}{first}{year}{year}"; "{first}{last}{day}{day}{month}";
    "{last}{first}{day}{day}{month}"; "{first}{last}{month}{month}{year}";
    "{last}{first}{month}{month}{year}"; "{first}{last}{year}{year}{day}";
    "{last}{first}{year}{year}{day}"; "{first}{last}{month_name}{year}";
    "{last}{first}{month_name}{year}"; "{first}{last}{month_name_short}{year}";
    "{last}{first}{month_name_short}{year}"; "{first}{last}{month_name}{year_short}";
    "{last}{first}{month_name}{year_short}";
    "{first}{last}{month_name_short}{year_short}";
    "{last}{first}{month_name_short}{year_short}"; "{first}{last}{day}{month_name}";
    "{last}{first}{day}{month_name}"; "{first}{last}{day}{month_name_short}";
    "{last}{first}{day}{month_name_short}"; "{first}{last}({year})";
    "{last}{first}({year})"; "{first}{last}[{year}]"; "{last}{first}[{year}]";
    "{first}{last}{{{year}}}"; "{last}{first}{{{year}}}";
    "{first}{last}({year_short})"; "{last}{first}({year_short})";
    "{first}{last}[{year_short}]"; "{last}{first}[{year_short}]";
    "{first}{last}{year}1"; "{last}{first}{year}1"; "{first}{last}{year}01";
    "{last}{first}{year}01"; "{first}{last}{year}001"; "{last}{first}{year}001";
    "{first}{last}{year}!"; "{last}{first}{year}!"; "{first}{last}{year}@";
    "{last}{first}{year}@"; "{first}{last}{year}#"; "{last}{first}{year}#";
    "{first}{last}"; "{last}{first}"; "{first}{year}{last}"; "{year}{first}{last}";
    "{first}{last}{first}{year}"; "{last}{first}{last}{year}";
    "{first}{first}{last}{year}"; "{last}{last}{first}{year}";
    "{first}{spouse_initial}{year}"; "{spouse_initial}{first}{year}";
    "{first}{child_initial}{year}"; "{child_initial}{first}{year}";
    "{first}{pet_initial}{year}"; "{pet_initial}{first}{year}";
    "{first}{last}{first}{year}"; "{last}{first}{last}{year}";
    "{first}{first}{last}{year}"; "{last}{last}{first}{year}";
    "{first}{last}{last}{year}"; "{last}{first}{first}{year}";
    "{first}{last}{first}{year_short}"; "{last}{first}{last}{year_short}";
    "{first}{first}{last}{year_short}"; "{last}{last}{first}{year_short}";
    "{first}{spouse_initial}{year}"; "{spouse_initial}{first}{year}";
    "{first}{child_initial}{year}"; "{child_initial}{first}{year}";
    "{first}{pet_initial}{year}"; "{pet_initial}{first}{year}";
    "{first}{father_initial}{year}"; "{father_initial}{first}{year}";
    "{first}{mother_initial}{year}"; "{mother_initial}{first}{year}"; "{nick}{year}";
    "{nick}{birth_day}"; "{nick}{birth_month}"; "{nick}{birth_day}{birth_month}";
    "{last}{first}{year_short}"; "{year}{first}{last}"; "{first}.{last}{year_short}";
    "{first}_{last}{year}"; "{first}{special}{last}{year}";
    "{first}{last}{special}{year}"; "{first}{last}123"; "{first}{last}1234";
    "{first}{last}12345"; "{first}{last}!"; "{first}{last}!!"; "{first}{last}?";
    "{first}{spouse_initial}{year}"; "{child_name}{year}"; "{pet_name}{year}";
    "{first}{birth_day}"; "{last}{birth_month}"; "{first_initial}{last_initial}{year}";
    "{first}{year}{last}"; "{year}{first}{year_short}"; "{movie}"; "{movie}{year}";
    "{movie}{year_short}"; "{first}{movie}"; "{movie}{first}"; "{first}{movie}{year}";
    "{movie}{first}{year}"; "{music}"; "{music}{year}"; "{music}{year_short}";
    "{first}{music}"; "{music}{first}"; "{first}{music}{year}"; "{music}{first}{year}";
    "{game}"; "{game}{year}"; "{game}{year_short}"; "{first}{game}"; "{game}{first}";
    "{first}{game}{year}"; "{game}{first}{year}"; "{book}"; "{book}{year}";
    "{book}{year_short}"; "{first}{book}"; "{book}{first}"; "{first}{book}{year}";
    "{book}{first}{year}"; "{sport}"; "{sport}{year}"; "{team}"; "{team}{year}";
    "{first}{sport}"; "{sport}{first}"; "{first}{team}"; "{team}{first}";
    "{sport}{year_short}"; "{team}{year_short}"; "{celebrity}"; "{celebrity}{year}";
    "{first}{celebrity}"; "{celebrity}{first}"; "{place}"; "{place}{year}";
    "{first}{place}"; "{place}{first}"; "{hobby}"; "{hobby}{year}"; "{first}{hobby}";
    "{hobby}{first}"; "{first}{movie}{year_short}"; "{first}{sport}{year_short}";
    "{first}{game}{year_short}"; "{movie}{year}{first}"; "{sport}{year}{first}";
    "{game}{year}{first}"; "{first}{music}{day}{month}"; "{first}{game}{day}{month}";
    "{music}{day}{month}{year}"; "{game}{day}{month}{year}"; "{first}{special}{movie}";
    "{first}{special}{sport}"; "{movie}{special}{year}"; "{sport}{special}{year}";
    "{movie}123"; "{sport}123"; "{game}123"; "{music}123"; "{book}123";
    "{celebrity}123"; "{place}123"; "{hobby}123" ].

(** [vars_dict] of [generate_smart_combinations], given the value drawn
    for the slot [special]. *)
Definition vars_dict (data : gmap string string) (date_info : gmap string string)
    (special : string) : gmap string string :=
  let first_name := Py.lower (get_str data "first_name") in
  let last_name := Py.lower (get_str data "last_name") in
  let nickname := Py.lower (get_str data "nickname") in
  with_optional "lucky_num" (Py.lower <$> data !! "lucky_num")
    (with_optional "hobby" (Py.lower <$> data !! "hobby")
       (with_optional "place" (Py.lower <$> data !! "place")
          (with_optional "celebrity" (Py.lower <$> data !! "celebrity")
             (with_optional "game" (Py.lower <$> data !! "game")
                (with_optional "book" (Py.lower <$> data !! "book")
                   (with_optional "music" (Py.lower <$> data !! "music")
                      (with_optional "movie" (Py.lower <$> data !! "movie")
                         (with_optional "team" (Py.lower <$> data !! "team")
                            (with_optional "sport" (Py.lower <$> data !! "sport")
  (with_optional "pet_name" (Py.lower <$> data !! "pet_name")
     (with_optional "child_name" (Py.lower <$> data !! "child_name")
        (with_optional "spouse_initial"
           ((λ spouse, Py.first_or_empty (Py.lower spouse)) <$> data !! "spouse_name")
           (<["special" := special]>
              (<["month" := get_str date_info "month"]>
                 (<["day" := get_str date_info "day"]>
                    (<["birth_month" := get_str date_info "month"]>
                       (<["birth_day" := get_str date_info "day"]>
                          (<["year_short" := get_str date_info "year_short"]>
                             (<["year" := get_str date_info "year"]>
                                (<["nick" := nickname]>
                                   (<["last_initial" := Py.first_or_empty last_name]>
                                      (<["last" := last_name]>
                                         (<["first_initial" := Py.first_or_empty first_name]>
                                            (<["first" := first_name]> ∅)
  ))))))))))))))))))))))).

(** The keys of the profile that [vars_dict] reads behind [in data]. *)
Definition optional_keys : list string :=
  [ "spouse_name"; "child_name"; "pet_name"; "sport"; "team"; "movie"; "music";
    "book"; "game"; "celebrity"; "place"; "hobby"; "lucky_num" ].

(** The slots of the table that [vars_dict] never binds. *)
Definition never_bound : list string :=
  [ "month_name"; "month_name_short"; "birth_year"; "day_padded"; "month_padded";
    "child_initial"; "pet_initial"; "father_initial"; "mother_initial" ].

Definition mentions_never_bound (pattern : string) : bool :=
  match template_fields pattern with
  | Some names => existsb (λ name, bool_decide (name ∈ never_bound)) names
  | None => false
  end.

(** ** [generate_passwords] of the window, after the generator

    [passwords] is the set that [generate_smart_combinations] returned.
    An exception is caught by the method and shown in an error dialog;
    [self.passwords] is assigned only when none is raised. *)

(** [l[:stop]] for an integer [stop]: a negative [stop] counts from the
    end. *)
Definition slice_to (stop : Z) (l : list string) : list string :=
  if (0 <=? stop)%Z then take (Z.to_nat stop) l
  else take (length l - Z.to_nat (- stop)) l.

(** [if len(filtered) > max_pwds: filtered = set(list(filtered)[:max_pwds])]. *)
Definition truncate {R : Runtime} (max_pwds : Z) (filtered : gset string)
    : gset string :=
  if (max_pwds <? Z.of_nat (size filtered))%Z
  then list_to_set (slice_to max_pwds (set_iter filtered))
  else filtered.

Definition generate_passwords {R : Runtime} (passwords : gset string)
    (min_len max_len : Z) (options : Options) (max_pwds : Z)
    : outcome (gset string) :=
  match apply_advanced_filters (analyze_and_filter passwords min_len max_len) options with
  | Returned filtered => Returned (truncate max_pwds filtered)
  | AttributeError attribute => AttributeError attribute
  end.

End Gui.

(** * The generator of [old_versions/Var3.py]

    [create_base_elements] builds a dictionary of four sets.  The pattern
    functions read them; three of them subscript a set
    ([elements['years'][:20]]), which raises [TypeError].  The four pattern
    functions that [hyper_generate_from_minimal] calls after
    [pattern_special] are a parameter [later]. *)

Module Var3.

Inductive error : Type :=
  | TypeError
  | Other (e : exn).

Inductive outcome (A : Type) : Type :=
  | Returned (a : A)
  | Raised (e : error).
Arguments Returned {A} a.
Arguments Raised {A} e.

Global Instance outcome_ret : MRet outcome := λ A a, Returned a.
Global Instance outcome_bind : MBind outcome := λ A B k r,
  match r with
  | Returned a => k a
  | Raised e => Raised e
  end.

Definition lift {A : Type} (r : result A) : outcome A :=
  match r with
  | Ok a => Returned a
  | Raise e => Raised (Other e)
  end.

(** [s[:stop]] for a set [s]: a set is not subscriptable. *)
Definition set_slice (s : gset string) (stop : nat) : outcome (list string) :=
  Raised TypeError.

(** A [for] loop whose body may raise. *)
Fixpoint for_each {A S : Type} (xs : list A) (body : A → S → outcome S) (s : S)
    : outcome S :=
  match xs with
  | [] => Returned s
  | x :: rest => s' ← body x s; for_each rest body s'
  end.

(** [str(i)] and [s.zfill(width)] for a string of digits. *)
Definition str (i : nat) : string := pretty i.

Fixpoint zeros (n : nat) : string :=
  match n with
  | O => EmptyString
  | S n' => String "0" (zeros n')
  end.

Definition zfill (width : nat) (s : string) : string :=
  zeros (width - Py.len s) +:+ s.

(** [s[::-1]]. *)
Fixpoint reversed_go (s acc : string) : string :=
  match s with
  | EmptyString => acc
  | String c s' => reversed_go s' (String c acc)
  end.
Definition reversed (s : string) : string := reversed_go s EmptyString.

Definition leet_full : list (ascii * list string) :=
  [ ("a"%char, ["4"; "@"]);
    ("b"%char, ["8"; "|3"]);
    ("e"%char, ["3"]);
    ("g"%char, ["6"; "9"]);
    ("i"%char, ["1"; "!"]);
    ("l"%char, ["1"; "|"]);
    ("o"%char, ["0"]);
    ("s"%char, ["5"; "$"]);
    ("t"%char, ["7"]);
    ("z"%char, ["2"]) ].

(** [leet_map[char]] when [char in leet_map]. *)
Fixpoint leet_lookup (table : list (ascii * list string)) (char : ascii)
    : option (list string) :=
  match table with
  | [] => None
  | (key, subs) :: rest => if Ascii.eqb key char then Some subs else leet_lookup rest char
  end.

Definition common_years : list string :=
  [ "1990"; "1991"; "1992"; "1993"; "1994"; "1995";
    "2000"; "2001"; "2002"; "2003"; "2004"; "2005";
    "2010"; "2011"; "2012"; "2013"; "2014"; "2015";
    "2020"; "2021"; "2022"; "2023"; "2024" ].

Record Elements : Type := {
  names : gset string;
  initials : gset string;
  years : gset string;
  variants : gset string
}.

Definition create_base_elements (first last year : string) : Elements :=
  let first_lower := Py.lower first in
  let last_lower := Py.lower last in
  let names : gset string :=
    if truthy first then {[ first_lower; Py.title first ]} else ∅ in
  let variants : gset string :=
    if truthy first then
      list_to_set [ first_lower +:+ "y"; first_lower +:+ "ie"; first_lower +:+ "ey";
                    first_lower +:+ first_lower; "my" +:+ first_lower;
                    "super" +:+ first_lower; first_lower +:+ "123";
                    first_lower +:+ "1" ]
    else ∅ in
  let initials : gset string :=
    if truthy first then {[ Py.first_or_empty first_lower ]} else ∅ in
  let names :=
    if truthy last then names ∪ {[ last_lower; Py.title last ]} else names in
  let initials :=
    if truthy last then initials ∪ {[ Py.first_or_empty last_lower ]} else initials in
  let names :=
    if truthy last && truthy first then
      names ∪ list_to_set
        [ first_lower +:+ last_lower; last_lower +:+ first_lower;
          first_lower +:+ "." +:+ last_lower; first_lower +:+ "_" +:+ last_lower;
          Py.first_or_empty first_lower +:+ last_lower;
          last_lower +:+ Py.first_or_empty first_lower ]
    else names in
  let years : gset string :=
    if truthy year then
      list_to_set [ year; Py.drop 2 year; reversed year; year +:+ Py.drop 2 year ]
    else ∅ in
  let years := years ∪ list_to_set common_years in
  {| names := names; initials := initials; years := years; variants := variants |}.

Definition generate_leet_patterns (word : string) : gset string :=
  let common_patterns :=
    [ Py.replace "o" "0" (Py.replace "i" "1" (Py.replace "e" "3" (Py.replace "a" "4" word)));
      Py.replace "o" "0" (Py.replace "t" "7" (Py.replace "s" "5" word));
      Py.replace "i" "!" (Py.replace "s" "$" (Py.replace "a" "@" word)) ] in
  let patterns : gset string := list_to_set common_patterns in
  if 2 <? Py.len word then
    let first := Py.first_or_empty word in
    let rest := Py.drop 1 word in
    let leet_rest := Py.replace "i" "1" (Py.replace "e" "3" (Py.replace "a" "4" rest)) in
    patterns ∪ {[ first +:+ leet_rest ]}
  else patterns.

Definition max_variations : nat := N.to_nat 10000.

Section Generator.
Context {R : Runtime}.

Definition pattern_simple (elements : Elements) : gset string :=
  list_to_set
    ((set_iter (names elements) ≫= λ name,
      set_iter (years elements) ≫= λ year,
        [ name +:+ year; year +:+ name; name +:+ "_" +:+ year; year +:+ "_" +:+ name ]
        ++ (seq 0 1000 ≫= λ i,
              [ name +:+ zfill 3 (str i); name +:+ "_" +:+ zfill 3 (str i) ]))
     ++ (set_iter (initials elements) ≫= λ initial,
         set_iter (years elements) ≫= λ year,
           [ initial +:+ year; year +:+ initial ]
           ++ (seq 0 100 ≫= λ i, [ initial +:+ zfill 2 (str i) +:+ Py.drop 2 year ]))).

(** The inner loop [for char in word] of [generate_leet_variations]. *)
Fixpoint leet_word (word : string) (g : rng) : result (string * rng) :=
  match word with
  | EmptyString => Ok (EmptyString, g)
  | String char rest =>
      '(piece, g1) ←
        match leet_lookup leet_full char with
        | Some subs =>
            let '(x, g1) := random_random g in
            if Qltb (1 # 2) x then random_choice subs g1
            else Ok (String char EmptyString, g1)
        | None => Ok (String char EmptyString, g)
        end;
      '(tail, g2) ← leet_word rest g1;
      Ok (piece +:+ tail, g2)
  end.

(** The loop [for _ in range(max_variations)]. *)
Fixpoint random_mutations (n : nat) (word : string) (variations : gset string)
    (g : rng) : result (gset string * rng) :=
  match n with
  | O => Ok (variations, g)
  | S n' =>
      '(leet_word, g1) ← leet_word word g;
      let variations :=
        variations ∪ {[ leet_word; Py.title leet_word; Py.upper leet_word ]} in
      let variations :=
        variations
        ∪ list_to_set (seq 0 10 ≫= λ i,
                         [ leet_word +:+ str i; leet_word +:+ str i +:+ str i ]) in
      random_mutations n' word variations g1
  end.

Definition generate_leet_variations (word : string) (g : rng)
    : result (gset string * rng) :=
  let variations : gset string := {[ word ]} in
  let variations := variations ∪ generate_leet_patterns word in
  random_mutations max_variations word variations g.

Definition pattern_leet (elements : Elements) (g : rng)
    : outcome (gset string * rng) :=
  for_each (take 50 (set_iter (names elements)))
    (λ name '(passwords, g),
       '(leet_variations, g1) ← lift (generate_leet_variations (Py.lower name) g);
       let passwords := passwords ∪ leet_variations in
       passwords ←
         for_each (take 100 (set_iter leet_variations))
           (λ leet_name passwords,
              years20 ← set_slice (years elements) 20;
              Returned
                (passwords
                 ∪ list_to_set
                     (years20 ≫= λ year,
                        [ leet_name +:+ year; year +:+ leet_name ]
                        ++ (["!"; "@"; "#"; "$"; "%"] ≫= λ special,
                              [ leet_name +:+ year +:+ special;
                                special +:+ leet_name +:+ year ]))))
           passwords;
       Returned (passwords, g1))
    (∅, g).

Definition pattern_years (elements : Elements) : gset string :=
  let all_years := str <$> seq 1900 126 in
  let short_years := (λ y, Py.drop 2 (str y)) <$> seq 1900 126 in
  list_to_set
    (take 100 all_years ≫= λ year,
     take 100 short_years ≫= λ short_year,
       [ year +:+ short_year; short_year +:+ year;
         year +:+ "_" +:+ short_year; short_year +:+ "_" +:+ year ]
       ++ (seq 0 100 ≫= λ i, [ year +:+ zfill 2 (str i); zfill 2 (str i) +:+ year ])).

Definition specials : list string :=
  ["!"; "@"; "#"; "$"; "%"; "^"; "&"; "*"; "_"; "-"; "."; "+"; "="].

Definition pattern_special (elements : Elements) : outcome (gset string) :=
  let passwords : gset string :=
    list_to_set
      (set_iter (names elements) ≫= λ name,
       specials ≫= λ special,
         [ special +:+ name; name +:+ special; special +:+ name +:+ special;
           special +:+ special +:+ name; name +:+ special +:+ special ]
         ++ (seq 0 10 ≫= λ i,
               [ special +:+ name +:+ str i; name +:+ special +:+ str i;
                 str i +:+ special +:+ name ])) in
  years50 ← set_slice (years elements) 50;
  for_each years50
    (λ year passwords,
       for_each (take 5 specials)
         (λ special passwords,
            let passwords := passwords ∪ {[ special +:+ year; year +:+ special ]} in
            names20 ← set_slice (names elements) 20;
            Returned
              (passwords
               ∪ list_to_set
                   (names20 ≫= λ name,
                      [ special +:+ name +:+ year; name +:+ special +:+ year;
                        special +:+ name +:+ special +:+ year ])))
         passwords)
    passwords.

(** [hyper_generate_from_minimal]; [later] stands for the calls of
    [pattern_doubling], [pattern_keyboard], [pattern_mutations] and
    [pattern_hybrid], which draw no random number. *)
Definition hyper_generate_from_minimal (later : Elements → outcome (gset string))
    (first_name last_name year : string) (g : rng) : outcome (gset string * rng) :=
  let base_elements := create_base_elements first_name last_name year in
  let all_passwords := pattern_simple base_elements in
  '(leet, g1) ← pattern_leet base_elements g;
  let all_passwords := all_passwords ∪ leet in
  let all_passwords := all_passwords ∪ pattern_years base_elements in
  special ← pattern_special base_elements;
  let all_passwords := all_passwords ∪ special in
  more ← later base_elements;
  Returned (all_passwords ∪ more, g1).

(** [main]: the generator, then [save_to_file] with [args.limit]. *)
Definition main (later : Elements → outcome (gset string))
    (first last year : string) (limit : Z) (g : rng) : outcome (list string) :=
  '(passwords, g1) ← hyper_generate_from_minimal later (Py.lower first) (Py.lower last)
                       year g;
  lift (save_to_file passwords limit g1).

End Generator.

End Var3.

(** ** Two concrete runtimes and a profile, for the examples

    Both runtimes draw [0.0] and index [0] every time; they differ in the
    order in which they iterate a set. *)

Definition constant_runtime (iter : gset string → list string)
    (iter_perm : ∀ s, iter s ≡ₚ elements s) : Runtime.
Proof.
  refine {| rng := unit;
            random_random := λ g, (0%Q, g);
            random_below := λ _ g, (0, g);
            random_positions := λ _ k g, (seq 0 k, g);
            set_iter := iter;
            set_iter_perm := iter_perm |}.
  - intros n g Hn. exact Hn.
  - intros n k g _. apply length_seq.
  - intros n k g _. apply NoDup_seq.
  - intros n k g Hk. apply Forall_forall. intros i Hi.
    apply elem_of_seq in Hi. simpl in *. lia.
Defined.

Definition forward_runtime : Runtime :=
  constant_runtime elements (λ s, reflexivity (elements s)).

Definition backward_runtime : Runtime :=
  constant_runtime (λ s, reverse (elements s)) (λ s, reverse_Permutation (elements s)).

(** The profile of the interactive mode for john doe, born 15061990, every
    optional answer left empty and every stage declined. *)
Definition john_doe : Data :=
  {| first_name := Some "john"; last_name := Some "doe"; nickname := Some "";
     birth_date := Some "15061990";
     spouse_name := None; child_name := None; pet_name := None;
     use_specials := Some false; use_leet := Some false;
     add_numbers := Some false; specials := None |}.

(** A profile of the interactive mode whose pattern [{first}{last}] expands
    to twenty characters: no birth date, every optional answer left empty,
    the common number patterns accepted. *)
Definition twenty_letters : Data :=
  {| first_name := Some "abcdefghij"; last_name := Some "klmnopqrst";
     nickname := Some ""; birth_date := Some "";
     spouse_name := None; child_name := None; pet_name := None;
     use_specials := Some false; use_leet := Some false;
     add_numbers := Some true; specials := None |}.

(** ** Predicates of the statements *)

(** What [format_go] does on a pattern that [template_fields_go] can read:
    it returns when every name is bound, and raises [KeyError] for a name of
    the pattern that is not. *)
Definition format_outcome (names : list string) (kw : gmap string string)
    (r : result string) : Prop :=
  match r with
  | Ok _ => ∀ name, name ∈ names → is_Some (kw !! name)
  | Raise (KeyError key) => key ∈ names ∧ kw !! key = None
  | Raise _ => False
  end.

(** The total length of the pieces of a split. *)
Fixpoint total_len (pieces : list string) : nat :=
  match pieces with
  | [] => 0
  | p :: ps => Py.len p + total_len ps
  end.

(** The characters of a string. *)
Definition chars (s : string) : list ascii := String.list_ascii_of_string s.

(** The configured special characters that no pattern, fixed example or
    leet substitution writes. *)
Definition guarded (c : ascii) : bool := Py.contains c "%&*-".

Definition no_guarded (s : string) : bool := negb (Py.existsb_chars guarded s).

(** The characters of the profile's text fields, as they were entered. *)
Definition field_chars (data : Data) : list ascii :=
  chars (default EmptyString (first_name data))
  ++ chars (default EmptyString (last_name data))
  ++ chars (default EmptyString (nickname data))
  ++ chars (default EmptyString (spouse_name data))
  ++ chars (default EmptyString (child_name data))
  ++ chars (default EmptyString (pet_name data)).

(** The text fields of the profile are ASCII text: on such text the case
    functions of [Py] are those of Python. *)
Definition is_ascii (c : ascii) : bool := (Py.code c <? 128)%N.

Definition ascii_fields (data : Data) : Prop :=
  ∀ c, c ∈ field_chars data → is_ascii c = true.

(** A character is [safe] when it is not guarded or is one of [F]; a
string is [Safe] when all its characters are. *)
Definition safe (F : ascii → Prop) (c : ascii) : Prop := guarded c = true → F c.
Definition Safe (F : ascii → Prop) (s : string) : Prop := Forall (safe F) (chars s).

(** [s] has [n] consecutive characters of the class [p]. *)
Definition has_run_of (p : ascii → bool) (n : nat) (s : string) : Prop :=
  ∃ pre mid post,
    chars s = pre ++ mid ++ post ∧ length mid = n ∧ Forall (λ c, p c = true) mid.

(** What [analyze_and_filter] asks of a candidate, in words of the
    candidate's characters. *)
Definition acceptable (min_len max_len : Z) (pwd : string) : Prop :=
  (min_len ≤ Z.of_nat (Py.len pwd) ≤ max_len)%Z
  ∧ (∃ c, c ∈ chars pwd ∧ Py.is_alpha c = true)
  ∧ ¬ has_run_of is_special 3 pwd
  ∧ ¬ has_run_of Py.is_digit 6 pwd.

(** [t] is [s] with some characters exchanged, each for one that [R]
    allows in its place. *)
Fixpoint pointwise (R : ascii → ascii → bool) (s t : string) : bool :=
  match s, t with
  | EmptyString, EmptyString => true
  | String a s', String b t' => R a b && pointwise R s' t'
  | _, _ => false
  end.

(** [b] is one of the substitutes that [leet_map] lists for the letter [a],
    in either case. *)
Definition leet_sub (a b : ascii) : bool :=
  existsb (λ entry : ascii * list string,
             bool_decide (String b EmptyString ∈ entry.2)
             && (Ascii.eqb a entry.1 || Ascii.eqb a (Py.to_upper entry.1)))
          leet_map.

Definition leet_char (a b : ascii) : bool := Ascii.eqb a b || leet_sub a b.

(** [x] is [pwd] with some of its letters a, e, i, o, s, t replaced in
    place by a substitute of [leet_map]. *)
Definition leet_variant (pwd x : string) : bool := pointwise leet_char pwd x.

(** One [str.replace] of the character [c] by the character [r]. *)
Definition replaced (c r : ascii) (a b : ascii) : bool :=
  Ascii.eqb a b || (Ascii.eqb a c && Ascii.eqb b r).

(** The characters of the special strings that the special-character
    stage writes: none when [use_specials] is off. *)
Definition special_chars (data : Data) : list ascii :=
  if flag false (use_specials data)
  then default common_specials (specials data) ≫= chars
  else [].

(** [c] is, up to case, one of the characters [sources]. *)
Definition letter_of (sources : list ascii) (c : ascii) : Prop :=
  ∃ d, d ∈ sources ∧ Py.to_lower d = Py.to_lower c.

(** A character is [known] when it is no letter or is, up to case, one of
    [sources]; a string is [Known] when all its characters are. *)
Definition known (sources : list ascii) (c : ascii) : Prop :=
  Py.is_alpha c = true → letter_of sources c.
Definition Known (sources : list ascii) (s : string) : Prop :=
  Forall (known sources) (chars s).

Definition letterless (s : string) : bool := negb (Py.existsb_chars Py.is_alpha s).

(** The text of a pattern outside its replacement fields, as [format_go]
    copies it ([{{] and [}}] as one brace). *)
Fixpoint literal_text (in_field : bool) (p : string) : string :=
  match p with
  | EmptyString => EmptyString
  | String c p' =>
      if in_field then
        if Ascii.eqb c "}" then literal_text false p' else literal_text true p'
      else if Ascii.eqb c "{" then
        match p' with
        | String "{"%char p'' => String "{" (literal_text false p'')
        | _ => literal_text true p'
        end
      else if Ascii.eqb c "}" then
        match p' with
        | String "}"%char p'' => String "}" (literal_text false p'')
        | _ => EmptyString
        end
      else String c (literal_text false p')
  end.

(** * Properties *)

(** ** Strings *)

Lemma len_app (a b : string) : Py.len (a +:+ b) = Py.len a + Py.len b.
Proof. induction a as [|c a IH]; simpl; [done|]. unfold Py.len in *. simpl. by rewrite IH. Qed.

Lemma len_map_chars (f : ascii → ascii) (s : string) : Py.len (Py.map_chars f s) = Py.len s.
Proof. induction s as [|c s IH]; simpl; [done|]. unfold Py.len in *. simpl. by rewrite IH. Qed.

Lemma len_title_go (b : bool) (s : string) : Py.len (Py.title_go b s) = Py.len s.
Proof.
  revert b. induction s as [|c s IH]; intros b; simpl; [done|].
  unfold Py.len in *. simpl. by rewrite IH.
Qed.

Lemma len_title (s : string) : Py.len (Py.title s) = Py.len s.
Proof. apply len_title_go. Qed.

Lemma len_capitalize (s : string) : Py.len (Py.capitalize s) = Py.len s.
Proof.
  destruct s as [|c s]; simpl; [done|].
  unfold Py.len, Py.lower in *. simpl. f_equal. apply len_map_chars.
Qed.

(** ** [parse_human_date] *)

Lemma parse_human_date_nonempty (date_str : string) :
  Py.re_sub_non_digits date_str ≠ EmptyString →
  parse_human_date date_str =
    let clean_date := Py.re_sub_non_digits date_str in
    <["full" := clean_date]>
      (if Py.len clean_date =? 8 then
         <["year_short" := Py.slice 6 8 clean_date]>
           (<["year" := Py.slice 4 8 clean_date]>
              (<["month" := Py.slice 2 4 clean_date]>
                 (<["day" := Py.slice 0 2 clean_date]> ∅)))
       else if Py.len clean_date =? 6 then
         <["year_short" := Py.slice 4 6 clean_date]>
           (<["year" := "20" +:+ Py.slice 4 6 clean_date]>
              (<["month" := Py.slice 2 4 clean_date]>
                 (<["day" := Py.slice 0 2 clean_date]> ∅)))
       else if Py.len clean_date =? 4 then
         <["month" := Py.slice 2 4 clean_date]>
           (<["day" := Py.slice 0 2 clean_date]> ∅)
       else ∅).
Proof.
  intros Hne. unfold parse_human_date.
  destruct (decide (date_str = EmptyString)) as [->|_]; [by destruct Hne|done].
Qed.

(** C5.  Date parsing strips the non-digit characters and branches on the
    number of digits left: eight digits [d1..d8] give day [d1 d2], month
    [d3 d4], year [d5 d6 d7 d8] and year_short [d7 d8]; six digits give day,
    month, the year ["20"] followed by the last two digits, and those two
    digits as year_short; four digits give day and month and no year. *)
Theorem parse_human_date_by_digit_count (date_str : string) :
  (∀ d1 d2 d3 d4 d5 d6 d7 d8 : ascii,
     Py.re_sub_non_digits date_str
       = String d1 (String d2 (String d3 (String d4
           (String d5 (String d6 (String d7 (String d8 EmptyString))))))) →
     parse_human_date date_str !! "day" = Some (String d1 (String d2 EmptyString))
     ∧ parse_human_date date_str !! "month" = Some (String d3 (String d4 EmptyString))
     ∧ parse_human_date date_str !! "year"
         = Some (String d5 (String d6 (String d7 (String d8 EmptyString))))
     ∧ parse_human_date date_str !! "year_short" = Some (String d7 (String d8 EmptyString)))
  ∧ (∀ d1 d2 d3 d4 d5 d6 : ascii,
     Py.re_sub_non_digits date_str
       = String d1 (String d2 (String d3 (String d4 (String d5 (String d6 EmptyString))))) →
     parse_human_date date_str !! "day" = Some (String d1 (String d2 EmptyString))
     ∧ parse_human_date date_str !! "month" = Some (String d3 (String d4 EmptyString))
     ∧ parse_human_date date_str !! "year"
         = Some ("20" +:+ String d5 (String d6 EmptyString))
     ∧ parse_human_date date_str !! "year_short" = Some (String d5 (String d6 EmptyString)))
  ∧ (∀ d1 d2 d3 d4 : ascii,
     Py.re_sub_non_digits date_str = String d1 (String d2 (String d3 (String d4 EmptyString))) →
     parse_human_date date_str !! "day" = Some (String d1 (String d2 EmptyString))
     ∧ parse_human_date date_str !! "month" = Some (String d3 (String d4 EmptyString))
     ∧ parse_human_date date_str !! "year" = None
     ∧ parse_human_date date_str !! "year_short" = None).
Proof.
  split_and!; intros; rewrite parse_human_date_nonempty by congruence;
    cbv zeta; rewrite H; cbn [Py.len String.length Nat.eqb]; by vm_compute.
Qed.

(** The example of the specification: ["15061990"]. *)
Lemma parse_human_date_by_digit_count_example :
  parse_human_date "15061990" !! "day" = Some "15"
  ∧ parse_human_date "15061990" !! "month" = Some "06"
  ∧ parse_human_date "15061990" !! "year" = Some "1990"
  ∧ parse_human_date "15061990" !! "year_short" = Some "90".
Proof.
  exact (proj1 (parse_human_date_by_digit_count "15061990")
           "1"%char "5"%char "0"%char "6"%char "1"%char "9"%char "9"%char "0"%char
           eq_refl).
Defined.

(** C10.  Date parsing slices by position and validates nothing: with eight
    digits the month is the third and fourth digit whatever their value, so
    that the US-format date ["12/31/1999"] gets month ["31"]; and whether a
    month is produced at all depends on the number of digits only. *)
Theorem parse_human_date_positional (date_str : string) :
  (Py.len (Py.re_sub_non_digits date_str) = 8 →
   parse_human_date date_str !! "month"
     = Some (Py.slice 2 4 (Py.re_sub_non_digits date_str)))
  ∧ parse_human_date "12/31/1999" !! "month" = Some "31"
  ∧ (is_Some (parse_human_date date_str !! "month") ↔
     Py.len (Py.re_sub_non_digits date_str) = 8
     ∨ Py.len (Py.re_sub_non_digits date_str) = 6
     ∨ Py.len (Py.re_sub_non_digits date_str) = 4).
Proof.
  split_and!.
  - intros H8. rewrite parse_human_date_nonempty by (intros E; by rewrite E in H8).
    cbv zeta. rewrite H8. cbn [Nat.eqb]. by simplify_map_eq.
  - by vm_compute.
  - destruct (decide (Py.re_sub_non_digits date_str = EmptyString)) as [E|E].
    + assert (parse_human_date date_str !! "month" = None) as ->.
      { unfold parse_human_date. case_decide; [done|]. rewrite E. by vm_compute. }
      rewrite E. split; [by intros [? ?]|]. intros [?|[?|?]]; discriminate.
    + rewrite parse_human_date_nonempty by done. cbv zeta.
      destruct (Py.len (Py.re_sub_non_digits date_str) =? 8) eqn:E8;
        [apply Nat.eqb_eq in E8; simplify_map_eq; split; [auto|by eexists]|].
      destruct (Py.len (Py.re_sub_non_digits date_str) =? 6) eqn:E6;
        [apply Nat.eqb_eq in E6; simplify_map_eq; split; [auto|by eexists]|].
      destruct (Py.len (Py.re_sub_non_digits date_str) =? 4) eqn:E4;
        [apply Nat.eqb_eq in E4; simplify_map_eq; split; [auto|by eexists]|].
      apply Nat.eqb_neq in E8, E6, E4. simplify_map_eq.
      split; [by intros [? ?]|]. intros [?|[?|?]]; done.
Qed.

(** A date with month 99: eight digits are sliced whatever they are. *)
Lemma parse_human_date_positional_example :
  parse_human_date "01-99-2024" !! "month" = Some "99".
Proof.
  exact (proj1 (parse_human_date_positional "01-99-2024") eq_refl).
Defined.

(** A date that is empty or has a number of digits other than 8, 6 and 4
    gives none of the four components. *)
Lemma parse_human_date_unparsable (date_str : string) :
  Py.len (Py.re_sub_non_digits date_str) ≠ 8 →
  Py.len (Py.re_sub_non_digits date_str) ≠ 6 →
  Py.len (Py.re_sub_non_digits date_str) ≠ 4 →
  parse_human_date date_str !! "day" = None
  ∧ parse_human_date date_str !! "month" = None
  ∧ parse_human_date date_str !! "year" = None
  ∧ parse_human_date date_str !! "year_short" = None.
Proof.
  intros H8 H6 H4. unfold parse_human_date. case_decide; [done|].
  apply Nat.eqb_neq in H8, H6, H4. rewrite H8, H6, H4. by simplify_map_eq.
Qed.

(** ** [format] *)

Lemma format_outcome_bind (names : list string) (kw : gmap string string)
    (r : result string) (f : string → string) :
  format_outcome names kw r → format_outcome names kw (s ← r; Ok (f s)).
Proof. by destruct r. Qed.

Lemma format_go_outcome (kw : gmap string string) (n : nat) :
  ∀ (p : string) (field : option string) (names : list string),
    Py.len p ≤ n →
    template_fields_go field p = Some names →
    format_outcome names kw (format_go field kw p).
Proof.
  induction n as [|n IH]; intros p field names Hlen Hfields.
  - destruct p; [|simpl in Hlen; unfold Py.len in Hlen; simpl in Hlen; lia].
    destruct field; simpl in *; [done|]. simplify_eq. simpl. intros ? H. inversion H.
  - destruct p as [|c p]; [destruct field; simpl in *; [done|]; simplify_eq; simpl;
                            intros ? H; inversion H|].
    assert (Py.len p ≤ n) as Hp by (unfold Py.len in *; simpl in Hlen; lia).
    destruct field as [name|]; simpl in Hfields |- *.
    + destruct (Ascii.eqb c "}").
      * unfold lookup_field. destruct (all_digits name); [done|].
        destruct (template_fields_go None p) as [rest|] eqn:Hrest; simplify_eq/=.
        specialize (IH p None rest Hp Hrest).
        destruct (kw !! name) as [v|] eqn:Hv; simpl.
        -- destruct (format_go None kw p) as [r|[]]; simpl in *; try done.
           ++ intros x [->|Hx]%elem_of_cons; [by eexists|by apply IH].
           ++ destruct IH as [? ?]. split; [by apply list_elem_of_further|done].
        -- split; [apply list_elem_of_here|done].
      * destruct (Ascii.eqb c "{"); [done|]. destruct (field_syntax c); [done|].
        by apply IH.
    + destruct (Ascii.eqb c "{").
      * destruct p as [|c' p'']; [by apply IH|].
        destruct (Ascii.eqb_spec c' "{") as [->|Hc'].
        -- apply format_outcome_bind. apply IH; [|done].
           unfold Py.len in *. simpl in *. lia.
        -- assert (template_fields_go (Some EmptyString) (String c' p'') = Some names) as Hf.
           { destruct c' as [[] [] [] [] [] [] [] []]; try done. }
           assert (format_go None kw (String "{" (String c' p''))
                   = format_go (Some EmptyString) kw (String c' p'')) as Hg.
           { destruct c' as [[] [] [] [] [] [] [] []]; try done. }
           change (format_outcome names kw (format_go None kw (String "{" (String c' p'')))).
           rewrite Hg. by apply IH.
      * destruct (Ascii.eqb c "}").
        -- destruct p as [|c' p'']; [done|].
           destruct (Ascii.eqb_spec c' "}") as [->|Hc'].
           ++ apply format_outcome_bind. apply IH; [|done].
              unfold Py.len in *. simpl in *. lia.
           ++ destruct c' as [[] [] [] [] [] [] [] []]; try done.
        -- apply format_outcome_bind. by apply IH.
Qed.

Lemma format_outcome_of_fields (pattern : string) (names : list string)
    (kw : gmap string string) :
  template_fields pattern = Some names →
  format_outcome names kw (format pattern kw).
Proof. intros H. by eapply format_go_outcome. Qed.

(** A pattern all of whose names are bound is formatted. *)
Lemma format_bound (pattern : string) (names : list string) (kw : gmap string string) :
  template_fields pattern = Some names →
  (∀ name, name ∈ names → is_Some (kw !! name)) →
  ∃ password, format pattern kw = Ok password.
Proof.
  intros Hf Hall. pose proof (format_outcome_of_fields _ _ kw Hf) as H.
  destruct (format pattern kw) as [s|[]]; simpl in H; try done; [by eexists|].
  destruct H as [Hin Hnone]. apply Hall in Hin. rewrite Hnone in Hin. by destruct Hin.
Qed.

(** A pattern one of whose names is not bound raises [KeyError]. *)
Lemma format_missing (pattern : string) (names : list string) (kw : gmap string string)
    (name : string) :
  template_fields pattern = Some names →
  name ∈ names → kw !! name = None →
  ∃ key, format pattern kw = Raise (KeyError key).
Proof.
  intros Hf Hin Hnone. pose proof (format_outcome_of_fields _ _ kw Hf) as H.
  destruct (format pattern kw) as [s|[]]; simpl in H; try done; [|by eexists].
  apply H in Hin. rewrite Hnone in Hin. by destruct Hin.
Qed.

(** ** The pattern loop *)

Lemma apply_pattern_returns (data : Data) (vars : gmap string string)
    (passwords : gset string) (pattern : string) :
  is_Some (template_fields pattern) →
  ∃ passwords', apply_pattern data vars passwords pattern = Ok passwords'
                ∧ passwords ⊆ passwords'.
Proof.
  intros [names Hf]. pose proof (format_outcome_of_fields _ _ vars Hf) as H.
  unfold apply_pattern. destruct (format pattern vars) as [s|[]]; simpl in H; try done.
  - eexists. split; [done|]. set_solver.
  - by eexists.
Qed.

Lemma human_patterns_readable :
  Forall (λ pattern, is_Some (template_fields pattern)) human_patterns.
Proof. repeat (constructor; [by vm_compute; eexists|]). constructor. Qed.

(** An invariant of the candidate set that every formatted pattern keeps is
    kept by the loop. *)
Lemma apply_patterns_invariant (P : gset string → Prop) (data : Data)
    (vars : gmap string string) (patterns : list string) :
  (∀ passwords pattern password,
     pattern ∈ patterns → P passwords → format pattern vars = Ok password →
     P (passwords ∪ list_to_set (pattern_candidates data password))) →
  ∀ passwords passwords',
    P passwords →
    apply_patterns data vars patterns passwords = Ok passwords' →
    P passwords'.
Proof.
  induction patterns as [|pattern rest IH]; intros Hstep passwords passwords' HP Hrun.
  - simpl in Hrun. by simplify_eq.
  - simpl in Hrun. unfold apply_pattern in Hrun at 1.
    destruct (format pattern vars) as [password|[]] eqn:Hfmt; simpl in Hrun; try done.
    + eapply IH; [| |exact Hrun].
      * intros. eapply Hstep; eauto. by apply list_elem_of_further.
      * eapply Hstep; eauto. apply list_elem_of_here.
    + eapply IH; [| exact HP |exact Hrun].
      intros. eapply Hstep; eauto. by apply list_elem_of_further.
Qed.

Lemma apply_patterns_mono (data : Data) (vars : gmap string string)
    (patterns : list string) :
  ∀ passwords passwords',
    apply_patterns data vars patterns passwords = Ok passwords' →
    passwords ⊆ passwords'.
Proof.
  induction patterns as [|pattern rest IH]; intros passwords passwords' Hrun.
  - simpl in Hrun. by simplify_eq.
  - simpl in Hrun. unfold apply_pattern in Hrun at 1.
    destruct (format pattern vars) as [password|[]]; simpl in Hrun; try done.
    + apply IH in Hrun. set_solver.
    + by apply IH.
Qed.

(** The candidates of a pattern that is formatted are in the result. *)
Lemma apply_patterns_contains (data : Data) (vars : gmap string string)
    (patterns : list string) (pattern password c : string) :
  pattern ∈ patterns →
  format pattern vars = Ok password →
  ∀ passwords passwords',
    apply_patterns data vars patterns passwords = Ok passwords' →
    c ∈ pattern_candidates data password →
    c ∈ passwords'.
Proof.
  intros Hin Hfmt. induction patterns as [|p rest IH]; [by apply not_elem_of_nil in Hin|].
  intros passwords passwords' Hrun Hc. simpl in Hrun.
  apply elem_of_cons in Hin as [<-|Hin].
  - unfold apply_pattern in Hrun at 1. rewrite Hfmt in Hrun. simpl in Hrun.
    apply apply_patterns_mono in Hrun. apply Hrun.
    by apply elem_of_union_r, elem_of_list_to_set.
  - destruct (apply_pattern data vars passwords p) as [X|]; simpl in Hrun; [|done].
    by eapply IH.
Qed.

Lemma apply_patterns_returns (data : Data) (vars : gmap string string)
    (patterns : list string) :
  Forall (λ pattern, is_Some (template_fields pattern)) patterns →
  ∀ passwords, ∃ passwords',
    apply_patterns data vars patterns passwords = Ok passwords'.
Proof.
  induction 1 as [|pattern rest Hp _ IH]; intros passwords; simpl.
  - by eexists.
  - destruct (apply_pattern_returns data vars passwords pattern Hp) as (X & -> & _).
    simpl. apply IH.
Qed.

(** C7.  A pattern that refers to a slot absent from the bindings adds no
    candidate and raises no error: the turn of the loop returns the
    candidate set unchanged, and the loop goes on with the remaining
    patterns exactly as if the pattern were not in the table. *)
Theorem missing_slot_skips_pattern (data : Data) (vars : gmap string string)
    (passwords : gset string) (pattern : string) (names : list string)
    (name : string) (rest : list string) :
  template_fields pattern = Some names →
  name ∈ names →
  vars !! name = None →
  apply_pattern data vars passwords pattern = Ok passwords
  ∧ apply_patterns data vars (pattern :: rest) passwords
    = apply_patterns data vars rest passwords.
Proof.
  intros Hf Hin Hnone.
  destruct (format_missing pattern names vars name Hf Hin Hnone) as [key Hkey].
  assert (apply_pattern data vars passwords pattern = Ok passwords) as Hskip.
  { unfold apply_pattern. by rewrite Hkey. }
  split; [done|]. simpl. by rewrite Hskip.
Qed.

(** The example of the specification: the pattern with [{spouse_initial}] on
    a profile without a spouse. *)
Lemma missing_slot_skips_pattern_example :
  let vars := vars_dict john_doe (parse_human_date "15061990") EmptyString in
  apply_pattern john_doe vars ∅ "{first}{spouse_initial}{year}" = Ok ∅
  ∧ apply_patterns john_doe vars ["{first}{spouse_initial}{year}"; "{first}{year}"] ∅
    = apply_patterns john_doe vars ["{first}{year}"] ∅.
Proof.
  exact (missing_slot_skips_pattern john_doe
           (vars_dict john_doe (parse_human_date "15061990") EmptyString) ∅
           "{first}{spouse_initial}{year}" ["first"; "spouse_initial"; "year"]
           "spouse_initial" ["{first}{year}"]
           eq_refl
           (list_elem_of_further _ _ _ (list_elem_of_here _ _))
           eq_refl).
Defined.

(** ** The mutation stages and the run as a whole *)

Section EngineFacts.
Context {R : Runtime}.

Lemma random_choice_returns (seq : list string) (g : rng) :
  seq ≠ [] → ∃ x g', random_choice seq g = Ok (x, g') ∧ x ∈ seq.
Proof.
  intros Hne. unfold random_choice. destruct seq as [|y seq']; [done|].
  set (l := y :: seq'). pose proof (random_below_lt (length l) g) as Hlt.
  destruct (random_below (length l) g) as [i g'] eqn:Hdraw. simpl in Hlt.
  destruct (lookup_lt_is_Some_2 l i) as [x Hx]; [apply Hlt; simpl; lia|].
  rewrite Hx. exists x, g'. split; [done|]. by eapply list_elem_of_lookup_2.
Qed.

Lemma leet_entry_returns (leet_pwd : string) (entry : ascii * list string) (g : rng) :
  entry.2 ≠ [] → ∃ s g', leet_entry leet_pwd entry g = Ok (s, g').
Proof.
  intros Hne. destruct entry as [char subs]. simpl in *.
  destruct (Py.contains char (Py.lower leet_pwd)); [|by eexists _, _].
  destruct (random_random g) as [x g1]. destruct (Qltb x (1 # 2)); [|by eexists _, _].
  destruct (random_choice_returns subs g1 Hne) as (s1 & g2 & -> & _). simpl.
  destruct (random_choice_returns subs g2 Hne) as (s2 & g3 & -> & _). simpl.
  by eexists _, _.
Qed.

Lemma leet_entries_returns (entries : list (ascii * list string)) :
  Forall (λ entry, entry.2 ≠ []) entries →
  ∀ leet_pwd g, ∃ s g', leet_entries entries leet_pwd g = Ok (s, g').
Proof.
  induction 1 as [|entry rest Hne _ IH]; intros leet_pwd g; simpl.
  - by eexists _, _.
  - destruct (leet_entry_returns leet_pwd entry g Hne) as (s & g' & ->). simpl. apply IH.
Qed.

Lemma leet_map_nonempty : Forall (λ entry : ascii * list string, entry.2 ≠ []) leet_map.
Proof. repeat constructor; done. Qed.

Lemma leeted_returns (pwd : string) (g : rng) :
  ∃ added g', leeted pwd g = Ok (added, g').
Proof.
  unfold leeted. destruct (random_random g) as [x g1].
  destruct (Qltb x float_0_3); [|by eexists _, _].
  destruct (leet_entries_returns leet_map leet_map_nonempty pwd g1) as (s & g2 & ->).
  simpl. by eexists _, _.
Qed.

Lemma leet_loop_returns (pwds : list string) :
  ∀ new_passwords g, ∃ new_passwords' g',
    leet_loop pwds new_passwords g = Ok (new_passwords', g').
Proof.
  induction pwds as [|pwd rest IH]; intros new_passwords g; simpl.
  - by eexists _, _.
  - destruct (leeted_returns pwd g) as (added & g' & ->). simpl. apply IH.
Qed.

Lemma leet_stage_returns (data : Data) (passwords : gset string) (g : rng) :
  ∃ passwords' g', leet_stage data passwords g = Ok (passwords', g')
                   ∧ passwords ⊆ passwords'.
Proof.
  unfold leet_stage. destruct (flag false (use_leet data)).
  - unfold add_leet_variations.
    destruct (leet_loop_returns (take 100 (set_iter passwords)) ∅ g) as (new & g' & ->).
    simpl. eexists _, _. split; [done|]. set_solver.
  - by eexists _, _.
Qed.

Lemma number_stage_superset (data : Data) (date_info : gmap string string)
    (passwords : gset string) :
  passwords ⊆ number_stage data date_info passwords.
Proof. unfold number_stage. destruct (flag true (add_numbers data)); set_solver. Qed.

Lemma special_stage_superset (data : Data) (passwords : gset string) :
  passwords ⊆ special_stage data passwords.
Proof. unfold special_stage. destruct (flag false (use_specials data)); set_solver. Qed.

(** C8.  Each of the three mutation stages returns a superset of the
    candidate set it is given (it only unions strings into it), and a
    stage whose flag is false returns the set unchanged; the leet stage
    then also leaves the random generator untouched. *)
Theorem stages_only_add (data : Data) (date_info : gmap string string)
    (passwords : gset string) (g : rng) :
  passwords ⊆ number_stage data date_info passwords
  ∧ passwords ⊆ special_stage data passwords
  ∧ (∃ passwords' g', leet_stage data passwords g = Ok (passwords', g')
                      ∧ passwords ⊆ passwords')
  ∧ (add_numbers data = Some false → number_stage data date_info passwords = passwords)
  ∧ (flag false (use_specials data) = false → special_stage data passwords = passwords)
  ∧ (flag false (use_leet data) = false → leet_stage data passwords g = Ok (passwords, g)).
Proof.
  split_and!.
  - apply number_stage_superset.
  - apply special_stage_superset.
  - apply leet_stage_returns.
  - intros H. unfold number_stage. by rewrite H.
  - intros H. unfold special_stage. by rewrite H.
  - intros H. unfold leet_stage. by rewrite H.
Qed.

Lemma draw_special_returns (data : Data) (g : rng) :
  ∃ special g', draw_special data g = Ok (special, g').
Proof.
  unfold draw_special. destruct (flag false (use_specials data)); [|by eexists _, _].
  destruct (random_choice_returns common_specials g) as (x & g' & -> & _); [done|].
  by eexists _, _.
Qed.

Lemma first_generation_returns (data : Data) (g : rng) :
  ∃ passwords g', first_generation data g = Ok (passwords, g').
Proof.
  unfold first_generation.
  destruct (draw_special_returns data g) as (special & g1 & ->).
  cbn [mbind result_bind].
  destruct (apply_patterns_returns data
              (vars_dict data (parse_human_date (birth_of data)) special)
              human_patterns human_patterns_readable ∅) as (passwords & ->).
  simpl. by eexists _, _.
Qed.

(** The generator raises nothing, whatever the profile and the draws. *)
Lemma generate_smart_combinations_returns (data : Data) (g : rng) :
  ∃ passwords g', generate_smart_combinations data g = Ok (passwords, g').
Proof.
  unfold generate_smart_combinations.
  destruct (first_generation_returns data g) as (passwords & g1 & ->).
  cbn [mbind result_bind].
  match goal with |- context [leet_stage data ?X g1] =>
    destruct (leet_stage_returns data X g1) as (passwords' & g2 & -> & _) end.
  simpl. by eexists _, _.
Qed.

Lemma engine_unfold (data : Data) (min_len max_len max : Z) (g : rng)
    (passwords : gset string) (g' : rng) :
  generate_smart_combinations data g = Ok (passwords, g') →
  engine data min_len max_len max g
  = Ok (sorted_passwords (limit max (analyze_and_filter passwords min_len max_len))).
Proof. intros H. unfold engine. by rewrite H. Qed.

End EngineFacts.

(** ** Filter, size limit and final ordering *)

Section PipelineFacts.
Context {R : Runtime}.

Lemma set_iter_empty : set_iter ∅ = [].
Proof.
  apply Permutation_nil_r. rewrite (set_iter_perm ∅). by rewrite elements_empty.
Qed.

Lemma elem_of_set_iter (s : gset string) (x : string) : x ∈ set_iter s ↔ x ∈ s.
Proof. rewrite (set_iter_perm s). apply elem_of_elements. Qed.

Lemma NoDup_set_iter (s : gset string) : NoDup (set_iter s).
Proof. rewrite (set_iter_perm s). apply NoDup_elements. Qed.

Lemma length_set_iter (s : gset string) : length (set_iter s) = size s.
Proof. by rewrite (set_iter_perm s). Qed.

Lemma sorted_passwords_empty : sorted_passwords ∅ = [].
Proof. unfold sorted_passwords. by rewrite set_iter_empty. Qed.

Lemma analyze_and_filter_subset (passwords : gset string) (min_len max_len : Z) :
  analyze_and_filter passwords min_len max_len ⊆ passwords.
Proof. unfold analyze_and_filter. intros x Hx. by apply elem_of_filter in Hx as [_ ?]. Qed.

(** With [min_len > max_len] no candidate passes the length check. *)
Lemma analyze_and_filter_inverted (passwords : gset string) (min_len max_len : Z) :
  (max_len < min_len)%Z → analyze_and_filter passwords min_len max_len = ∅.
Proof.
  intros Hlt. apply set_eq. intros x. split; [|set_solver].
  unfold analyze_and_filter. intros [Hk _]%elem_of_filter. exfalso.
  unfold keeps in Hk. apply Is_true_true in Hk.
  repeat (apply andb_true_iff in Hk as [Hk ?]).
  apply Z.leb_le in Hk. match goal with H : (_ <=? max_len)%Z = true |- _ =>
    apply Z.leb_le in H end. lia.
Qed.

(** With [args.max <= 0] the size limit is switched off. *)
Lemma limit_disabled (max : Z) (filtered : gset string) :
  (max ≤ 0)%Z → limit max filtered = filtered.
Proof.
  intros Hle. unfold limit.
  destruct (0 <? max)%Z eqn:E; [apply Z.ltb_lt in E; lia|done].
Qed.

Lemma limit_within (max : Z) (filtered : gset string) :
  (Z.of_nat (size filtered) ≤ max)%Z → limit max filtered = filtered.
Proof.
  intros Hle. unfold limit.
  destruct (max <? Z.of_nat (size filtered))%Z eqn:E; [apply Z.ltb_lt in E; lia|].
  by rewrite andb_false_r.
Qed.

Lemma limit_empty (max : Z) : limit max ∅ = ∅.
Proof.
  unfold limit. rewrite size_empty.
  destruct (0 <? max)%Z eqn:E1, (max <? Z.of_nat 0)%Z eqn:E2; try done.
  apply Z.ltb_lt in E1, E2. lia.
Qed.

Lemma limit_subset (max : Z) (filtered : gset string) : limit max filtered ⊆ filtered.
Proof.
  unfold limit. destruct (_ && _); [|done].
  intros x Hx. apply elem_of_list_to_set in Hx.
  apply elem_of_set_iter. by eapply subseteq_take.
Qed.


(** C6.  A birth date that is empty or whose digits are not 8, 6 or 4 in
    number (["abcd"] has none) gives a date without day, month, year and
    year_short, which the generator reads as empty strings; nothing is
    raised, and the engine returns its output as for any other profile. *)
Theorem unparsable_date_is_success (data : Data) (min_len max_len max : Z) (g : rng) :
  Py.len (Py.re_sub_non_digits (birth_of data)) ≠ 8 →
  Py.len (Py.re_sub_non_digits (birth_of data)) ≠ 6 →
  Py.len (Py.re_sub_non_digits (birth_of data)) ≠ 4 →
  (parse_human_date (birth_of data) !! "day" = None
   ∧ parse_human_date (birth_of data) !! "month" = None
   ∧ parse_human_date (birth_of data) !! "year" = None
   ∧ parse_human_date (birth_of data) !! "year_short" = None)
  ∧ (get_str (parse_human_date (birth_of data)) "day" = EmptyString
     ∧ get_str (parse_human_date (birth_of data)) "month" = EmptyString
     ∧ get_str (parse_human_date (birth_of data)) "year" = EmptyString
     ∧ get_str (parse_human_date (birth_of data)) "year_short" = EmptyString)
  ∧ (∃ passwords g', generate_smart_combinations data g = Ok (passwords, g'))
  ∧ (∃ output, engine data min_len max_len max g = Ok output).
Proof.
  intros H8 H6 H4.
  destruct (parse_human_date_unparsable (birth_of data) H8 H6 H4) as (Hd & Hm & Hy & Hs).
  split_and!; try done; unfold get_str; try (by rewrite ?Hd, ?Hm, ?Hy, ?Hs).
  - apply generate_smart_combinations_returns.
  - destruct (generate_smart_combinations_returns data g) as (passwords & g' & Hgen).
    eexists. by eapply engine_unfold.
Qed.

(** C3, as the code has it.  The engine rejects no configuration: it
    returns its output whatever [min_len], [max_len] and [max] are.  With
    [min_len > max_len] the output is empty; with [max <= 0] the size limit
    is off and the output is the whole filtered set, in the final order. *)
Theorem engine_rejects_no_configuration (data : Data) (min_len max_len max : Z) (g : rng) :
  ∃ passwords g',
    generate_smart_combinations data g = Ok (passwords, g')
    ∧ engine data min_len max_len max g
      = Ok (sorted_passwords (limit max (analyze_and_filter passwords min_len max_len)))
    ∧ ((max_len < min_len)%Z → engine data min_len max_len max g = Ok [])
    ∧ ((max ≤ 0)%Z →
       engine data min_len max_len max g
       = Ok (sorted_passwords (analyze_and_filter passwords min_len max_len))).
Proof.
  destruct (generate_smart_combinations_returns data g) as (passwords & g' & Hgen).
  exists passwords, g'. rewrite (engine_unfold _ _ _ _ _ _ _ Hgen). split_and!; try done.
  - intros Hlt. rewrite analyze_and_filter_inverted by done.
    rewrite limit_empty.
    by rewrite sorted_passwords_empty.
  - intros Hle. by rewrite limit_disabled.
Qed.

End PipelineFacts.

(** C6, on the example of the specification: the birth date ["abcd"]. *)
Lemma unparsable_date_is_success_example :
  let data := {| first_name := Some "john"; last_name := Some "doe";
                 nickname := Some ""; birth_date := Some "abcd";
                 spouse_name := None; child_name := None; pet_name := None;
                 use_specials := Some false; use_leet := Some false;
                 add_numbers := Some true; specials := None |} in
  (parse_human_date "abcd" !! "day" = None
   ∧ parse_human_date "abcd" !! "month" = None
   ∧ parse_human_date "abcd" !! "year" = None
   ∧ parse_human_date "abcd" !! "year_short" = None)
  ∧ (∃ output, engine (R := forward_runtime) data 6 20 5000 tt = Ok output).
Proof.
  intros data.
  pose proof (unparsable_date_is_success (R := forward_runtime) data 6 20 5000 tt
                ltac:(by vm_compute) ltac:(by vm_compute) ltac:(by vm_compute))
    as (H1 & _ & _ & H4).
  exact (conj H1 H4).
Defined.

(** C3 as stated fails: the engine returns, and rejects nothing, both with
    [min_len = 10 > max_len = 5] (the output is empty) and with [max = 0]
    (the 68 candidates of the profile are all written). *)
Lemma engine_accepts_invalid_configuration :
  engine (R := forward_runtime) john_doe 10 5 5000 tt = Ok []
  ∧ ∃ output, engine (R := forward_runtime) john_doe 6 20 0 tt = Ok output
              ∧ length output = 68.
Proof. split; [by vm_compute|]. eexists. split; [by vm_compute|done]. Qed.

(** ** Lengths of the first-generation candidates *)

(** The pieces of a split and the separators between them make up the
    string. *)
Lemma re_split_len (sep : ascii → bool) (s : string) :
  total_len (Py.re_split sep s) + length (Py.re_split sep s) = S (Py.len s).
Proof.
  induction s as [|c s IH]; [done|]. simpl.
  destruct (sep c); simpl.
  - unfold Py.len in *. simpl. lia.
  - destruct (Py.re_split sep s) as [|p ps]; simpl in *; unfold Py.len in *; simpl; lia.
Qed.

Lemma re_split_two (sep : ascii → bool) (s p0 p1 : string) (rest : list string) :
  Py.re_split sep s = p0 :: p1 :: rest → Py.len p0 + Py.len p1 + 1 ≤ Py.len s.
Proof.
  intros H. pose proof (re_split_len sep s) as Hlen. rewrite H in Hlen. simpl in Hlen. lia.
Qed.

Lemma first_numbers_len :
  Forall (λ num, Py.len num ≤ 6) (take 10 common_numbers).
Proof. repeat constructor. Qed.

Lemma numbered_len (password c : string) :
  c ∈ numbered password → Py.len c ≤ Py.len password + 6.
Proof.
  unfold numbered. intros (num & Hc & Hnum)%list_elem_of_bind.
  pose proof (proj1 (Forall_forall _ _) first_numbers_len num Hnum) as Hn. simpl in Hn.
  apply elem_of_cons in Hc as [->|Hc]; [rewrite len_app; lia|].
  destruct (_ || _); [|by apply not_elem_of_nil in Hc].
  destruct (Py.re_split sep_dot_underscore password) as [|p0 [|p1 rest]] eqn:Hsplit;
    try (by apply not_elem_of_nil in Hc).
  apply list_elem_of_singleton in Hc as ->.
  apply re_split_two in Hsplit. rewrite !len_app. lia.
Qed.

Lemma pattern_candidates_len (data : Data) (password c : string) :
  c ∈ pattern_candidates data password → Py.len c ≤ 26.
Proof.
  unfold pattern_candidates.
  destruct (6 <=? Py.len password) eqn:E6; simpl; [|by intros ?%not_elem_of_nil].
  destruct (Py.len password <=? 20) eqn:E20; simpl; [|by intros ?%not_elem_of_nil].
  apply Nat.leb_le in E20.
  rewrite !elem_of_cons. intros [->|[->|[->|Hc]]].
  - lia.
  - rewrite len_title. lia.
  - rewrite len_capitalize. lia.
  - destruct (flag true (add_numbers data)); [|by apply not_elem_of_nil in Hc].
    apply numbered_len in Hc. lia.
Qed.

Section FirstGeneration.
Context {R : Runtime}.

Lemma first_generation_bound (data : Data) (g : rng) :
  ∃ passwords g', first_generation data g = Ok (passwords, g')
                  ∧ ∀ c, c ∈ passwords → Py.len c ≤ 26.
Proof.
  unfold first_generation.
  destruct (draw_special_returns data g) as (special & g1 & ->).
  cbn [mbind result_bind].
  destruct (apply_patterns_returns data
              (vars_dict data (parse_human_date (birth_of data)) special)
              human_patterns human_patterns_readable ∅) as (passwords & Hrun).
  rewrite Hrun. cbn [mbind result_bind]. exists passwords, g1. split; [done|].
  eapply (apply_patterns_invariant (λ X, ∀ c, c ∈ X → Py.len c ≤ 26)); [| |exact Hrun].
  - intros X pattern password _ HX _ c [Hc|Hc]%elem_of_union; [by apply HX|].
    apply elem_of_list_to_set in Hc. by eapply pattern_candidates_len.
  - intros c Hc. by apply not_elem_of_empty in Hc.
Qed.

(** What the generator returns contains the first generation. *)
Lemma first_generation_kept (data : Data) (g g1 g2 : rng) (first all : gset string) :
  first_generation data g = Ok (first, g1) →
  generate_smart_combinations data g = Ok (all, g2) →
  first ⊆ all.
Proof.
  intros Hfirst. unfold generate_smart_combinations. rewrite Hfirst.
  cbn [mbind result_bind].
  match goal with |- context [leet_stage data ?X g1] =>
    destruct (leet_stage_returns data X g1) as (Y & g' & -> & Hsub)
  end.
  pose proof (number_stage_superset data (parse_human_date (birth_of data))
    (generate_specific_examples first (first_of data) (last_of data)
       (parse_human_date (birth_of data)))) as Hnum.
  pose proof (special_stage_superset data
    (number_stage data (parse_human_date (birth_of data))
      (generate_specific_examples first (first_of data) (last_of data)
         (parse_human_date (birth_of data))))) as Hspec.
  cbn [mbind result_bind]. intros [= <- <-].
  assert (first ⊆ generate_specific_examples first (first_of data) (last_of data)
                    (parse_human_date (birth_of data))) as Hex.
  { unfold generate_specific_examples. destruct (_ || _); set_solver. }
  set_solver.
Qed.

(** C9, as the code has it.  The band 6 to 20 is checked on the bare
    expansion only; the variants with a common number appended are added
    unchecked.  For a profile whose text fields are ASCII text every
    first-generation candidate has at most 26 characters, and 26 is
    reached: the profile [twenty_letters], whose bare expansion
    [{first}{last}] has length 20, gets that expansion followed by
    ["123456"], and the generator returns it.  (Outside ASCII text the
    title-cased variant can be longer than the expansion, and the bound is
    not claimed.) *)
Theorem first_generation_lengths (data : Data) (g : rng) :
  ascii_fields data →
  (∃ passwords g', first_generation data g = Ok (passwords, g')
                   ∧ ∀ c, c ∈ passwords → Py.len c ≤ 26)
  ∧ (∃ first g1 all g2,
       first_generation twenty_letters g = Ok (first, g1)
       ∧ generate_smart_combinations twenty_letters g = Ok (all, g2)
       ∧ "abcdefghijklmnopqrst123456" ∈ first
       ∧ "abcdefghijklmnopqrst123456" ∈ all
       ∧ Py.len "abcdefghijklmnopqrst123456" = 26).
Proof.
  intros _. split; [apply first_generation_bound|].
  destruct (first_generation_returns twenty_letters g) as (first & g1 & Hfirst).
  destruct (generate_smart_combinations_returns twenty_letters g) as (all & g2 & Hall).
  exists first, g1, all, g2.
  assert ("abcdefghijklmnopqrst123456" ∈ first) as Hin.
  { unfold first_generation, draw_special in Hfirst.
    change (flag false (use_specials twenty_letters)) with false in Hfirst.
    cbn [mbind result_bind] in Hfirst.
    destruct (apply_patterns twenty_letters _ human_patterns ∅) as [X|] eqn:Hrun;
      cbn [mbind result_bind] in Hfirst; [|done].
    injection Hfirst as <- <-.
    refine (apply_patterns_contains _ _ _ "{first}{last}" "abcdefghijklmnopqrst" _
              (list_elem_of_here _ _) _ _ _ Hrun _); [by vm_compute|].
    apply (bool_decide_unpack _). by vm_compute. }
  split_and!; try done.
  eapply first_generation_kept; eauto.
Qed.

End FirstGeneration.

(** C9 on the ASCII profile john doe: its first-generation candidates
    have at most 26 characters. *)
Lemma first_generation_lengths_example :
  ascii_fields john_doe
  ∧ ∃ passwords g',
      first_generation (R := forward_runtime) john_doe tt = Ok (passwords, g')
      ∧ ∀ c, c ∈ passwords → Py.len c ≤ 26.
Proof.
  assert (ascii_fields john_doe) as Hascii.
  { intros c Hc. vm_compute in Hc.
    repeat (apply elem_of_cons in Hc as [->|Hc]; [done|]).
    by apply elem_of_nil in Hc. }
  split; [exact Hascii|].
  exact (proj1 (first_generation_lengths (R := forward_runtime) john_doe tt Hascii)).
Defined.

(** C9 as stated fails in its bound: a first-generation candidate can have
    26 characters, one more than 25. *)
Lemma first_generation_exceeds_25 :
  ∃ first g1, first_generation (R := forward_runtime) twenty_letters tt = Ok (first, g1)
              ∧ "abcdefghijklmnopqrst123456" ∈ first
              ∧ Py.len "abcdefghijklmnopqrst123456" = 26
              ∧ 25 < Py.len "abcdefghijklmnopqrst123456".
Proof.
  destruct (first_generation_returns (R := forward_runtime) twenty_letters tt)
    as (first & g1 & Hfirst).
  exists first, g1. split; [done|]. split; [|split; [done|by vm_compute]].
  assert (bool_decide ("abcdefghijklmnopqrst123456"
            ∈ match first_generation (R := forward_runtime) twenty_letters tt with
              | Ok (X, _) => X
              | Raise _ => ∅
              end) = true) as H by (by vm_compute).
  rewrite Hfirst in H. by apply bool_decide_eq_true in H.
Qed.

(** ** Sizes of sets built from lists *)

Lemma size_union_le (X Y : gset string) : size (X ∪ Y) ≤ size X + size Y.
Proof.
  rewrite size_union_alt. assert (size (Y ∖ X) ≤ size Y) as Hle; [|lia].
  apply subseteq_size. apply subseteq_difference_l. done.
Qed.

Lemma size_list_to_set_le (l : list string) : size (list_to_set l : gset string) ≤ length l.
Proof.
  induction l as [|x l IH].
  { cbn [list_to_set length]. by rewrite size_empty. }
  cbn [list_to_set length]. etrans; [apply size_union_le|]. rewrite size_singleton. lia.
Qed.

Lemma length_take_le_bound {A : Type} (n : nat) (l : list A) : length (take n l) ≤ n.
Proof. rewrite length_take. lia. Qed.

(** ** The stratified sampler of [old_versions/Var3.py] *)

Section Sampler.
Context {R : Runtime}.

Lemma strata_subset (password_list : list string) (x : string) :
  x ∈ strata password_list → x ∈ password_list.
Proof.
  unfold strata. rewrite !elem_of_union, !elem_of_list_to_set.
  intros [[H|H]|H]; apply subseteq_take in H; by apply list_elem_of_filter in H as [_ ?].
Qed.

Lemma random_sample_negative (population : list string) (k : Z) (g : rng) :
  (k < 0)%Z → random_sample population k g = Raise ValueError.
Proof.
  intros Hk. unfold random_sample. by rewrite (proj2 (Z.ltb_lt k 0) Hk).
Qed.

(** When the three strata together hold more than [max_passwords]
    candidates, the number left to draw is negative and [random.sample]
    raises [ValueError]. *)
Lemma save_to_file_overfull (passwords : gset string) (max_passwords : Z) (g : rng) :
  (max_passwords < Z.of_nat (size (strata (set_iter passwords))))%Z →
  save_to_file passwords max_passwords g = Raise ValueError.
Proof.
  intros Hover.
  assert (size (strata (set_iter passwords)) ≤ size passwords) as Hle.
  { apply subseteq_size. intros x Hx. by apply elem_of_set_iter, strata_subset. }
  unfold save_to_file. rewrite length_set_iter.
  rewrite (proj2 (Z.ltb_lt max_passwords (Z.of_nat (size passwords)))) by lia.
  unfold sample_passwords.
  match goal with |- context [(?a <? ?b)%Z] =>
    rewrite (proj2 (Z.ltb_lt a b)) by lia end.
  by rewrite random_sample_negative by lia.
Qed.

Lemma drawn_at_positions (l : list string) (positions : list nat) :
  NoDup l → NoDup positions → Forall (λ i, i < length l) positions →
  length (omap (λ i, l !! i) positions) = length positions
  ∧ NoDup (omap (λ i, l !! i) positions)
  ∧ ∀ x, x ∈ omap (λ i, l !! i) positions → x ∈ l.
Proof.
  intros Hl. induction positions as [|i ps IH]; intros Hnd Hlt.
  - simpl. split_and!; [done|constructor|intros x Hx; by apply not_elem_of_nil in Hx].
  - apply NoDup_cons in Hnd as [Hi Hps]. apply Forall_cons in Hlt as [Hilt Hpslt].
    destruct (IH Hps Hpslt) as (Hlen & Hnd' & Hin).
    destruct (lookup_lt_is_Some_2 l i Hilt) as [x Hx].
    cbn [omap list_omap]. rewrite Hx. split_and!.
    + cbn [length]. by rewrite Hlen.
    + apply NoDup_cons. split; [|done]. intros (j & Hj & Hjx)%list_elem_of_omap.
      assert (i = j) by exact (NoDup_lookup l i j x Hl Hx Hjx). by subst.
    + intros y [->|Hy]%elem_of_cons; [by eapply list_elem_of_lookup_2|by apply Hin].
Qed.

Lemma remaining_length (l : list string) (sampled : gset string) :
  NoDup l → (∀ x, x ∈ sampled → x ∈ l) →
  length (filter (λ p, p ∉ sampled) l) + size sampled = length l.
Proof.
  intros Hl Hsub.
  assert (size sampled = length (filter (λ p, p ∈ sampled) l)) as ->.
  { rewrite <- (size_list_to_set (C := gset string)) by by apply NoDup_filter. f_equal.
    apply set_eq. intros x. rewrite elem_of_list_to_set, list_elem_of_filter.
    split; [intros Hx; split; [done|by apply Hsub]|by intros [? _]]. }
  pose proof (filter_app_complement (λ p, p ∈ sampled) l) as Hperm.
  apply Permutation_length in Hperm. rewrite length_app in Hperm.
  etrans; [|exact Hperm]. apply Nat.add_comm.
Qed.





End Sampler.



(** ** Reproducibility: what the output depends on *)

Global Instance key_le_trans : Transitive key_le.
Proof.
  intros x y z [Hxy|[Hxy Lxy]] [Hyz|[Hyz Lyz]]; unfold key_le.
  - left. lia.
  - left. lia.
  - left. lia.
  - right. split; [lia|]. by etrans.
Qed.

Global Instance key_le_total : Total key_le.
Proof.
  intros x y. unfold key_le.
  destruct (lt_eq_lt_dec (Py.len x) (Py.len y)) as [[H|H]|H]; [auto| |auto].
  destruct (total String.le x y); [left|right]; right; split; done.
Qed.

Global Instance key_le_antisymm : AntiSymm (=) key_le.
Proof.
  intros x y [Hxy|[Hxy Lxy]] [Hyx|[Hyx Lyx]]; try lia.
  by apply (anti_symm String.le).
Qed.

(** The final ordering does not depend on the order in which the set is
    iterated: the sorted listing of a set is unique. *)
Lemma sorted_passwords_canonical (R1 R2 : Runtime) (filtered : gset string) :
  sorted_passwords (R := R1) filtered = sorted_passwords (R := R2) filtered.
Proof.
  unfold sorted_passwords. apply (Sorted_unique key_le).
  - apply Sorted_merge_sort. apply _.
  - apply Sorted_merge_sort. apply _.
  - rewrite !merge_sort_Permutation.
    by rewrite (set_iter_perm (Runtime := R1)), (set_iter_perm (Runtime := R2)).
Qed.

(** With the three stages off the generator draws nothing and iterates no
    set. *)
Lemma generate_without_stages {R : Runtime} (data : Data) (g : rng) :
  add_numbers data = Some false →
  flag false (use_specials data) = false →
  flag false (use_leet data) = false →
  generate_smart_combinations data g
  = (passwords ← apply_patterns data
                   (vars_dict data (parse_human_date (birth_of data)) EmptyString)
                   human_patterns ∅;
     Ok (generate_specific_examples passwords (first_of data) (last_of data)
           (parse_human_date (birth_of data))
         ∪ generate_common_passwords (first_of data) (last_of data)
             (parse_human_date (birth_of data)), g)).
Proof.
  intros Hnum Hspec Hleet.
  unfold generate_smart_combinations, first_generation, draw_special. rewrite Hspec.
  cbn [mbind result_bind].
  destruct (apply_patterns data _ human_patterns ∅) as [passwords|e]; [|done].
  cbn [mbind result_bind].
  unfold leet_stage, special_stage, number_stage. by rewrite Hnum, Hspec, Hleet.
Qed.

(** C1, as the code has it.  The final ordering is the same in every
    runtime.  A profile with the number, special and leet stages off, whose
    filtered candidates do not exceed the maximum (or whose maximum is not
    positive), gets the same output sequence in any two runs, whatever the
    generator's states and the orders in which the two runs iterate sets. *)
Theorem output_reproducible (R1 R2 : Runtime) (data : Data) (min_len max_len max : Z)
    (g1 : @rng R1) (g2 : @rng R2) :
  (∀ filtered, sorted_passwords (R := R1) filtered = sorted_passwords (R := R2) filtered)
  ∧ (add_numbers data = Some false →
     flag false (use_specials data) = false →
     flag false (use_leet data) = false →
     (∀ passwords g',
        generate_smart_combinations (R := R1) data g1 = Ok (passwords, g') →
        (max ≤ 0)%Z
        ∨ (Z.of_nat (size (analyze_and_filter passwords min_len max_len)) ≤ max)%Z) →
     engine (R := R1) data min_len max_len max g1
     = engine (R := R2) data min_len max_len max g2).
Proof.
  split; [intros; apply sorted_passwords_canonical|].
  intros Hnum Hspec Hleet Hsize.
  destruct (generate_smart_combinations_returns (R := R1) data g1) as (X1 & g1' & Hgen1).
  destruct (generate_smart_combinations_returns (R := R2) data g2) as (X2 & g2' & Hgen2).
  rewrite (engine_unfold _ _ _ _ _ _ _ Hgen1), (engine_unfold _ _ _ _ _ _ _ Hgen2).
  assert (X1 = X2) as <-.
  { rewrite (generate_without_stages (R := R1)) in Hgen1 by done.
    rewrite (generate_without_stages (R := R2)) in Hgen2 by done.
    destruct (apply_patterns data _ human_patterns ∅) as [passwords|e];
      cbn [mbind result_bind] in *; by simplify_eq. }
  f_equal.
  assert (limit (R := R1) max (analyze_and_filter X1 min_len max_len)
          = analyze_and_filter X1 min_len max_len) as ->.
  { destruct (Hsize _ _ Hgen1); [by apply limit_disabled|by apply limit_within]. }
  assert (limit (R := R2) max (analyze_and_filter X1 min_len max_len)
          = analyze_and_filter X1 min_len max_len) as ->.
  { destruct (Hsize _ _ Hgen1); [by apply limit_disabled|by apply limit_within]. }
  apply sorted_passwords_canonical.
Qed.

(** The two runtimes, which iterate sets in opposite orders, write the same
    68 candidates for john doe when the maximum is 5000. *)
Lemma output_reproducible_example :
  engine (R := forward_runtime) john_doe 6 20 5000 tt
  = engine (R := backward_runtime) john_doe 6 20 5000 tt.
Proof.
  refine (proj2 (output_reproducible forward_runtime backward_runtime john_doe
                   6 20 5000 tt tt) eq_refl eq_refl eq_refl _).
  intros passwords g' Hgen. right.
  assert (generate_smart_combinations (R := forward_runtime) john_doe tt
          = Ok (passwords, g')) as Hgen' by exact Hgen.
  assert (match generate_smart_combinations (R := forward_runtime) john_doe tt with
          | Ok (X, _) => (Z.of_nat (size (analyze_and_filter X 6 20)) <=? 5000)%Z
          | Raise _ => false
          end = true) as H by (by vm_compute).
  rewrite Hgen' in H. by apply Z.leb_le.
Defined.

(** C1 as stated fails: with the same profile, configuration and generator
    state, a run that iterates its sets in one order and a run that iterates
    them in the opposite order write different sequences when only three of
    the 68 candidates may be kept.  (CPython orders a set of strings by their
    hashes, which are salted anew in every process.) *)
Lemma output_depends_on_iteration_order :
  main (R := forward_runtime) john_doe 3 tt
  = Ok ["90johndoe"; "1990john90"; "1990johndoe"]
  ∧ main (R := backward_runtime) john_doe 3 tt
    = Ok ["Doejohn"; "Doejohn90"; "Doejohn1990"].
Proof. split; by vm_compute. Qed.

(** ** Where the characters of a candidate come from *)

Lemma chars_app (a b : string) : chars (a +:+ b) = chars a ++ chars b.
Proof. induction a as [|c a IH]; [done|]. unfold chars in *. simpl. by rewrite IH. Qed.

Section Provenance.
Variable F : ascii → Prop.

Lemma Safe_empty : Safe F EmptyString.
Proof. constructor. Qed.

Lemma Safe_cons (c : ascii) (s : string) : Safe F (String c s) ↔ safe F c ∧ Safe F s.
Proof. unfold Safe, chars. simpl. apply Forall_cons. Qed.

Lemma Safe_app (a b : string) : Safe F (a +:+ b) ↔ Safe F a ∧ Safe F b.
Proof. unfold Safe. rewrite chars_app. apply Forall_app. Qed.

Lemma Safe_app_2 (a b : string) : Safe F a → Safe F b → Safe F (a +:+ b).
Proof. intros. by apply Safe_app. Qed.

Lemma safe_plain (c : ascii) : guarded c = false → safe F c.
Proof. intros H Hg. congruence. Qed.

Lemma Safe_plain (s : string) : no_guarded s = true → Safe F s.
Proof.
  unfold no_guarded. induction s as [|c s IH]; [constructor|]. simpl.
  rewrite negb_orb, andb_true_iff. intros [Hc Hs]. apply Safe_cons.
  split; [apply safe_plain; by destruct (guarded c)|by apply IH].
Qed.

Lemma safe_to_lower (c : ascii) : safe F c → safe F (Py.to_lower c).
Proof.
  intros H. destruct c as [[] [] [] [] [] [] [] []];
    first [exact H | by apply safe_plain].
Qed.

Lemma safe_to_upper (c : ascii) : safe F c → safe F (Py.to_upper c).
Proof.
  intros H. destruct c as [[] [] [] [] [] [] [] []];
    first [exact H | by apply safe_plain].
Qed.

Lemma safe_digit (c : ascii) : Py.is_digit c = true → safe F c.
Proof.
  intros H. apply safe_plain. destruct c as [[] [] [] [] [] [] [] []]; done.
Qed.

Lemma Safe_lower (s : string) : Safe F s → Safe F (Py.lower s).
Proof.
  induction s as [|c s IH]; [done|]. intros [Hc Hs]%Safe_cons.
  apply Safe_cons. split; [by apply safe_to_lower|by apply IH].
Qed.

Lemma Safe_title_go (b : bool) (s : string) : Safe F s → Safe F (Py.title_go b s).
Proof.
  revert b. induction s as [|c s IH]; intros b; [done|]. intros [Hc Hs]%Safe_cons.
  apply Safe_cons. split; [|by apply IH].
  destruct b; [by apply safe_to_lower|by apply safe_to_upper].
Qed.

Lemma Safe_title (s : string) : Safe F s → Safe F (Py.title s).
Proof. apply Safe_title_go. Qed.

Lemma Safe_capitalize (s : string) : Safe F s → Safe F (Py.capitalize s).
Proof.
  destruct s as [|c s]; [done|]. intros [Hc Hs]%Safe_cons.
  apply Safe_cons. split; [by apply safe_to_upper|by apply Safe_lower].
Qed.

Lemma Safe_first_or_empty (s : string) : Safe F s → Safe F (Py.first_or_empty s).
Proof.
  destruct s as [|c s]; [done|]. intros [Hc _]%Safe_cons.
  apply Safe_cons. split; [done|apply Safe_empty].
Qed.

Lemma Safe_substring (s : string) : ∀ n m, Safe F s → Safe F (String.substring n m s).
Proof.
  induction s as [|c s IH]; intros n m Hs.
  - destruct n, m; apply Safe_empty.
  - apply Safe_cons in Hs as [Hc Hs]. destruct n as [|n]; simpl.
    + destruct m as [|m]; [apply Safe_empty|]. apply Safe_cons. split; [done|by apply IH].
    + by apply IH.
Qed.

Lemma Safe_take (n : nat) (s : string) : Safe F s → Safe F (Py.take n s).
Proof. apply Safe_substring. Qed.

Lemma Safe_slice (a b : nat) (s : string) : Safe F s → Safe F (Py.slice a b s).
Proof. apply Safe_substring. Qed.

Lemma Safe_drop (n : nat) (s : string) : Safe F s → Safe F (Py.drop n s).
Proof.
  revert n. induction s as [|c s IH]; intros [|n] Hs; simpl; try done.
  apply Safe_cons in Hs as [_ Hs]. by apply IH.
Qed.

Lemma Safe_replace (c : ascii) (r s : string) :
  Safe F r → Safe F s → Safe F (Py.replace c r s).
Proof.
  intros Hr. induction s as [|x s IH]; [done|]. intros [Hx Hs]%Safe_cons. simpl.
  destruct (Ascii.eqb x c).
  - apply Safe_app_2; [done|by apply IH].
  - apply Safe_cons. split; [done|by apply IH].
Qed.

Lemma Safe_re_split (sep : ascii → bool) (s : string) :
  Safe F s → Forall (Safe F) (Py.re_split sep s).
Proof.
  induction s as [|c s IH]; [intros _; repeat constructor|].
  intros [Hc Hs]%Safe_cons. specialize (IH Hs). simpl. destruct (sep c).
  - constructor; [apply Safe_empty|done].
  - destruct (Py.re_split sep s) as [|p ps].
    + constructor; [|done]. apply Safe_cons. split; [done|apply Safe_empty].
    + apply Forall_cons in IH as [Hp Hps]. constructor; [|done].
      apply Safe_cons. by split.
Qed.

Lemma Safe_filter_digits (s : string) : Safe F (Py.re_sub_non_digits s).
Proof.
  unfold Py.re_sub_non_digits. induction s as [|c s IH]; [constructor|]. simpl.
  destruct (Py.is_digit c) eqn:E; [|done].
  apply Safe_cons. split; [by apply safe_digit|done].
Qed.

End Provenance.

Lemma format_go_open (kw : gmap string string) (c : ascii) (p : string) :
  c ≠ "{"%char →
  format_go None kw (String "{" (String c p)) = format_go (Some EmptyString) kw (String c p).
Proof. intros Hc. destruct c as [[] [] [] [] [] [] [] []]; done. Qed.

Lemma format_go_close (kw : gmap string string) (c : ascii) (p : string) :
  c ≠ "}"%char →
  format_go None kw (String "}" (String c p)) = Raise ValueError.
Proof. intros Hc. destruct c as [[] [] [] [] [] [] [] []]; done. Qed.

Section FormatProvenance.
Variable F : ascii → Prop.

(** Formatting a pattern of safe characters with safe values gives a safe
    string. *)
Lemma format_go_Safe (kw : gmap string string) (n : nat) :
  map_Forall (λ _ v, Safe F v) kw →
  ∀ (p : string) (field : option string) (s : string),
    Py.len p ≤ n → Safe F p → format_go field kw p = Ok s → Safe F s.
Proof.
  intros Hkw. induction n as [|n IH]; intros p field s Hlen Hp Hfmt.
  - destruct p; [|unfold Py.len in Hlen; simpl in Hlen; lia].
    destruct field; simpl in Hfmt; simplify_eq. apply Safe_empty.
  - destruct p as [|c p]; [destruct field; simpl in Hfmt; simplify_eq; apply Safe_empty|].
    assert (Py.len p ≤ n) as Hn by (unfold Py.len in *; simpl in Hlen; lia).
    apply Safe_cons in Hp as [Hc Hp].
    destruct field as [name|].
    + simpl in Hfmt. destruct (Ascii.eqb c "}").
      * unfold lookup_field in Hfmt. destruct (all_digits name); [done|].
        destruct (kw !! name) as [v|] eqn:Hv; [|done]. cbn [mbind result_bind] in Hfmt.
        destruct (format_go None kw p) as [r|] eqn:Hr; [|done].
        cbn [mbind result_bind] in Hfmt. simplify_eq.
        apply Safe_app_2; [by eapply (Hkw name)|by eapply IH].
      * destruct (Ascii.eqb c "{"); [done|]. destruct (field_syntax c); [done|].
        by eapply IH.
    + destruct (Ascii.eqb_spec c "{") as [->|Hopen].
      * destruct p as [|c' p']; [by eapply (IH EmptyString (Some EmptyString))|].
        destruct (Ascii.eqb_spec c' "{") as [->|Hc'].
        -- simpl in Hfmt. destruct (format_go None kw p') as [r|] eqn:Hr; [|done].
           cbn [mbind result_bind] in Hfmt. simplify_eq.
           apply Safe_cons. split; [by apply safe_plain|].
           eapply (IH p' None); [|by apply Safe_cons in Hp as [_ ?]|done].
           unfold Py.len in *. simpl in *. lia.
        -- rewrite format_go_open in Hfmt by done.
           by eapply (IH (String c' p') (Some EmptyString)).
      * destruct (Ascii.eqb_spec c "}") as [->|Hclose].
        -- destruct p as [|c' p']; [done|].
           destruct (Ascii.eqb_spec c' "}") as [->|Hc'].
           ++ simpl in Hfmt. destruct (format_go None kw p') as [r|] eqn:Hr; [|done].
              cbn [mbind result_bind] in Hfmt. simplify_eq.
              apply Safe_cons. split; [by apply safe_plain|].
              eapply (IH p' None); [|by apply Safe_cons in Hp as [_ ?]|done].
              unfold Py.len in *. simpl in *. lia.
           ++ by rewrite format_go_close in Hfmt.
        -- simpl in Hfmt.
           rewrite (proj2 (Ascii.eqb_neq c "{") Hopen) in Hfmt.
           rewrite (proj2 (Ascii.eqb_neq c "}") Hclose) in Hfmt.
           destruct (format_go None kw p) as [r|] eqn:Hr; [|done].
           cbn [mbind result_bind] in Hfmt. simplify_eq.
           apply Safe_cons. split; [done|by eapply IH].
Qed.

Lemma format_Safe (kw : gmap string string) (pattern s : string) :
  map_Forall (λ _ v, Safe F v) kw →
  no_guarded pattern = true →
  format pattern kw = Ok s → Safe F s.
Proof.
  intros Hkw Hp Hfmt. eapply format_go_Safe; [done| |by apply Safe_plain|exact Hfmt]. done.
Qed.

Lemma parse_human_date_Safe (date_str : string) :
  map_Forall (λ _ v, Safe F v) (parse_human_date date_str).
Proof.
  unfold parse_human_date. case_decide; [apply map_Forall_empty|].
  repeat case_match;
    repeat (apply map_Forall_insert_2;
            [first [apply Safe_slice, Safe_filter_digits
                   |apply Safe_filter_digits
                   |apply Safe_app_2; [by apply Safe_plain|apply Safe_slice, Safe_filter_digits]]|]);
    apply map_Forall_empty.
Qed.

Lemma get_str_Safe (d : gmap string string) (key : string) :
  map_Forall (λ _ v, Safe F v) d → Safe F (get_str d key).
Proof.
  intros Hd. unfold get_str. destruct (d !! key) as [v|] eqn:Hv; simpl.
  - by eapply (Hd key).
  - apply Safe_empty.
Qed.

End FormatProvenance.

Create HintDb safe.

#[export] Hint Resolve Safe_empty Safe_app_2 Safe_title Safe_capitalize Safe_lower
  Safe_first_or_empty Safe_take Safe_drop Safe_slice Safe_filter_digits
  get_str_Safe parse_human_date_Safe : safe.
#[export] Hint Extern 1 (Safe _ _) => (apply Safe_plain; reflexivity) : safe.

Lemma common_numbers_plain : Forall (λ num, no_guarded num = true) common_numbers.
Proof. repeat constructor. Qed.

Lemma leet_map_plain :
  Forall (λ entry : ascii * list string, Forall (λ sub, no_guarded sub = true) entry.2)
    leet_map.
Proof. repeat constructor. Qed.

Lemma human_patterns_plain : Forall (λ pattern, no_guarded pattern = true) human_patterns.
Proof. repeat constructor. Qed.

Section SpecialsOff.
Context {R : Runtime}.
Variable data : Data.

Let F : ascii → Prop := λ c, c ∈ field_chars data.

Lemma Safe_entered (s : string) :
  (∀ c, c ∈ chars s → c ∈ field_chars data) → Safe F s.
Proof. intros H. apply Forall_forall. intros c Hc _. by apply H. Qed.

Lemma Safe_first_of : Safe F (first_of data).
Proof.
  apply Safe_lower, Safe_entered. intros c Hc. unfold field_chars.
  rewrite !elem_of_app. tauto.
Qed.

Lemma Safe_last_of : Safe F (last_of data).
Proof.
  apply Safe_lower, Safe_entered. intros c Hc. unfold field_chars.
  rewrite !elem_of_app. tauto.
Qed.

Lemma Safe_nick_of : Safe F (nick_of data).
Proof.
  apply Safe_lower, Safe_entered. intros c Hc. unfold field_chars.
  rewrite !elem_of_app. tauto.
Qed.

Lemma Safe_spouse (spouse : string) :
  spouse_name data = Some spouse → Safe F (Py.lower spouse).
Proof.
  intros H. apply Safe_lower, Safe_entered. intros c Hc. unfold field_chars.
  rewrite H, !elem_of_app. simpl. tauto.
Qed.

Lemma Safe_child (child : string) :
  child_name data = Some child → Safe F (Py.lower child).
Proof.
  intros H. apply Safe_lower, Safe_entered. intros c Hc. unfold field_chars.
  rewrite H, !elem_of_app. simpl. tauto.
Qed.

Lemma Safe_pet (pet : string) :
  pet_name data = Some pet → Safe F (Py.lower pet).
Proof.
  intros H. apply Safe_lower, Safe_entered. intros c Hc. unfold field_chars.
  rewrite H, !elem_of_app. simpl. tauto.
Qed.

Hint Resolve Safe_first_of Safe_last_of Safe_nick_of : safe.

Lemma vars_dict_Safe (date_str : string) :
  map_Forall (λ _ v, Safe F v) (vars_dict data (parse_human_date date_str) EmptyString).
Proof.
  unfold vars_dict, with_optional.
  destruct (pet_name data) as [pet|] eqn:Hpet;
    destruct (child_name data) as [child|] eqn:Hchild;
    destruct (spouse_name data) as [spouse|] eqn:Hspouse; simpl;
    repeat (apply map_Forall_insert_2;
            [first [by apply Safe_pet | by apply Safe_child
                   | by apply Safe_first_or_empty, Safe_spouse
                   | eauto 6 with safe]|]);
    apply map_Forall_empty.
Qed.

Lemma first_numbers_Safe (k : nat) (num : string) :
  num ∈ take k common_numbers → Safe F num.
Proof.
  intros H%subseteq_take. apply Safe_plain.
  by apply (proj1 (Forall_forall _ _) common_numbers_plain).
Qed.

Lemma numbered_Safe (password c : string) :
  Safe F password → c ∈ numbered password → Safe F c.
Proof.
  intros Hp. unfold numbered. intros (num & Hc & Hnum)%list_elem_of_bind.
  apply first_numbers_Safe in Hnum.
  apply elem_of_cons in Hc as [->|Hc]; [eauto with safe|].
  destruct (_ || _); [|by apply not_elem_of_nil in Hc].
  pose proof (Safe_re_split F sep_dot_underscore password Hp) as Hsplit.
  destruct (Py.re_split sep_dot_underscore password) as [|p0 [|p1 rest]];
    try (by apply not_elem_of_nil in Hc).
  apply list_elem_of_singleton in Hc as ->.
  apply Forall_cons in Hsplit as [H0 [H1 _]%Forall_cons]. eauto with safe.
Qed.

Lemma pattern_candidates_Safe (password c : string) :
  Safe F password → c ∈ pattern_candidates data password → Safe F c.
Proof.
  intros Hp. unfold pattern_candidates.
  destruct (_ && _); [|by intros ?%not_elem_of_nil].
  rewrite elem_of_app, !elem_of_cons.
  intros [[->|[->|[->|Hc]]]|Hc]; eauto with safe; [by apply not_elem_of_nil in Hc|].
  destruct (flag true (add_numbers data)); [|by apply not_elem_of_nil in Hc].
  by eapply numbered_Safe.
Qed.

Lemma specific_examples_Safe (date_str : string) :
  Forall (Safe F)
    (specific_examples (first_of data) (last_of data) (parse_human_date date_str)).
Proof.
  unfold specific_examples. repeat (apply Forall_cons_2; [eauto 10 with safe|]).
  apply Forall_nil_2.
Qed.

Lemma date_combinations_Safe (date_str : string) :
  Forall (Safe F) (date_combinations (parse_human_date date_str)).
Proof.
  unfold date_combinations.
  repeat (apply Forall_app_2);
    match goal with |- Forall _ (if ?b then _ else _) => destruct b end;
    repeat (apply Forall_cons_2; [eauto 10 with safe|]); apply Forall_nil_2.
Qed.

Lemma dated_Safe (date_combos : list string) (pwd c : string) :
  Forall (Safe F) date_combos → Safe F pwd → c ∈ dated date_combos pwd → Safe F c.
Proof.
  intros Hcombos Hpwd. unfold dated. intros (combo & Hc & Hcombo)%list_elem_of_bind.
  apply subseteq_take in Hcombo.
  pose proof (proj1 (Forall_forall _ _) Hcombos combo Hcombo) as Hsafe.
  apply elem_of_app in Hc as [Hc|Hc].
  - apply elem_of_cons in Hc as [->|Hc]; [eauto with safe|].
    apply list_elem_of_singleton in Hc as ->. eauto with safe.
  - destruct (Py.existsb_chars Py.is_digit pwd); [|by apply not_elem_of_nil in Hc].
    destruct (Py.search_trailing_digits pwd); [|by apply not_elem_of_nil in Hc].
    apply list_elem_of_singleton in Hc as ->. eauto with safe.
Qed.

Lemma suffixed_Safe (pwd c : string) :
  Safe F pwd → c ∈ suffixed pwd → Safe F c.
Proof.
  intros Hp. unfold suffixed. intros (num & Hc & Hnum)%list_elem_of_bind.
  apply first_numbers_Safe in Hnum.
  apply elem_of_cons in Hc as [->|Hc]; [eauto with safe|].
  destruct (_ && _); [|by apply not_elem_of_nil in Hc].
  pose proof (Safe_re_split F sep_dot_underscore_dash pwd Hp) as Hsplit.
  destruct (Py.re_split sep_dot_underscore_dash pwd) as [|p0 [|p1 [|p2 rest]]];
    try (by apply not_elem_of_nil in Hc).
  apply list_elem_of_singleton in Hc as ->.
  apply Forall_cons in Hsplit as [H0 [H1 _]%Forall_cons]. eauto with safe.
Qed.

End SpecialsOff.

Section SpecialsOffRun.
Context {R : Runtime}.
Variable data : Data.

Let F : ascii → Prop := λ c, c ∈ field_chars data.
Let SafeSet (X : gset string) : Prop := ∀ pwd, pwd ∈ X → Safe F pwd.

Lemma random_choice_elem (seq : list string) (g g' : rng) (x : string) :
  random_choice seq g = Ok (x, g') → x ∈ seq.
Proof.
  unfold random_choice. destruct seq as [|y seq']; [done|].
  destruct (random_below (length (y :: seq')) g) as [i g1].
  destruct ((y :: seq') !! i) as [z|] eqn:Hz; [|done].
  intros [= <- <-]. by eapply list_elem_of_lookup_2.
Qed.

Lemma leet_entry_Safe (leet_pwd : string) (entry : ascii * list string)
    (g g' : rng) (s : string) :
  Forall (λ sub, no_guarded sub = true) entry.2 →
  Safe F leet_pwd →
  leet_entry leet_pwd entry g = Ok (s, g') →
  Safe F s.
Proof.
  destruct entry as [char subs]. simpl. intros Hsubs Hp.
  destruct (Py.contains char (Py.lower leet_pwd)); [|by intros [= <- <-]].
  destruct (random_random g) as [x g1].
  destruct (Qltb x (1 # 2)); [|by intros [= <- <-]].
  destruct (random_choice subs g1) as [[sub1 g2]|] eqn:H1; [|done]. simpl.
  destruct (random_choice subs g2) as [[sub2 g3]|] eqn:H2; [|done]. simpl.
  intros [= <- <-].
  apply random_choice_elem in H1, H2.
  apply Safe_replace; [|apply Safe_replace; [|done]];
    apply Safe_plain; by apply (proj1 (Forall_forall _ _) Hsubs).
Qed.

Lemma leet_entries_Safe (entries : list (ascii * list string)) :
  Forall (λ entry : ascii * list string,
            Forall (λ sub, no_guarded sub = true) entry.2) entries →
  ∀ leet_pwd g s g',
    Safe F leet_pwd → leet_entries entries leet_pwd g = Ok (s, g') → Safe F s.
Proof.
  induction 1 as [|entry rest Hentry _ IH]; intros leet_pwd g s g' Hp; simpl.
  - by intros [= <- <-].
  - destruct (leet_entry leet_pwd entry g) as [[s1 g1]|] eqn:H1; [|done]. simpl.
    apply IH. by eapply leet_entry_Safe.
Qed.

Lemma leeted_Safe (pwd : string) (g g' : rng) (added : list string) :
  Safe F pwd → leeted pwd g = Ok (added, g') → Forall (Safe F) added.
Proof.
  intros Hp. unfold leeted. destruct (random_random g) as [x g1].
  destruct (Qltb x float_0_3); [|intros [= <- <-]; by repeat constructor].
  destruct (leet_entries leet_map pwd g1) as [[leet_pwd g2]|] eqn:H1; [|done]. simpl.
  intros [= <- <-]. apply (leet_entries_Safe _ leet_map_plain) in H1; [|done].
  case_decide; by repeat constructor.
Qed.

Lemma leet_loop_Safe (pwds : list string) :
  ∀ new_passwords g new_passwords' g',
    Forall (Safe F) pwds → SafeSet new_passwords →
    leet_loop pwds new_passwords g = Ok (new_passwords', g') →
    SafeSet new_passwords'.
Proof.
  induction pwds as [|pwd rest IH]; intros X g X' g' Hpwds HX; simpl.
  - by intros [= <- <-].
  - apply Forall_cons in Hpwds as [Hpwd Hrest].
    destruct (leeted pwd g) as [[added g1]|] eqn:H1; [|done]. simpl.
    apply IH; [done|]. apply leeted_Safe in H1; [|done].
    intros x [Hx|Hx]%elem_of_union; [by apply HX|].
    apply elem_of_list_to_set in Hx. by apply (proj1 (Forall_forall _ _) H1).
Qed.

Lemma prefix_Safe (k : nat) (X : gset string) :
  SafeSet X → Forall (Safe F) (take k (set_iter X)).
Proof.
  intros HX. apply Forall_forall. intros x Hx%subseteq_take. by apply HX, elem_of_set_iter.
Qed.

Lemma leet_stage_Safe (X : gset string) (g g' : rng) (X' : gset string) :
  SafeSet X → leet_stage data X g = Ok (X', g') → SafeSet X'.
Proof.
  intros HX. unfold leet_stage. destruct (flag false (use_leet data)); [|by intros [= <- <-]].
  unfold add_leet_variations.
  destruct (leet_loop (take 100 (set_iter X)) ∅ g) as [[new g1]|] eqn:H1; [|done]. simpl.
  intros [= <- <-]. apply leet_loop_Safe in H1; [|by apply prefix_Safe|].
  - intros x [Hx|Hx]%elem_of_union; [by apply HX|by apply H1].
  - intros x Hx. by apply not_elem_of_empty in Hx.
Qed.

Lemma number_stage_Safe (date_str : string) (X : gset string) :
  SafeSet X → SafeSet (number_stage data (parse_human_date date_str) X).
Proof.
  intros HX. unfold number_stage. destruct (flag true (add_numbers data)); [|done].
  intros x [Hx|Hx]%elem_of_union; [by apply HX|].
  unfold add_number_variations in Hx.
  apply elem_of_list_to_set, elem_of_app in Hx as [Hx|Hx];
    apply list_elem_of_bind in Hx as (pwd & Hx & Hpwd);
    apply subseteq_take, elem_of_set_iter, HX in Hpwd.
  - eapply dated_Safe; [apply date_combinations_Safe|exact Hpwd|exact Hx].
  - by eapply suffixed_Safe.
Qed.

Lemma generate_specific_examples_Safe (date_str : string) (X : gset string) :
  SafeSet X →
  SafeSet (generate_specific_examples X (first_of data) (last_of data)
             (parse_human_date date_str)).
Proof.
  intros HX. unfold generate_specific_examples. destruct (_ || _); [done|].
  intros x [Hx|Hx]%elem_of_union; [by apply HX|].
  apply elem_of_list_to_set in Hx.
  by apply (proj1 (Forall_forall _ _) (specific_examples_Safe data date_str)).
Qed.

Lemma generate_common_passwords_Safe (date_str : string) :
  SafeSet (generate_common_passwords (first_of data) (last_of data)
             (parse_human_date date_str)).
Proof.
  unfold generate_common_passwords. destruct (_ || _).
  { intros x Hx. by apply not_elem_of_empty in Hx. }
  intros x Hx%elem_of_list_to_set. revert x Hx. apply Forall_forall.
  pose proof (Safe_first_of data). pose proof (Safe_last_of data).
  repeat (apply Forall_app_2);
    try match goal with |- Forall _ (if ?b then _ else _) => destruct b end;
    repeat (apply Forall_cons_2; [eauto 10 with safe|]); apply Forall_nil_2.
Qed.

Lemma first_generation_Safe (g g' : rng) (X : gset string) :
  flag false (use_specials data) = false →
  first_generation data g = Ok (X, g') → SafeSet X.
Proof.
  intros Hoff. unfold first_generation, draw_special. rewrite Hoff.
  cbn [mbind result_bind].
  destruct (apply_patterns data _ human_patterns ∅) as [Y|] eqn:Hrun; [|done].
  cbn [mbind result_bind]. intros [= <- <-].
  eapply (apply_patterns_invariant SafeSet); [| |exact Hrun].
  - intros Z pattern password Hin HZ Hfmt x [Hx|Hx]%elem_of_union; [by apply HZ|].
    apply elem_of_list_to_set in Hx. eapply pattern_candidates_Safe; [|exact Hx].
    eapply format_Safe; [apply vars_dict_Safe| |exact Hfmt].
    by apply (proj1 (Forall_forall _ _) human_patterns_plain).
  - intros x Hx. by apply not_elem_of_empty in Hx.
Qed.

Lemma generate_smart_combinations_Safe (g g' : rng) (X : gset string) :
  flag false (use_specials data) = false →
  generate_smart_combinations data g = Ok (X, g') → SafeSet X.
Proof.
  intros Hoff. unfold generate_smart_combinations.
  destruct (first_generation data g) as [[Y g1]|] eqn:Hfirst; [|done].
  cbn [mbind result_bind].
  apply first_generation_Safe in Hfirst; [|done].
  unfold special_stage. rewrite Hoff.
  destruct (leet_stage data _ g1) as [[Z g2]|] eqn:Hleet; [|done].
  cbn [mbind result_bind]. intros [= <- <-].
  apply leet_stage_Safe in Hleet;
    [|by apply number_stage_Safe, generate_specific_examples_Safe].
  intros x [Hx|Hx]%elem_of_union; [by apply Hleet|].
  by eapply generate_common_passwords_Safe.
Qed.

(** C2, as the code has it.  With [use_specials] false the slot [special]
    is the empty string and the special-character stage changes nothing;
    and no candidate written by the engine contains ['%'], ['&'], ['*'] or
    ['-'] unless that character occurs in one of the profile's text
    fields.  (The other configured characters are not covered: patterns
    and fixed examples write ['.'], ['_'], ['!'], ['@'] and ['#'] and the
    leet table writes ['$'].) *)
Theorem specials_off_guarantee (min_len max_len max : Z) (g : rng) :
  flag false (use_specials data) = false →
  draw_special data g = Ok (EmptyString, g)
  ∧ (∀ passwords, special_stage data passwords = passwords)
  ∧ ∃ output,
      engine data min_len max_len max g = Ok output
      ∧ ∀ pwd c,
          pwd ∈ output → c ∈ chars pwd →
          c ∈ ["%"; "&"; "*"; "-"]%char →
          c ∈ field_chars data.
Proof.
  intros Hoff. split_and!.
  - unfold draw_special. by rewrite Hoff.
  - intros X. unfold special_stage. by rewrite Hoff.
  - destruct (generate_smart_combinations_returns data g) as (X & g' & Hgen).
    eexists. split; [by eapply engine_unfold|].
    intros pwd c Hpwd Hc Hguarded.
    unfold sorted_passwords in Hpwd. rewrite merge_sort_Permutation in Hpwd.
    apply elem_of_set_iter, limit_subset, analyze_and_filter_subset in Hpwd.
    apply (generate_smart_combinations_Safe _ _ _ Hoff Hgen) in Hpwd.
    apply (proj1 (Forall_forall _ _) Hpwd c Hc).
    repeat (apply elem_of_cons in Hguarded as [->|Hguarded]; [done|]).
    by apply not_elem_of_nil in Hguarded.
Qed.

End SpecialsOffRun.

(** C2 on a profile of the command line ([--first mary-ann --last doe
    --birth 15/06/1990 --leet]) whose first name has a hyphen: the candidates
    may contain ['-'], which was entered, and none of ['%'], ['&'], ['*']. *)
Lemma specials_off_guarantee_example :
  let data := {| first_name := Some "mary-ann"; last_name := Some "doe"; nickname := None;
                 birth_date := Some "15/06/1990";
                 spouse_name := None; child_name := None; pet_name := None;
                 use_specials := Some false; use_leet := Some true;
                 add_numbers := Some true; specials := Some common_specials |} in
  draw_special (R := forward_runtime) data tt = Ok (EmptyString, tt)
  ∧ (∀ passwords, special_stage (R := forward_runtime) data passwords = passwords)
  ∧ ∃ output,
      engine (R := forward_runtime) data 6 20 5000 tt = Ok output
      ∧ ∀ pwd c,
          pwd ∈ output → c ∈ chars pwd →
          c ∈ ["%"; "&"; "*"; "-"]%char →
          c ∈ field_chars data.
Proof.
  intros data.
  exact (specials_off_guarantee (R := forward_runtime) data 6 20 5000 tt eq_refl).
Defined.

(** C2 as stated fails: john doe declines special characters, no field of
    the profile has a dot, and the candidate ["john.doe90"], with the
    configured special character ['.'], is written. *)
Lemma specials_off_dot_emitted :
  flag false (use_specials john_doe) = false
  ∧ (∃ output, main (R := forward_runtime) john_doe 5000 tt = Ok output
               ∧ "john.doe90" ∈ output)
  ∧ "."%char ∈ chars "john.doe90"
  ∧ "." ∈ common_specials
  ∧ "."%char ∉ field_chars john_doe ++ chars (birth_of john_doe).
Proof.
  split_and!.
  - done.
  - eexists. split; [by vm_compute|]. apply (bool_decide_unpack _). by vm_compute.
  - apply (bool_decide_unpack _). by vm_compute.
  - apply (bool_decide_unpack _). by vm_compute.
  - apply (bool_decide_unpack _). by vm_compute.
Qed.

(** * Further properties of the code *)

(** ** What the filter means *)

Lemma has_run_go_spec (p : ascii → bool) (n : nat) :
  0 < n →
  ∀ s run,
    Py.has_run_go p n run s = true ↔
    (∃ mid post, chars s = mid ++ post ∧ 0 < length mid ∧ n ≤ run + length mid
                 ∧ Forall (λ c, p c = true) mid)
    ∨ has_run_of p n s.
Proof.
  intros Hn. induction s as [|c s IH]; intros run.
  - simpl. split; [done|]. intros [(mid & post & Hs & Hlen & _)|(pre & mid & post & Hs & Hlen & _)].
    + destruct mid; simpl in *; [lia|]. by unfold chars in Hs.
    + unfold chars in Hs. simpl in Hs. symmetry in Hs.
      apply app_eq_nil in Hs as [_ [-> _]%app_eq_nil]. simpl in Hlen. lia.
  - change (chars (String c s)) with (c :: chars s). simpl Py.has_run_go.
    destruct (p c) eqn:Hc.
    + rewrite orb_true_iff, Nat.leb_le, IH. split.
      * intros [Hle|[(mid & post & Hs & Hlen & Hrun & Hall)|(pre & mid & post & Hs & Hlen & Hall)]].
        -- left. exists [c], (chars s). simpl. split_and!; [done|lia|lia|by repeat constructor].
        -- left. exists (c :: mid), post. simpl. rewrite Hs. split_and!; [done|lia|lia|by constructor].
        -- right. exists (c :: pre), mid, post. simpl. by rewrite Hs.
      * intros [(mid & post & Hs & Hlen & Hrun & Hall)|(pre & mid & post & Hs & Hlen & Hall)].
        -- destruct mid as [|c0 mid]; [simpl in Hlen; lia|]. simpl in Hs. simplify_eq.
           apply Forall_cons in Hall as [_ Hall].
           destruct mid as [|c1 mid]; [left; simpl in *; lia|].
           right. left. exists (c1 :: mid), post. simpl in *. split_and!; [done|lia|lia|done].
        -- destruct pre as [|c0 pre]; simpl in Hs.
           ++ destruct mid as [|c0 mid]; [simpl in Hlen; lia|]. simpl in Hs. simplify_eq.
              apply Forall_cons in Hall as [_ Hall].
              destruct mid as [|c1 mid]; [left; simpl in *; lia|].
              right. left. exists (c1 :: mid), post. simpl in *.
              split_and!; [done|lia|lia|done].
           ++ simplify_eq. right. right. by exists pre, mid, post.
    + rewrite IH. split.
      * intros [(mid & post & Hs & Hlen & Hrun & Hall)|(pre & mid & post & Hs & Hlen & Hall)].
        -- right. exists [c], (take n mid), (drop n mid ++ post). simpl. rewrite Hs.
           split_and!.
           ++ by rewrite app_assoc, take_drop.
           ++ rewrite length_take. lia.
           ++ by apply Forall_take.
        -- right. exists (c :: pre), mid, post. simpl. by rewrite Hs.
      * intros [(mid & post & Hs & Hlen & Hrun & Hall)|(pre & mid & post & Hs & Hlen & Hall)].
        -- destruct mid as [|c0 mid]; [simpl in Hlen; lia|]. simpl in Hs. simplify_eq.
           apply Forall_cons in Hall as [Hc0 _]. congruence.
        -- destruct pre as [|c0 pre]; simpl in Hs.
           ++ destruct mid as [|c0 mid]; [simpl in Hlen; lia|]. simpl in Hs. simplify_eq.
              apply Forall_cons in Hall as [Hc0 _]. congruence.
           ++ simplify_eq. right. by exists pre, mid, post.
Qed.

(** [re.search(cls{n,}, s)] finds a match exactly when [s] has [n]
    consecutive characters of the class. *)
Lemma has_run_spec (p : ascii → bool) (n : nat) (s : string) :
  0 < n → Py.has_run p n s = true ↔ has_run_of p n s.
Proof.
  intros Hn. unfold Py.has_run. rewrite has_run_go_spec by done. split; [|by right].
  intros [(mid & post & Hs & Hlen & Hrun & Hall)|H]; [|done].
  exists [], (take n mid), (drop n mid ++ post). simpl. rewrite Hs. split_and!.
  - by rewrite app_assoc, take_drop.
  - rewrite length_take. lia.
  - by apply Forall_take.
Qed.

Lemma existsb_chars_spec (p : ascii → bool) (s : string) :
  Py.existsb_chars p s = true ↔ ∃ c, c ∈ chars s ∧ p c = true.
Proof.
  induction s as [|c s IH]; simpl.
  - split; [done|]. intros (c & Hc & _). by apply not_elem_of_nil in Hc.
  - change (chars (String c s)) with (c :: chars s).
    rewrite orb_true_iff, IH. split.
    + intros [Hc|(c' & Hin & Hc')]; [exists c|exists c']; split; try done.
      * apply list_elem_of_here.
      * by apply list_elem_of_further.
    + intros (c' & [->|Hin]%elem_of_cons & Hc'); [by left|right; by exists c'].
Qed.

Lemma keeps_acceptable (min_len max_len : Z) (pwd : string) :
  keeps min_len max_len pwd = true ↔ acceptable min_len max_len pwd.
Proof.
  unfold keeps, acceptable.
  rewrite !andb_true_iff, !negb_true_iff, !Z.leb_le, existsb_chars_spec.
  rewrite <- !not_true_iff_false, !has_run_spec by lia. tauto.
Qed.

Section Output.
Context {R : Runtime}.

Lemma elem_of_sorted_passwords (filtered : gset string) (pwd : string) :
  pwd ∈ sorted_passwords filtered ↔ pwd ∈ filtered.
Proof.
  unfold sorted_passwords. rewrite merge_sort_Permutation. apply elem_of_set_iter.
Qed.

Lemma elem_of_analyze_and_filter (passwords : gset string) (min_len max_len : Z)
    (pwd : string) :
  pwd ∈ analyze_and_filter passwords min_len max_len
  ↔ pwd ∈ passwords ∧ acceptable min_len max_len pwd.
Proof.
  unfold analyze_and_filter. rewrite elem_of_filter, <- keeps_acceptable.
  rewrite Is_true_true. tauto.
Qed.

(** X1.  Every candidate the engine writes was generated and passes the
    filter: its length is within [min_len, max_len], it has an ASCII letter,
    it has no three consecutive characters of [!@#$%^&*] and no six
    consecutive digits.  When the size limit does not cut (the maximum is
    not positive, or the filtered set is not larger), the engine writes all
    such candidates. *)
Theorem output_is_the_filtered_set (data : Data) (min_len max_len max : Z) (g : rng) :
  ∃ passwords g' output,
    generate_smart_combinations data g = Ok (passwords, g')
    ∧ engine data min_len max_len max g = Ok output
    ∧ (∀ pwd, pwd ∈ output → pwd ∈ passwords ∧ acceptable min_len max_len pwd)
    ∧ ((max ≤ 0)%Z
       ∨ (Z.of_nat (size (analyze_and_filter passwords min_len max_len)) ≤ max)%Z →
       ∀ pwd, pwd ∈ passwords → acceptable min_len max_len pwd → pwd ∈ output).
Proof.
  destruct (generate_smart_combinations_returns data g) as (passwords & g' & Hgen).
  exists passwords, g'. eexists. split; [done|]. split; [by eapply engine_unfold|]. split.
  - intros pwd Hpwd%elem_of_sorted_passwords%limit_subset.
    by apply elem_of_analyze_and_filter.
  - intros Hlimit pwd Hin Hacc. apply elem_of_sorted_passwords.
    assert (limit max (analyze_and_filter passwords min_len max_len)
            = analyze_and_filter passwords min_len max_len) as ->.
    { destruct Hlimit; [by apply limit_disabled|by apply limit_within]. }
    by apply elem_of_analyze_and_filter.
Qed.

(** X2.  The sequence the engine writes has no duplicates and is in
    ascending order of length, candidates of equal length in ascending
    order of their characters' codes: of two candidates the earlier one is
    different from the later one and is shorter, or as long and not
    greater. *)
Theorem output_is_strictly_sorted (data : Data) (min_len max_len max : Z) (g : rng) :
  ∃ output,
    engine data min_len max_len max g = Ok output
    ∧ NoDup output
    ∧ ∀ i j x y,
        i < j → output !! i = Some x → output !! j = Some y →
        x ≠ y
        ∧ (Py.len x < Py.len y ∨ (Py.len x = Py.len y ∧ String.le x y)).
Proof.
  destruct (generate_smart_combinations_returns data g) as (passwords & g' & Hgen).
  eexists. split; [by eapply engine_unfold|].
  set (filtered := limit max (analyze_and_filter passwords min_len max_len)).
  assert (NoDup (sorted_passwords filtered)) as Hnd.
  { unfold sorted_passwords. rewrite merge_sort_Permutation. apply NoDup_set_iter. }
  split; [done|]. intros i j x y Hij Hi Hj. split.
  - intros ->. pose proof (NoDup_lookup _ _ _ _ Hnd Hi Hj). lia.
  - assert (StronglySorted key_le (sorted_passwords filtered)) as Hsorted
      by (apply StronglySorted_merge_sort; apply _).
    rewrite <- (take_drop j (sorted_passwords filtered)) in Hsorted.
    apply (StronglySorted_app_1_elem_of key_le _ _ x y Hsorted).
    + apply list_elem_of_lookup. exists i. by rewrite lookup_take_lt.
    + apply list_elem_of_lookup. exists 0. by rewrite lookup_drop, Nat.add_0_r.
Qed.

(** X3.  The number of candidates written: with a positive maximum, the
    smaller of the maximum and the number of generated candidates that pass
    the filter; with any other maximum, that number. *)
Theorem output_length (data : Data) (min_len max_len max : Z) (g : rng) :
  ∃ passwords g' output,
    generate_smart_combinations data g = Ok (passwords, g')
    ∧ engine data min_len max_len max g = Ok output
    ∧ Z.of_nat (length output)
      = if (0 <? max)%Z
        then Z.min max (Z.of_nat (size (analyze_and_filter passwords min_len max_len)))
        else Z.of_nat (size (analyze_and_filter passwords min_len max_len)).
Proof.
  destruct (generate_smart_combinations_returns data g) as (passwords & g' & Hgen).
  exists passwords, g'. eexists. split; [done|]. split; [by eapply engine_unfold|].
  unfold sorted_passwords. rewrite merge_sort_Permutation, length_set_iter.
  unfold limit. destruct (0 <? max)%Z eqn:Hpos; simpl; [|done].
  apply Z.ltb_lt in Hpos.
  destruct (max <? _)%Z eqn:Hcut.
  - apply Z.ltb_lt in Hcut.
    rewrite size_list_to_set
      by (eapply sublist_NoDup; [apply NoDup_set_iter|apply sublist_take]).
    rewrite length_take, length_set_iter. lia.
  - apply Z.ltb_ge in Hcut. lia.
Qed.

End Output.

(** ** Dates: the components and the digits *)

Lemma len_8 (d : string) :
  Py.len d = 8 →
  ∃ c1 c2 c3 c4 c5 c6 c7 c8,
    d = String c1 (String c2 (String c3 (String c4
          (String c5 (String c6 (String c7 (String c8 EmptyString))))))).
Proof.
  destruct d as [|c1 [|c2 [|c3 [|c4 [|c5 [|c6 [|c7 [|c8 [|c9 d]]]]]]]]]; try done.
  intros _. by eexists _, _, _, _, _, _, _, _.
Qed.

Lemma len_6 (d : string) :
  Py.len d = 6 →
  ∃ c1 c2 c3 c4 c5 c6,
    d = String c1 (String c2 (String c3 (String c4 (String c5 (String c6 EmptyString))))).
Proof.
  destruct d as [|c1 [|c2 [|c3 [|c4 [|c5 [|c6 [|c7 d]]]]]]]; try done.
  intros _. by eexists _, _, _, _, _, _.
Qed.

Lemma len_4 (d : string) :
  Py.len d = 4 →
  ∃ c1 c2 c3 c4, d = String c1 (String c2 (String c3 (String c4 EmptyString))).
Proof.
  destruct d as [|c1 [|c2 [|c3 [|c4 [|c5 d]]]]]; try done.
  intros _. by eexists _, _, _, _.
Qed.

(** X4.  The components of a parsed date are cut out of the digits of the
    input and lose none of them: with eight digits day, month and year put
    together are the digits, and year_short is the year without its first
    two digits; with six digits day, month and year_short are the digits and
    the year is ["20"] and year_short; with four digits day and month are
    the digits.  The key [full] holds the digits, and two inputs that are
    not empty and have the same digits (["15/06/1990"], ["15-06-1990"],
    ["15061990"]) are parsed alike. *)
Theorem parse_human_date_covers_digits (date_str : string) :
  let date_info := parse_human_date date_str in
  let digits := Py.re_sub_non_digits date_str in
  (Py.len digits = 8 →
   get_str date_info "day" +:+ get_str date_info "month" +:+ get_str date_info "year" = digits
   ∧ get_str date_info "year_short" = Py.drop 2 (get_str date_info "year"))
  ∧ (Py.len digits = 6 →
     get_str date_info "day" +:+ get_str date_info "month"
       +:+ get_str date_info "year_short" = digits
     ∧ get_str date_info "year" = "20" +:+ get_str date_info "year_short")
  ∧ (Py.len digits = 4 →
     get_str date_info "day" +:+ get_str date_info "month" = digits)
  ∧ (date_str ≠ EmptyString → date_info !! "full" = Some digits)
  ∧ (∀ other,
       date_str ≠ EmptyString → other ≠ EmptyString →
       Py.re_sub_non_digits other = digits →
       parse_human_date other = date_info).
Proof.
  cbv zeta. split_and!.
  - intros H. rewrite parse_human_date_nonempty by (intros E; by rewrite E in H).
    cbv zeta. destruct (len_8 _ H) as (c1 & c2 & c3 & c4 & c5 & c6 & c7 & c8 & ->).
    by vm_compute.
  - intros H. rewrite parse_human_date_nonempty by (intros E; by rewrite E in H).
    cbv zeta. destruct (len_6 _ H) as (c1 & c2 & c3 & c4 & c5 & c6 & ->).
    by vm_compute.
  - intros H. rewrite parse_human_date_nonempty by (intros E; by rewrite E in H).
    cbv zeta. destruct (len_4 _ H) as (c1 & c2 & c3 & c4 & ->).
    by vm_compute.
  - intros Hne. unfold parse_human_date. case_decide; [done|]. apply lookup_insert_eq.
  - intros other Hne Hother Hdigits. unfold parse_human_date.
    case_decide; [done|]. case_decide; [done|]. by rewrite Hdigits.
Qed.

(** X4 on the three spellings of one date. *)
Lemma parse_human_date_covers_digits_example :
  parse_human_date "15-06-1990" = parse_human_date "15/06/1990"
  ∧ parse_human_date "15061990" = parse_human_date "15/06/1990"
  ∧ get_str (parse_human_date "15/06/1990") "day"
      +:+ get_str (parse_human_date "15/06/1990") "month"
      +:+ get_str (parse_human_date "15/06/1990") "year" = "15061990".
Proof.
  pose proof (parse_human_date_covers_digits "15/06/1990") as (H8 & _ & _ & _ & Hsame).
  split_and!.
  - by apply Hsame.
  - by apply Hsame.
  - by apply H8.
Defined.

(** ** Candidates that are always generated *)

Section Guaranteed.
Context {R : Runtime}.




End Guaranteed.


(** ** The sampler of [old_versions/Var3.py], in full *)

Section SamplerOutcome.
Context {R : Runtime}.

(** The sampling branch when the strata fit: the strata are kept and the
    set is filled up to the maximum from the remaining candidates. *)
Lemma sample_passwords_fits (passwords : gset string) (max_passwords : Z) (g : rng) :
  (Z.of_nat (size (strata (set_iter passwords))) ≤ max_passwords)%Z →
  (max_passwords < Z.of_nat (size passwords))%Z →
  ∃ sampled,
    sample_passwords (set_iter passwords) max_passwords g = Ok (set_iter sampled)
    ∧ Z.of_nat (size sampled) = max_passwords
    ∧ strata (set_iter passwords) ⊆ sampled
    ∧ sampled ⊆ passwords.
Proof.
  intros Hfit Hover. unfold sample_passwords.
  set (sampled := strata (set_iter passwords)) in *.
  set (remaining := filter (λ p, p ∉ sampled) (set_iter passwords)).
  assert (length remaining + size sampled = size passwords) as Hrem.
  { rewrite <- (length_set_iter passwords).
    apply remaining_length; [apply NoDup_set_iter|].
    intros x. apply strata_subset. }
  rewrite (proj2 (Z.ltb_lt (max_passwords - Z.of_nat (size sampled))
                    (Z.of_nat (length remaining)))) by lia.
  unfold random_sample.
  rewrite (proj2 (Z.ltb_ge (max_passwords - Z.of_nat (size sampled)) 0)) by lia.
  rewrite (proj2 (Z.ltb_ge (Z.of_nat (length remaining))
                    (max_passwords - Z.of_nat (size sampled)))) by lia.
  simpl orb. cbv iota.
  set (k := Z.to_nat (max_passwords - Z.of_nat (size sampled))).
  assert (k ≤ length remaining) as Hk by lia.
  pose proof (random_positions_length (length remaining) k g Hk) as Hlen.
  pose proof (random_positions_NoDup (length remaining) k g Hk) as Hnd.
  pose proof (random_positions_lt (length remaining) k g Hk) as Hlt.
  destruct (random_positions (length remaining) k g) as [positions g'].
  simpl in Hlen, Hnd, Hlt. cbn [mbind result_bind].
  destruct (drawn_at_positions remaining positions) as (Hdl & Hdn & Hdin);
    [by apply NoDup_filter, NoDup_set_iter|done|done|].
  eexists. split; [done|]. split_and!.
  - rewrite size_union.
    + rewrite size_list_to_set by done. lia.
    + intros x Hx [Hin _]%elem_of_list_to_set%Hdin%list_elem_of_filter. done.
  - intros x Hx. by apply elem_of_union_l.
  - intros x [Hx|Hx]%elem_of_union.
    + by apply elem_of_set_iter, strata_subset.
    + apply elem_of_list_to_set, Hdin, list_elem_of_filter in Hx as [_ Hx].
      by apply elem_of_set_iter.
Qed.

(** X6.  [save_to_file] of [Var3.py] raises [ValueError] exactly when the
    three strata (short candidates, candidates with a special character,
    candidates with a digit and a letter, each up to its fixed quota) hold
    more candidates than [max_passwords].  Otherwise it writes as many lines
    as the smaller of [max_passwords] and the number of candidates, without
    duplicates, in ascending order, all of them candidates, every candidate
    of the strata among them. *)
Theorem save_to_file_outcome (passwords : gset string) (max_passwords : Z) (g : rng) :
  (save_to_file passwords max_passwords g = Raise ValueError
   ↔ (max_passwords < Z.of_nat (size (strata (set_iter passwords))))%Z)
  ∧ ((Z.of_nat (size (strata (set_iter passwords))) ≤ max_passwords)%Z →
     ∃ lines,
       save_to_file passwords max_passwords g = Ok lines
       ∧ Z.of_nat (length lines) = Z.min max_passwords (Z.of_nat (size passwords))
       ∧ NoDup lines
       ∧ StronglySorted String.le lines
       ∧ (∀ x, x ∈ lines → x ∈ passwords)
       ∧ (∀ x, x ∈ strata (set_iter passwords) → x ∈ lines)).
Proof.
  assert ((Z.of_nat (size (strata (set_iter passwords))) ≤ max_passwords)%Z →
     ∃ lines,
       save_to_file passwords max_passwords g = Ok lines
       ∧ Z.of_nat (length lines) = Z.min max_passwords (Z.of_nat (size passwords))
       ∧ NoDup lines
       ∧ StronglySorted String.le lines
       ∧ (∀ x, x ∈ lines → x ∈ passwords)
       ∧ (∀ x, x ∈ strata (set_iter passwords) → x ∈ lines)) as Hfits.
  { intros Hfit. unfold save_to_file. rewrite length_set_iter.
    destruct (max_passwords <? Z.of_nat (size passwords))%Z eqn:Hover.
    - apply Z.ltb_lt in Hover.
      destruct (sample_passwords_fits passwords max_passwords g Hfit Hover)
        as (sampled & -> & Hsize & Hstrata & Hsub).
      cbn [mbind result_bind]. eexists. split; [done|]. split_and!.
      + rewrite merge_sort_Permutation, length_set_iter. lia.
      + rewrite merge_sort_Permutation. apply NoDup_set_iter.
      + apply StronglySorted_merge_sort; apply _.
      + intros x. rewrite merge_sort_Permutation, elem_of_set_iter. apply Hsub.
      + intros x Hx. rewrite merge_sort_Permutation, elem_of_set_iter. by apply Hstrata.
    - apply Z.ltb_ge in Hover. cbn [mbind result_bind]. eexists. split; [done|]. split_and!.
      + rewrite merge_sort_Permutation, length_set_iter. lia.
      + rewrite merge_sort_Permutation. apply NoDup_set_iter.
      + apply StronglySorted_merge_sort; apply _.
      + intros x. by rewrite merge_sort_Permutation, elem_of_set_iter.
      + intros x Hx. rewrite merge_sort_Permutation. by apply strata_subset. }
  split; [|done]. split.
  - intros Hraise.
    destruct (decide (max_passwords < Z.of_nat (size (strata (set_iter passwords))))%Z)
      as [|Hfit]; [done|].
    destruct Hfits as (lines & Hok & _); [lia|]. congruence.
  - apply save_to_file_overfull.
Qed.

End SamplerOutcome.

(** X6 on three candidates, one of them short, and the maximum 2: two
    lines are written and the short candidate is one of them; and on two
    candidates of nine characters that mix digits with the letters
    [U+00E9] and [U+00FC], with the maximum 1: both are in the third
    stratum and the call raises. *)
Lemma save_to_file_outcome_example :
  (∃ lines,
     save_to_file (R := forward_runtime)
       {[ "ab"; "abcdefghijkl"; "mnopqrstuvwx" ]} 2 tt = Ok lines
     ∧ Z.of_nat (length lines) = 2%Z
     ∧ "ab" ∈ lines)
  ∧ (let e := ascii_of_N 233 in
     let u := ascii_of_N 252 in
     let one := "1"%char in
     let two := "2"%char in
     save_to_file (R := forward_runtime)
       {[ String.string_of_list_ascii [e; one; e; one; e; one; e; one; e];
          String.string_of_list_ascii [u; two; u; two; u; two; u; two; u] ]} 1 tt
     = Raise ValueError).
Proof.
  split.
  - destruct (proj2 (save_to_file_outcome (R := forward_runtime)
                       {[ "ab"; "abcdefghijkl"; "mnopqrstuvwx" ]} 2 tt))
      as (lines & Hok & Hlen & _ & _ & _ & Hstrata); [by vm_compute|].
    exists lines. split; [done|]. split.
    + rewrite Hlen. by vm_compute.
    + apply Hstrata. apply (bool_decide_unpack _). by vm_compute.
  - cbv zeta. apply (proj1 (save_to_file_outcome (R := forward_runtime) _ 1 tt)).
    by vm_compute.
Defined.

(** ** How many candidates the generator can return *)

Lemma length_bind_le {A B : Type} (f : A → list B) (k : nat) (l : list A) :
  (∀ x, length (f x) ≤ k) → length (l ≫= f) ≤ length l * k.
Proof.
  intros Hf. induction l as [|x l IH]; [done|].
  cbn [mbind list_bind]. rewrite length_app. specialize (Hf x). simpl. lia.
Qed.

Lemma numbered_length (password : string) : length (numbered password) ≤ 20.
Proof.
  unfold numbered. etrans; [apply (length_bind_le _ 2)|].
  - intros num. destruct (_ || _); [|simpl; lia].
    destruct (Py.re_split _ _) as [|p0 [|p1 rest]]; simpl; lia.
  - pose proof (length_take_le_bound 10 common_numbers). lia.
Qed.

Lemma pattern_candidates_length (data : Data) (password : string) :
  length (pattern_candidates data password) ≤ 23.
Proof.
  unfold pattern_candidates. destruct (_ && _); [|simpl; lia].
  rewrite length_app. pose proof (numbered_length password).
  destruct (flag true (add_numbers data)); cbn [length]; lia.
Qed.

Lemma apply_patterns_size (data : Data) (vars : gmap string string)
    (patterns : list string) :
  ∀ passwords passwords',
    apply_patterns data vars patterns passwords = Ok passwords' →
    size passwords' ≤ size passwords + 23 * length patterns.
Proof.
  induction patterns as [|pattern rest IH]; intros passwords passwords' Hrun.
  - simpl in Hrun. simplify_eq. lia.
  - simpl in Hrun. unfold apply_pattern in Hrun at 1.
    destruct (format pattern vars) as [password|[]]; simpl in Hrun; try done.
    + apply IH in Hrun. etrans; [exact Hrun|].
      pose proof (size_union_le passwords (list_to_set (pattern_candidates data password))).
      pose proof (size_list_to_set_le (pattern_candidates data password)).
      pose proof (pattern_candidates_length data password).
      cbn [length]. lia.
    + apply IH in Hrun. cbn [length]. lia.
Qed.

Lemma dated_length (date_combos : list string) (pwd : string) :
  length (dated date_combos pwd) ≤ 9.
Proof.
  unfold dated. etrans; [apply (length_bind_le _ 3)|].
  - intros combo. rewrite length_app. destruct (Py.existsb_chars _ _); [|simpl; lia].
    destruct (Py.search_trailing_digits pwd); simpl; lia.
  - pose proof (length_take_le_bound 3 date_combos). lia.
Qed.

Lemma suffixed_length (pwd : string) : length (suffixed pwd) ≤ 10.
Proof.
  unfold suffixed. etrans; [apply (length_bind_le _ 2)|].
  - intros num. destruct (_ && _); [|simpl; lia].
    destruct (Py.re_split _ _) as [|p0 [|p1 [|p2 rest]]]; simpl; lia.
  - pose proof (length_take_le_bound 5 common_numbers). lia.
Qed.

Lemma decorated_length (specials : list string) (pwd : string) :
  length (decorated specials pwd) ≤ 16.
Proof.
  unfold decorated. cbn [length]. apply le_n_S.
  etrans; [apply (length_bind_le _ 5)|].
  - intros special. rewrite !length_app.
    destruct (Py.contains " " pwd), (8 <? Py.len pwd); simpl; lia.
  - pose proof (length_take_le_bound 3 specials). lia.
Qed.

Section Bounds.
Context {R : Runtime}.

Lemma add_number_variations_size (passwords : gset string)
    (date_info : gmap string string) :
  size (add_number_variations passwords date_info) ≤ 1400.
Proof.
  unfold add_number_variations. etrans; [apply size_list_to_set_le|].
  rewrite length_app.
  pose proof (length_bind_le (dated (date_combinations date_info)) 9
                (take 100 (set_iter passwords)) (dated_length _)).
  pose proof (length_bind_le suffixed 10 (take 50 (set_iter passwords)) suffixed_length).
  pose proof (length_take_le_bound 100 (set_iter passwords)).
  pose proof (length_take_le_bound 50 (set_iter passwords)). lia.
Qed.

Lemma add_special_variations_size (passwords : gset string) (specials : list string) :
  size (add_special_variations passwords specials) ≤ 3200.
Proof.
  unfold add_special_variations. etrans; [apply size_list_to_set_le|].
  pose proof (length_bind_le (decorated specials) 16
                (take 200 (set_iter passwords)) (decorated_length _)).
  pose proof (length_take_le_bound 200 (set_iter passwords)). lia.
Qed.

Lemma leeted_length (pwd : string) (g g' : rng) (added : list string) :
  leeted pwd g = Ok (added, g') → length added ≤ 2.
Proof.
  unfold leeted. destruct (random_random g) as [x g1].
  destruct (Qltb x float_0_3); [|intros [= <- <-]; simpl; lia].
  destruct (leet_entries leet_map pwd g1) as [[leet_pwd g2]|]; [|done]. simpl.
  intros [= <- <-]. case_decide; simpl; lia.
Qed.

Lemma leet_loop_size (pwds : list string) :
  ∀ new_passwords g new_passwords' g',
    leet_loop pwds new_passwords g = Ok (new_passwords', g') →
    size new_passwords' ≤ size new_passwords + 2 * length pwds.
Proof.
  induction pwds as [|pwd rest IH]; intros X g X' g'; simpl.
  - intros [= <- <-]. lia.
  - destruct (leeted pwd g) as [[added g1]|] eqn:H1; [|done]. simpl.
    intros Hrun%IH. apply leeted_length in H1.
    pose proof (size_union_le X (list_to_set added)).
    pose proof (size_list_to_set_le added). lia.
Qed.

Lemma add_leet_variations_size (passwords : gset string) (g : rng) :
  ∃ new_passwords g',
    add_leet_variations passwords g = Ok (new_passwords, g')
    ∧ size new_passwords ≤ 200.
Proof.
  unfold add_leet_variations.
  destruct (leet_loop_returns (take 100 (set_iter passwords)) ∅ g) as (new & g' & Hrun).
  exists new, g'. split; [done|]. apply leet_loop_size in Hrun.
  rewrite size_empty in Hrun.
  pose proof (length_take_le_bound 100 (set_iter passwords)). lia.
Qed.

Lemma generate_smart_combinations_size (data : Data) (g g' : rng)
    (passwords : gset string) :
  generate_smart_combinations data g = Ok (passwords, g') →
  size passwords ≤ 805 + 23 + 1400 + 3200 + 200 + 14.
Proof.
  intros Hgen.
  unfold generate_smart_combinations, first_generation in Hgen.
  destruct (draw_special data g) as [[special g1]|]; [|done].
  cbn [mbind result_bind] in Hgen.
  destruct (apply_patterns data _ human_patterns ∅) as [first|] eqn:Hrun; [|done].
  cbn [mbind result_bind] in Hgen.
  apply apply_patterns_size in Hrun. rewrite size_empty in Hrun.
  change (length human_patterns) with 35 in Hrun.
  set (examples := generate_specific_examples first (first_of data) (last_of data)
                     (parse_human_date (birth_of data))) in *.
  assert (size examples ≤ size first + 23) as Hex.
  { unfold examples, generate_specific_examples. destruct (_ || _); [lia|].
    etrans; [apply size_union_le|].
    pose proof (size_list_to_set_le (specific_examples (first_of data) (last_of data)
                                     (parse_human_date (birth_of data)))) as Hl.
    change (length (specific_examples _ _ _)) with 23 in Hl. lia. }
  set (numbers := number_stage data (parse_human_date (birth_of data)) examples) in *.
  assert (size numbers ≤ size examples + 1400) as Hnum.
  { unfold numbers, number_stage. destruct (flag true (add_numbers data)); [|lia].
    etrans; [apply size_union_le|].
    pose proof (add_number_variations_size examples (parse_human_date (birth_of data))).
    lia. }
  set (specialed := special_stage data numbers) in *.
  assert (size specialed ≤ size numbers + 3200) as Hspec.
  { unfold specialed, special_stage. destruct (flag false (use_specials data)); [|lia].
    etrans; [apply size_union_le|].
    pose proof (add_special_variations_size numbers
                  (default common_specials (specials data))). lia. }
  destruct (leet_stage data specialed g1) as [[leeted_set g2]|] eqn:Hleet; [|done].
  cbn [mbind result_bind] in Hgen. injection Hgen as <- <-.
  assert (size leeted_set ≤ size specialed + 200) as Hl.
  { unfold leet_stage in Hleet. destruct (flag false (use_leet data)).
    - destruct (add_leet_variations_size specialed g1) as (new & g3 & Hnew & Hsize).
      rewrite Hnew in Hleet. cbn [mbind result_bind] in Hleet.
      injection Hleet as <- <-. etrans; [apply size_union_le|]. lia.
    - injection Hleet as <- <-. lia. }
  etrans; [apply size_union_le|].
  assert (size (generate_common_passwords (first_of data) (last_of data)
                  (parse_human_date (birth_of data))) ≤ 14) as Hcommon.
  { unfold generate_common_passwords. destruct (_ || _); [rewrite size_empty; lia|].
    etrans; [apply size_list_to_set_le|]. rewrite !length_app.
    destruct (truthy _); simpl; lia. }
  lia.
Qed.

(** X7.  Each mutation stage adds a bounded number of candidates, however
    large the set it is given: the number variations are at most 1400, the
    special-character variations at most 3200, the leet variations at most
    200.  With the at most 805 candidates of the 35 patterns, the 23 fixed
    examples and the at most 14 common passwords, the generator returns at
    most 805 + 23 + 1400 + 3200 + 200 + 14 = 5642 candidates, whatever the
    profile. *)
Theorem generator_output_is_bounded (data : Data) (g : rng) :
  (∀ passwords date_info, size (add_number_variations passwords date_info) ≤ 1400)
  ∧ (∀ passwords specials, size (add_special_variations passwords specials) ≤ 3200)
  ∧ (∀ passwords g0, ∃ new_passwords g',
       add_leet_variations passwords g0 = Ok (new_passwords, g')
       ∧ size new_passwords ≤ 200)
  ∧ ∃ passwords g',
      generate_smart_combinations data g = Ok (passwords, g')
      ∧ size passwords ≤ 805 + 23 + 1400 + 3200 + 200 + 14.
Proof.
  split_and!.
  - apply add_number_variations_size.
  - apply add_special_variations_size.
  - apply add_leet_variations_size.
  - destruct (generate_smart_combinations_returns data g) as (passwords & g' & Hgen).
    exists passwords, g'. split; [done|]. by eapply generate_smart_combinations_size.
Qed.

(** X16.  From a maximum of 5642 on, as with a maximum that is not
    positive, the size limit of [main] is without effect: the engine
    writes, in the final order, exactly the generated candidates that pass
    the filter, as it does with the limit switched off.  (The default
    maximum of the command line, 5000, is below that bound.) *)
Theorem limit_without_effect (data : Data) (min_len max_len max : Z) (g : rng) :
  (max ≤ 0 ∨ 5642 ≤ max)%Z →
  engine data min_len max_len max g = engine data min_len max_len 0 g
  ∧ ∃ passwords g',
      generate_smart_combinations data g = Ok (passwords, g')
      ∧ engine data min_len max_len max g
        = Ok (sorted_passwords (analyze_and_filter passwords min_len max_len)).
Proof.
  intros Hmax.
  destruct (generate_smart_combinations_returns data g) as (passwords & g' & Hgen).
  assert (engine data min_len max_len max g
          = Ok (sorted_passwords (analyze_and_filter passwords min_len max_len))) as Hrun.
  { rewrite (engine_unfold _ _ _ _ _ _ _ Hgen). do 2 f_equal.
    destruct Hmax as [Hoff|Hbig]; [by apply limit_disabled|].
    apply limit_within.
    pose proof (generate_smart_combinations_size _ _ _ _ Hgen) as Hsize.
    pose proof (subseteq_size _ _ (analyze_and_filter_subset passwords min_len max_len)).
    lia. }
  split; [|by exists passwords, g'].
  rewrite Hrun, (engine_unfold _ _ _ _ _ _ _ Hgen).
  by rewrite limit_disabled.
Qed.

End Bounds.

(** X16 on john doe with a maximum of 6000. *)
Lemma limit_without_effect_example :
  engine (R := forward_runtime) john_doe 6 20 6000 tt
  = engine (R := forward_runtime) john_doe 6 20 0 tt.
Proof.
  refine (proj1 (limit_without_effect (R := forward_runtime) john_doe 6 20 6000 tt _)).
  right. lia.
Defined.

(** ** Leet variants *)

Lemma pointwise_refl (R : ascii → ascii → bool) (s : string) :
  (∀ a, R a a = true) → pointwise R s s = true.
Proof. intros HR. induction s as [|a s IH]; simpl; [done|]. by rewrite HR, IH. Qed.

Lemma pointwise_trans (R S T : ascii → ascii → bool) :
  (∀ a b c, R a b = true → S b c = true → T a c = true) →
  ∀ s t u, pointwise R s t = true → pointwise S t u = true → pointwise T s u = true.
Proof.
  intros Hcomp. induction s as [|a s IH]; intros [|b t] [|c u]; simpl; try done.
  intros [Hab Hst]%andb_prop [Hbc Htu]%andb_prop.
  rewrite (Hcomp _ _ _ Hab Hbc). simpl. by eapply IH.
Qed.

Lemma pointwise_len (R : ascii → ascii → bool) :
  ∀ s t, pointwise R s t = true → Py.len s = Py.len t.
Proof.
  induction s as [|a s IH]; intros [|b t]; simpl; try done.
  intros [_ Hst]%andb_prop. unfold Py.len in *. simpl. f_equal. by apply IH.
Qed.

Lemma replace_pointwise (c r : ascii) (s : string) :
  pointwise (replaced c r) s (Py.replace c (String r EmptyString) s) = true.
Proof.
  induction s as [|a s IH]; simpl; [done|].
  destruct (Ascii.eqb a c) eqn:Hac; simpl;
    change (EmptyString +:+ Py.replace c (String r EmptyString) s)
      with (Py.replace c (String r EmptyString) s) in *;
    rewrite IH; unfold replaced;
    rewrite ?Hac, Ascii.eqb_refl; simpl; by rewrite ?orb_true_r.
Qed.

(** The substitutes are single characters, none of them a letter that
    [leet_map] replaces: a substituted position is never substituted again. *)
Lemma leet_map_subs (entry : ascii * list string) (sub : string) :
  entry ∈ leet_map → sub ∈ entry.2 → ∃ r, sub = String r EmptyString.
Proof.
  intros Hentry Hsub. unfold leet_map in Hentry.
  repeat (apply elem_of_cons in Hentry as [->|Hentry];
          [simpl in Hsub;
           repeat (apply elem_of_cons in Hsub as [->|Hsub]; [by eexists|]);
           by apply elem_of_nil in Hsub|]).
  by apply elem_of_nil in Hentry.
Qed.

Lemma leet_sub_final (a b : ascii) (entry : ascii * list string) :
  leet_sub a b = true → entry ∈ leet_map →
  Ascii.eqb b entry.1 = false ∧ Ascii.eqb b (Py.to_upper entry.1) = false.
Proof.
  intros Hsub Hentry.
  assert (existsb (λ e : ascii * list string,
                     Ascii.eqb b e.1 || Ascii.eqb b (Py.to_upper e.1)) leet_map = false)
    as Hkey.
  { revert Hsub. clear.
    destruct b as [[] [] [] [] [] [] [] []]; vm_compute; done. }
  assert (Ascii.eqb b entry.1 || Ascii.eqb b (Py.to_upper entry.1) = false) as Hb.
  { destruct (Ascii.eqb b entry.1 || Ascii.eqb b (Py.to_upper entry.1)) eqn:Hb; [|done].
    rewrite <- Hkey. symmetry. apply existsb_exists. exists entry.
    split; [by apply list_elem_of_In|done]. }
  by apply orb_false_elim in Hb.
Qed.

Lemma leet_char_replaced (entry : ascii * list string) (k r a b c : ascii) :
  entry ∈ leet_map → String r EmptyString ∈ entry.2 →
  k = entry.1 ∨ k = Py.to_upper entry.1 →
  leet_char a b = true → replaced k r b c = true → leet_char a c = true.
Proof.
  intros Hentry Hr Hk Hab Hbc. unfold replaced in Hbc.
  apply orb_prop in Hbc as [->%Ascii.eqb_eq|[->%Ascii.eqb_eq ->%Ascii.eqb_eq]%andb_prop];
    [done|].
  unfold leet_char in Hab. apply orb_prop in Hab as [->%Ascii.eqb_eq|Hsub].
  - unfold leet_char. apply orb_true_intro. right. unfold leet_sub.
    apply existsb_exists. exists entry. split; [by apply list_elem_of_In|].
    rewrite bool_decide_eq_true_2 by done. simpl.
    destruct Hk as [->| ->]; rewrite Ascii.eqb_refl; [done|by rewrite orb_true_r].
  - destruct (leet_sub_final _ _ entry Hsub Hentry) as [H1 H2].
    destruct Hk as [->| ->]; by rewrite Ascii.eqb_refl in *.
Qed.

Section Leet.
Context {R : Runtime}.

Lemma random_choice_member (seq : list string) (g g' : rng) (x : string) :
  random_choice seq g = Ok (x, g') → x ∈ seq.
Proof.
  unfold random_choice. destruct seq as [|y seq']; [done|].
  destruct (random_below (length (y :: seq')) g) as [i g1].
  destruct ((y :: seq') !! i) as [z|] eqn:Hz; [|done].
  intros [= <- <-]. by eapply list_elem_of_lookup_2.
Qed.

Lemma leet_entry_variant (pwd leet_pwd : string) (entry : ascii * list string)
    (g g' : rng) (s : string) :
  entry ∈ leet_map →
  leet_variant pwd leet_pwd = true →
  leet_entry leet_pwd entry g = Ok (s, g') →
  leet_variant pwd s = true.
Proof.
  intros Hentry Hvar. unfold leet_entry. destruct entry as [char subs] eqn:He.
  destruct (Py.contains char (Py.lower leet_pwd)); [|by intros [= <- <-]].
  destruct (random_random g) as [x g1].
  destruct (Qltb x (1 # 2)); [|by intros [= <- <-]].
  destruct (random_choice subs g1) as [[sub1 g2]|] eqn:H1; [|done].
  cbn [mbind result_bind].
  destruct (random_choice subs g2) as [[sub2 g3]|] eqn:H2; [|done].
  cbn [mbind result_bind]. intros [= <- <-].
  apply random_choice_member in H1, H2.
  destruct (leet_map_subs (char, subs) sub1 Hentry H1) as [r1 ->].
  destruct (leet_map_subs (char, subs) sub2 Hentry H2) as [r2 ->].
  unfold leet_variant in *.
  eapply (pointwise_trans leet_char (replaced (Py.to_upper char) r2) leet_char);
    [| |apply replace_pointwise].
  - intros a b c. apply (leet_char_replaced (char, subs)); auto.
  - eapply (pointwise_trans leet_char (replaced char r1) leet_char);
      [|exact Hvar|apply replace_pointwise].
    intros a b c. apply (leet_char_replaced (char, subs)); auto.
Qed.

Lemma leet_entries_variant (pwd : string) (entries : list (ascii * list string)) :
  entries ⊆ leet_map →
  ∀ leet_pwd g s g',
    leet_variant pwd leet_pwd = true →
    leet_entries entries leet_pwd g = Ok (s, g') →
    leet_variant pwd s = true.
Proof.
  induction entries as [|entry rest IH]; intros Hsub leet_pwd g s g' Hvar; simpl.
  - by intros [= <- <-].
  - destruct (leet_entry leet_pwd entry g) as [[leet_pwd' g1]|] eqn:H1; [|done].
    cbn [mbind result_bind]. apply IH; [set_solver|].
    eapply leet_entry_variant; [|exact Hvar|exact H1]. set_solver.
Qed.

Lemma leet_variant_refl (pwd : string) : leet_variant pwd pwd = true.
Proof.
  apply pointwise_refl. intros a. unfold leet_char. by rewrite Ascii.eqb_refl.
Qed.

Lemma leeted_variant (pwd : string) (g g' : rng) (added : list string) :
  leeted pwd g = Ok (added, g') →
  ∀ x, x ∈ added → leet_variant pwd x = true.
Proof.
  unfold leeted. destruct (random_random g) as [x g1].
  destruct (Qltb x float_0_3).
  - destruct (leet_entries leet_map pwd g1) as [[leet_pwd g2]|] eqn:Hrun; [|done].
    cbn [mbind result_bind]. intros [= <- <-] y Hy.
    apply (leet_entries_variant pwd leet_map) in Hrun;
      [|done|apply leet_variant_refl].
    case_decide.
    + apply list_elem_of_singleton in Hy as ->. apply leet_variant_refl.
    + apply elem_of_cons in Hy as [->|Hy]; [apply leet_variant_refl|].
      by apply list_elem_of_singleton in Hy as ->.
  - intros [= <- <-] y Hy. apply list_elem_of_singleton in Hy as ->.
    apply leet_variant_refl.
Qed.

Lemma leet_loop_variant (all : list string) (pwds : list string) :
  pwds ⊆ all →
  ∀ new_passwords g new_passwords' g',
    (∀ x, x ∈ new_passwords → ∃ pwd, pwd ∈ all ∧ leet_variant pwd x = true) →
    leet_loop pwds new_passwords g = Ok (new_passwords', g') →
    ∀ x, x ∈ new_passwords' → ∃ pwd, pwd ∈ all ∧ leet_variant pwd x = true.
Proof.
  induction pwds as [|pwd rest IH]; intros Hsub X g X' g' HX; simpl.
  - by intros [= <- <-].
  - destruct (leeted pwd g) as [[added g1]|] eqn:H1; [|done].
    cbn [mbind result_bind]. apply IH; [set_solver|].
    intros x [Hx|Hx]%elem_of_union; [by apply HX|].
    exists pwd. split; [set_solver|].
    apply (leeted_variant _ _ _ _ H1). by apply elem_of_list_to_set in Hx.
Qed.

(** X8.  Leet substitution works in place: every string that
    [add_leet_variations] returns is one of the given candidates with some
    of its letters a, e, i, o, s, t (either case) exchanged for a substitute
    that [leet_map] lists for that letter, every other character kept; so
    it has the length of the candidate it comes from. *)
Theorem leet_variations_substitute_in_place (passwords : gset string) (g g' : rng)
    (new_passwords : gset string) :
  add_leet_variations passwords g = Ok (new_passwords, g') →
  ∀ x, x ∈ new_passwords →
    ∃ pwd, pwd ∈ passwords ∧ leet_variant pwd x = true ∧ Py.len x = Py.len pwd.
Proof.
  unfold add_leet_variations. intros Hrun x Hx.
  destruct (leet_loop_variant (take 100 (set_iter passwords))
              (take 100 (set_iter passwords)) (reflexivity _) ∅ g new_passwords g')
    with (x := x) as (pwd & Hpwd & Hvar); [set_solver|done|done|].
  exists pwd. split_and!; [|done|symmetry; by eapply pointwise_len].
  apply subseteq_take in Hpwd. by apply elem_of_set_iter in Hpwd.
Qed.

End Leet.

(** X8 on the single candidate test: with every draw falling below the
    thresholds the variant 7357 is returned, four characters like test. *)
Lemma leet_variations_substitute_in_place_example :
  add_leet_variations (R := forward_runtime) {[ "test" ]} tt
  = Ok ({[ "test"; "7357" ]}, tt)
  ∧ ∃ pwd, pwd ∈ ({[ "test" ]} : gset string)
           ∧ leet_variant pwd "7357" = true ∧ Py.len "7357" = Py.len pwd.
Proof.
  assert (add_leet_variations (R := forward_runtime) {[ "test" ]} tt
          = Ok ({[ "test"; "7357" ]}, tt)) as Hrun by (by vm_compute).
  split; [exact Hrun|].
  apply (leet_variations_substitute_in_place (R := forward_runtime) _ _ _ _ Hrun).
  apply (bool_decide_unpack _). by vm_compute.
Defined.

(** ** Which patterns the loop can skip *)

Lemma family_patterns (first first_initial last last_initial nick year year_short
    day month special : string) (spouse child pet : option string) (pattern : string) :
  pattern ∈ human_patterns →
  let vars :=
    with_optional "pet_name" pet
      (with_optional "child_name" child
         (with_optional "spouse_initial" spouse
            (<["special" := special]>
               (<["month" := month]>
                  (<["day" := day]>
                     (<["birth_month" := month]>
                        (<["birth_day" := day]>
                           (<["year_short" := year_short]>
                              (<["year" := year]>
                                 (<["nick" := nick]>
                                    (<["last_initial" := last_initial]>
                                       (<["last" := last]>
                                          (<["first_initial" := first_initial]>
                                             (<["first" := first]> ∅)))))))))))))) in
  (∃ password, format pattern vars = Ok password)
  ∨ (pattern = "{first}{spouse_initial}{year}" ∧ spouse = None
     ∧ format pattern vars = Raise (KeyError "spouse_initial"))
  ∨ (pattern = "{child_name}{year}" ∧ child = None
     ∧ format pattern vars = Raise (KeyError "child_name"))
  ∨ (pattern = "{pet_name}{year}" ∧ pet = None
     ∧ format pattern vars = Raise (KeyError "pet_name")).
Proof.
  intros Hin. unfold human_patterns in Hin.
  repeat (apply elem_of_cons in Hin as [->|Hin];
          [destruct spouse, child, pet; vm_compute;
           first [ by left; eexists | by right; left | by right; right; left
                 | by right; right; right ]|]).
  by apply elem_of_nil in Hin.
Qed.

(** A family pattern whose slot is not bound raises [KeyError] for it. *)
Lemma family_patterns_missing (first first_initial last last_initial nick year
    year_short day month special : string) (spouse child pet : option string) :
  let vars :=
    with_optional "pet_name" pet
      (with_optional "child_name" child
         (with_optional "spouse_initial" spouse
            (<["special" := special]>
               (<["month" := month]>
                  (<["day" := day]>
                     (<["birth_month" := month]>
                        (<["birth_day" := day]>
                           (<["year_short" := year_short]>
                              (<["year" := year]>
                                 (<["nick" := nick]>
                                    (<["last_initial" := last_initial]>
                                       (<["last" := last]>
                                          (<["first_initial" := first_initial]>
                                             (<["first" := first]> ∅)))))))))))))) in
  (spouse = None →
   format "{first}{spouse_initial}{year}" vars = Raise (KeyError "spouse_initial"))
  ∧ (child = None → format "{child_name}{year}" vars = Raise (KeyError "child_name"))
  ∧ (pet = None → format "{pet_name}{year}" vars = Raise (KeyError "pet_name")).
Proof.
  cbv zeta. split_and!; intros ->.
  - destruct child, pet; by vm_compute.
  - destruct spouse, pet; by vm_compute.
  - destruct spouse, child; by vm_compute.
Qed.

(** X9.  Whatever the profile, the date and the drawn special character,
    a pattern of [human_patterns] is skipped by the loop exactly when it
    is one of the three family patterns and its key is absent from the
    profile: [{first}{spouse_initial}{year}] without [spouse_name],
    [{child_name}{year}] without [child_name], [{pet_name}{year}] without
    [pet_name].  Then [format] raises [KeyError] for the slot and the loop
    leaves the set as it is; in every other case the pattern is
    formatted. *)
Theorem only_family_patterns_are_skipped (data : Data)
    (date_info : gmap string string) (special : string) (pattern : string) :
  pattern ∈ human_patterns →
  ((∃ e, format pattern (vars_dict data date_info special) = Raise e)
   ↔ (pattern = "{first}{spouse_initial}{year}" ∧ spouse_name data = None)
     ∨ (pattern = "{child_name}{year}" ∧ child_name data = None)
     ∨ (pattern = "{pet_name}{year}" ∧ pet_name data = None))
  ∧ ((∃ password, format pattern (vars_dict data date_info special) = Ok password)
     ↔ ¬ ((pattern = "{first}{spouse_initial}{year}" ∧ spouse_name data = None)
          ∨ (pattern = "{child_name}{year}" ∧ child_name data = None)
          ∨ (pattern = "{pet_name}{year}" ∧ pet_name data = None)))
  ∧ (spouse_name data = None →
     format "{first}{spouse_initial}{year}" (vars_dict data date_info special)
     = Raise (KeyError "spouse_initial"))
  ∧ (child_name data = None →
     format "{child_name}{year}" (vars_dict data date_info special)
     = Raise (KeyError "child_name"))
  ∧ (pet_name data = None →
     format "{pet_name}{year}" (vars_dict data date_info special)
     = Raise (KeyError "pet_name"))
  ∧ ((∃ e, format pattern (vars_dict data date_info special) = Raise e) →
     ∀ passwords,
       apply_pattern data (vars_dict data date_info special) passwords pattern
       = Ok passwords).
Proof.
  intros Hin.
  pose proof (family_patterns (first_of data) (Py.first_or_empty (first_of data))
                (last_of data) (Py.first_or_empty (last_of data)) (nick_of data)
                (get_str date_info "year") (get_str date_info "year_short")
                (get_str date_info "day") (get_str date_info "month") special
                ((λ spouse, Py.first_or_empty (Py.lower spouse)) <$> spouse_name data)
                (Py.lower <$> child_name data) (Py.lower <$> pet_name data)
                pattern Hin) as Hcases.
  pose proof (family_patterns_missing (first_of data)
                (Py.first_or_empty (first_of data))
                (last_of data) (Py.first_or_empty (last_of data)) (nick_of data)
                (get_str date_info "year") (get_str date_info "year_short")
                (get_str date_info "day") (get_str date_info "month") special
                ((λ spouse, Py.first_or_empty (Py.lower spouse)) <$> spouse_name data)
                (Py.lower <$> child_name data) (Py.lower <$> pet_name data))
    as (Hspouse & Hchild & Hpet).
  cbv zeta in Hcases, Hspouse, Hchild, Hpet.
  fold (vars_dict data date_info special) in Hcases, Hspouse, Hchild, Hpet.
  rewrite fmap_None in Hcases, Hspouse. rewrite !fmap_None in Hcases.
  rewrite fmap_None in Hchild, Hpet.
  assert ((∃ e, format pattern (vars_dict data date_info special) = Raise e)
          ↔ (pattern = "{first}{spouse_initial}{year}" ∧ spouse_name data = None)
            ∨ (pattern = "{child_name}{year}" ∧ child_name data = None)
            ∨ (pattern = "{pet_name}{year}" ∧ pet_name data = None)) as Hiff.
  { split.
    - intros [e He].
      destruct Hcases as [[password Hok]|[(? & ? & _)|[(? & ? & _)|(? & ? & _)]]];
        [congruence|tauto..].
    - intros [[-> Hnone]|[[-> Hnone]|[-> Hnone]]]; eexists; eauto. }
  split_and!; try done.
  - rewrite <- Hiff. split.
    + intros [password Hok] [e He]. congruence.
    + intros Hnot.
      destruct (format pattern (vars_dict data date_info special)) as [password|e];
        [by eexists|]. destruct Hnot. by eexists.
  - intros Hraise passwords. apply Hiff in Hraise.
    unfold apply_pattern.
    destruct Hraise as [[-> Hnone]|[[-> Hnone]|[-> Hnone]]];
      [rewrite (Hspouse Hnone)|rewrite (Hchild Hnone)|rewrite (Hpet Hnone)]; done.
Qed.

(** X9 on john doe, who names no pet: the pet pattern raises [KeyError]
    and the loop leaves the set as it is. *)
Lemma only_family_patterns_are_skipped_example :
  "{pet_name}{year}" ∈ human_patterns
  ∧ format "{pet_name}{year}"
      (vars_dict john_doe (parse_human_date "15061990") EmptyString)
    = Raise (KeyError "pet_name")
  ∧ (∀ passwords,
       apply_pattern john_doe
         (vars_dict john_doe (parse_human_date "15061990") EmptyString)
         passwords "{pet_name}{year}" = Ok passwords).
Proof.
  assert ("{pet_name}{year}" ∈ human_patterns) as Hin.
  { apply (bool_decide_unpack _). by vm_compute. }
  split; [exact Hin|].
  destruct (only_family_patterns_are_skipped john_doe (parse_human_date "15061990")
              EmptyString "{pet_name}{year}" Hin)
    as (_ & _ & _ & _ & Hpet & Hskip).
  split; [by apply Hpet|]. apply Hskip. eexists. by apply Hpet.
Defined.

(** ** Where the letters of a candidate come from *)

Lemma is_alpha_to_lower (c : ascii) : Py.is_alpha (Py.to_lower c) = Py.is_alpha c.
Proof. destruct c as [[] [] [] [] [] [] [] []]; reflexivity. Qed.

Lemma is_alpha_to_upper (c : ascii) : Py.is_alpha (Py.to_upper c) = Py.is_alpha c.
Proof. destruct c as [[] [] [] [] [] [] [] []]; reflexivity. Qed.

Lemma to_lower_idemp (c : ascii) : Py.to_lower (Py.to_lower c) = Py.to_lower c.
Proof. destruct c as [[] [] [] [] [] [] [] []]; reflexivity. Qed.

Lemma to_lower_to_upper (c : ascii) : Py.to_lower (Py.to_upper c) = Py.to_lower c.
Proof. destruct c as [[] [] [] [] [] [] [] []]; reflexivity. Qed.

Lemma is_digit_not_alpha (c : ascii) : Py.is_digit c = true → Py.is_alpha c = false.
Proof. destruct c as [[] [] [] [] [] [] [] []]; done. Qed.

Lemma literal_text_open (c : ascii) (p : string) :
  c ≠ "{"%char →
  literal_text false (String "{" (String c p)) = literal_text true (String c p).
Proof. intros Hc. destruct c as [[] [] [] [] [] [] [] []]; done. Qed.

Section Letters.
Variable sources : list ascii.

Lemma Known_empty : Known sources EmptyString.
Proof. constructor. Qed.

Lemma Known_cons (c : ascii) (s : string) :
  Known sources (String c s) ↔ known sources c ∧ Known sources s.
Proof. unfold Known, chars. simpl. apply Forall_cons. Qed.

Lemma Known_app (a b : string) :
  Known sources (a +:+ b) ↔ Known sources a ∧ Known sources b.
Proof. unfold Known. rewrite chars_app. apply Forall_app. Qed.

Lemma Known_app_2 (a b : string) :
  Known sources a → Known sources b → Known sources (a +:+ b).
Proof. intros. by apply Known_app. Qed.

Lemma known_plain (c : ascii) : Py.is_alpha c = false → known sources c.
Proof. intros H Ha. congruence. Qed.

Lemma Known_plain (s : string) : letterless s = true → Known sources s.
Proof.
  unfold letterless. induction s as [|c s IH]; [constructor|]. simpl.
  rewrite negb_orb, andb_true_iff. intros [Hc Hs]. apply Known_cons.
  split; [apply known_plain; by destruct (Py.is_alpha c)|by apply IH].
Qed.

Lemma Known_entered (s : string) :
  (∀ c, c ∈ chars s → c ∈ sources) → Known sources s.
Proof. intros H. apply Forall_forall. intros c Hc _. exists c. split; [by apply H|done]. Qed.

Lemma known_to_lower (c : ascii) : known sources c → known sources (Py.to_lower c).
Proof.
  intros H Ha. rewrite is_alpha_to_lower in Ha. destruct (H Ha) as (d & Hd & Heq).
  exists d. split; [done|]. by rewrite to_lower_idemp.
Qed.

Lemma known_to_upper (c : ascii) : known sources c → known sources (Py.to_upper c).
Proof.
  intros H Ha. rewrite is_alpha_to_upper in Ha. destruct (H Ha) as (d & Hd & Heq).
  exists d. split; [done|]. by rewrite to_lower_to_upper.
Qed.

Lemma Known_lower (s : string) : Known sources s → Known sources (Py.lower s).
Proof.
  induction s as [|c s IH]; [done|]. intros [Hc Hs]%Known_cons.
  apply Known_cons. split; [by apply known_to_lower|by apply IH].
Qed.

Lemma Known_title_go (b : bool) (s : string) :
  Known sources s → Known sources (Py.title_go b s).
Proof.
  revert b. induction s as [|c s IH]; intros b; [done|]. intros [Hc Hs]%Known_cons.
  apply Known_cons. split; [|by apply IH].
  destruct b; [by apply known_to_lower|by apply known_to_upper].
Qed.

Lemma Known_title (s : string) : Known sources s → Known sources (Py.title s).
Proof. apply Known_title_go. Qed.

Lemma Known_capitalize (s : string) : Known sources s → Known sources (Py.capitalize s).
Proof.
  destruct s as [|c s]; [done|]. intros [Hc Hs]%Known_cons.
  apply Known_cons. split; [by apply known_to_upper|by apply Known_lower].
Qed.

Lemma Known_first_or_empty (s : string) :
  Known sources s → Known sources (Py.first_or_empty s).
Proof.
  destruct s as [|c s]; [done|]. intros [Hc _]%Known_cons.
  apply Known_cons. split; [done|apply Known_empty].
Qed.

Lemma Known_substring (s : string) :
  ∀ n m, Known sources s → Known sources (String.substring n m s).
Proof.
  induction s as [|c s IH]; intros n m Hs.
  - destruct n, m; apply Known_empty.
  - apply Known_cons in Hs as [Hc Hs]. destruct n as [|n]; simpl.
    + destruct m as [|m]; [apply Known_empty|]. apply Known_cons. split; [done|by apply IH].
    + by apply IH.
Qed.

Lemma Known_take (n : nat) (s : string) : Known sources s → Known sources (Py.take n s).
Proof. apply Known_substring. Qed.

Lemma Known_slice (a b : nat) (s : string) :
  Known sources s → Known sources (Py.slice a b s).
Proof. apply Known_substring. Qed.

Lemma Known_drop (n : nat) (s : string) : Known sources s → Known sources (Py.drop n s).
Proof.
  revert n. induction s as [|c s IH]; intros [|n] Hs; simpl; try done.
  apply Known_cons in Hs as [_ Hs]. by apply IH.
Qed.

Lemma Known_replace (c : ascii) (r s : string) :
  Known sources r → Known sources s → Known sources (Py.replace c r s).
Proof.
  intros Hr. induction s as [|x s IH]; [done|]. intros [Hx Hs]%Known_cons. simpl.
  destruct (Ascii.eqb x c).
  - apply Known_app_2; [done|by apply IH].
  - apply Known_cons. split; [done|by apply IH].
Qed.

Lemma Known_re_split (sep : ascii → bool) (s : string) :
  Known sources s → Forall (Known sources) (Py.re_split sep s).
Proof.
  induction s as [|c s IH]; [intros _; repeat constructor|].
  intros [Hc Hs]%Known_cons. specialize (IH Hs). simpl. destruct (sep c).
  - constructor; [apply Known_empty|done].
  - destruct (Py.re_split sep s) as [|p ps].
    + constructor; [|done]. apply Known_cons. split; [done|apply Known_empty].
    + apply Forall_cons in IH as [Hp Hps]. constructor; [|done].
      apply Known_cons. by split.
Qed.

Lemma Known_filter_digits (s : string) : Known sources (Py.re_sub_non_digits s).
Proof.
  unfold Py.re_sub_non_digits. induction s as [|c s IH]; [constructor|]. simpl.
  destruct (Py.is_digit c) eqn:E; [|done].
  apply Known_cons. split; [by apply known_plain, is_digit_not_alpha|done].
Qed.

(** Formatting a pattern whose literal text is known with known values
    gives a known string: the names of the fields are not copied. *)
Lemma format_go_Known (kw : gmap string string) (n : nat) :
  map_Forall (λ _ v, Known sources v) kw →
  ∀ (p : string) (field : option string) (s : string),
    Py.len p ≤ n →
    Known sources (literal_text (if field is Some _ then true else false) p) →
    format_go field kw p = Ok s → Known sources s.
Proof.
  intros Hkw. induction n as [|n IH]; intros p field s Hlen Hp Hfmt.
  - destruct p; [|unfold Py.len in Hlen; simpl in Hlen; lia].
    destruct field; simpl in Hfmt; simplify_eq. apply Known_empty.
  - destruct p as [|c p]; [destruct field; simpl in Hfmt; simplify_eq; apply Known_empty|].
    assert (Py.len p ≤ n) as Hn by (unfold Py.len in *; simpl in Hlen; lia).
    destruct field as [name|].
    + simpl in Hfmt, Hp. destruct (Ascii.eqb c "}").
      * unfold lookup_field in Hfmt. destruct (all_digits name); [done|].
        destruct (kw !! name) as [v|] eqn:Hv; [|done]. cbn [mbind result_bind] in Hfmt.
        destruct (format_go None kw p) as [r|] eqn:Hr; [|done].
        cbn [mbind result_bind] in Hfmt. simplify_eq.
        apply Known_app_2; [by eapply (Hkw name)|by eapply (IH p None)].
      * destruct (Ascii.eqb c "{"); [done|]. destruct (field_syntax c); [done|].
        by eapply (IH p (Some _)).
    + destruct (Ascii.eqb_spec c "{") as [->|Hopen].
      * destruct p as [|c' p']; [done|].
        destruct (Ascii.eqb_spec c' "{") as [->|Hc'].
        -- simpl in Hfmt, Hp. destruct (format_go None kw p') as [r|] eqn:Hr; [|done].
           cbn [mbind result_bind] in Hfmt. simplify_eq.
           apply Known_cons in Hp as [Hb Hp]. apply Known_cons. split; [done|].
           eapply (IH p' None); [|done|done].
           unfold Py.len in *. simpl in *. lia.
        -- rewrite format_go_open in Hfmt by done.
           rewrite literal_text_open in Hp by done.
           by eapply (IH (String c' p') (Some EmptyString)).
      * destruct (Ascii.eqb_spec c "}") as [->|Hclose].
        -- destruct p as [|c' p']; [done|].
           destruct (Ascii.eqb_spec c' "}") as [->|Hc'].
           ++ simpl in Hfmt, Hp. destruct (format_go None kw p') as [r|] eqn:Hr; [|done].
              cbn [mbind result_bind] in Hfmt. simplify_eq.
              apply Known_cons in Hp as [Hb Hp]. apply Known_cons. split; [done|].
              eapply (IH p' None); [|done|done].
              unfold Py.len in *. simpl in *. lia.
           ++ by rewrite format_go_close in Hfmt.
        -- simpl in Hfmt, Hp.
           rewrite (proj2 (Ascii.eqb_neq c "{") Hopen) in Hfmt, Hp.
           rewrite (proj2 (Ascii.eqb_neq c "}") Hclose) in Hfmt, Hp.
           destruct (format_go None kw p) as [r|] eqn:Hr; [|done].
           cbn [mbind result_bind] in Hfmt. simplify_eq.
           apply Known_cons in Hp as [Hc Hp].
           apply Known_cons. split; [done|by eapply (IH p None)].
Qed.

Lemma format_Known (kw : gmap string string) (pattern s : string) :
  map_Forall (λ _ v, Known sources v) kw →
  letterless (literal_text false pattern) = true →
  format pattern kw = Ok s → Known sources s.
Proof.
  intros Hkw Hp Hfmt.
  eapply (format_go_Known kw (Py.len pattern) Hkw pattern None);
    [done|by apply Known_plain|exact Hfmt].
Qed.

Lemma parse_human_date_Known (date_str : string) :
  map_Forall (λ _ v, Known sources v) (parse_human_date date_str).
Proof.
  unfold parse_human_date. case_decide; [apply map_Forall_empty|].
  repeat case_match;
    repeat (apply map_Forall_insert_2;
            [first [apply Known_slice, Known_filter_digits
                   |apply Known_filter_digits
                   |apply Known_app_2;
                    [by apply Known_plain|apply Known_slice, Known_filter_digits]]|]);
    apply map_Forall_empty.
Qed.

Lemma get_str_Known (d : gmap string string) (key : string) :
  map_Forall (λ _ v, Known sources v) d → Known sources (get_str d key).
Proof.
  intros Hd. unfold get_str. destruct (d !! key) as [v|] eqn:Hv; simpl.
  - by eapply (Hd key).
  - apply Known_empty.
Qed.

End Letters.

Create HintDb letters.

#[export] Hint Resolve Known_empty Known_app_2 Known_title Known_capitalize Known_lower
  Known_first_or_empty Known_take Known_drop Known_slice Known_filter_digits
  get_str_Known parse_human_date_Known : letters.
#[export] Hint Extern 1 (Known _ _) => (apply Known_plain; reflexivity) : letters.

Lemma common_numbers_letterless : Forall (λ num, letterless num = true) common_numbers.
Proof. repeat constructor. Qed.

Lemma common_specials_letterless :
  Forall (λ special, letterless special = true) common_specials.
Proof. repeat constructor. Qed.

Lemma leet_map_letterless :
  Forall (λ entry : ascii * list string, Forall (λ sub, letterless sub = true) entry.2)
    leet_map.
Proof. repeat constructor. Qed.

Lemma human_patterns_letterless :
  Forall (λ pattern, letterless (literal_text false pattern) = true) human_patterns.
Proof. repeat constructor. Qed.

Section ProfileLetters.
Context {R : Runtime}.
Variable data : Data.

Let sources : list ascii := field_chars data ++ special_chars data.
Let KnownSet (X : gset string) : Prop := ∀ pwd, pwd ∈ X → Known sources pwd.

Lemma Known_field (s : string) :
  (∀ c, c ∈ chars s → c ∈ field_chars data) → Known sources (Py.lower s).
Proof.
  intros H. apply Known_lower, Known_entered. intros c Hc.
  apply elem_of_app. left. by apply H.
Qed.

Lemma Known_first_of : Known sources (first_of data).
Proof.
  apply Known_field. intros c Hc. unfold field_chars. rewrite !elem_of_app. tauto.
Qed.

Lemma Known_last_of : Known sources (last_of data).
Proof.
  apply Known_field. intros c Hc. unfold field_chars. rewrite !elem_of_app. tauto.
Qed.

Lemma Known_nick_of : Known sources (nick_of data).
Proof.
  apply Known_field. intros c Hc. unfold field_chars. rewrite !elem_of_app. tauto.
Qed.

Lemma Known_spouse (spouse : string) :
  spouse_name data = Some spouse → Known sources (Py.lower spouse).
Proof.
  intros H. apply Known_field. intros c Hc. unfold field_chars.
  rewrite H, !elem_of_app. simpl. tauto.
Qed.

Lemma Known_child (child : string) :
  child_name data = Some child → Known sources (Py.lower child).
Proof.
  intros H. apply Known_field. intros c Hc. unfold field_chars.
  rewrite H, !elem_of_app. simpl. tauto.
Qed.

Lemma Known_pet (pet : string) :
  pet_name data = Some pet → Known sources (Py.lower pet).
Proof.
  intros H. apply Known_field. intros c Hc. unfold field_chars.
  rewrite H, !elem_of_app. simpl. tauto.
Qed.

Hint Resolve Known_first_of Known_last_of Known_nick_of : letters.

Lemma vars_dict_Known (date_str special : string) :
  Known sources special →
  map_Forall (λ _ v, Known sources v)
    (vars_dict data (parse_human_date date_str) special).
Proof.
  intros Hspecial. unfold vars_dict, with_optional.
  destruct (pet_name data) as [pet|] eqn:Hpet;
    destruct (child_name data) as [child|] eqn:Hchild;
    destruct (spouse_name data) as [spouse|] eqn:Hspouse; simpl;
    repeat (apply map_Forall_insert_2;
            [first [by apply Known_pet | by apply Known_child
                   | by apply Known_first_or_empty, Known_spouse
                   | eauto 6 with letters]|]);
    apply map_Forall_empty.
Qed.

Lemma first_numbers_Known (k : nat) (num : string) :
  num ∈ take k common_numbers → Known sources num.
Proof.
  intros H%subseteq_take. apply Known_plain.
  by apply (proj1 (Forall_forall _ _) common_numbers_letterless).
Qed.

Lemma numbered_Known (password c : string) :
  Known sources password → c ∈ numbered password → Known sources c.
Proof.
  intros Hp. unfold numbered. intros (num & Hc & Hnum)%list_elem_of_bind.
  apply first_numbers_Known in Hnum.
  apply elem_of_cons in Hc as [->|Hc]; [eauto with letters|].
  destruct (_ || _); [|by apply not_elem_of_nil in Hc].
  pose proof (Known_re_split sources sep_dot_underscore password Hp) as Hsplit.
  destruct (Py.re_split sep_dot_underscore password) as [|p0 [|p1 rest]];
    try (by apply not_elem_of_nil in Hc).
  apply list_elem_of_singleton in Hc as ->.
  apply Forall_cons in Hsplit as [H0 [H1 _]%Forall_cons]. eauto with letters.
Qed.

Lemma pattern_candidates_Known (password c : string) :
  Known sources password → c ∈ pattern_candidates data password → Known sources c.
Proof.
  intros Hp. unfold pattern_candidates.
  destruct (_ && _); [|by intros ?%not_elem_of_nil].
  rewrite elem_of_app, !elem_of_cons.
  intros [[->|[->|[->|Hc]]]|Hc]; eauto with letters; [by apply not_elem_of_nil in Hc|].
  destruct (flag true (add_numbers data)); [|by apply not_elem_of_nil in Hc].
  by eapply numbered_Known.
Qed.

Lemma specific_examples_Known (date_str : string) :
  Forall (Known sources)
    (specific_examples (first_of data) (last_of data) (parse_human_date date_str)).
Proof.
  unfold specific_examples. repeat (apply Forall_cons_2; [eauto 10 with letters|]).
  apply Forall_nil_2.
Qed.

Lemma date_combinations_Known (date_str : string) :
  Forall (Known sources) (date_combinations (parse_human_date date_str)).
Proof.
  unfold date_combinations.
  repeat (apply Forall_app_2);
    match goal with |- Forall _ (if ?b then _ else _) => destruct b end;
    repeat (apply Forall_cons_2; [eauto 10 with letters|]); apply Forall_nil_2.
Qed.

Lemma dated_Known (date_combos : list string) (pwd c : string) :
  Forall (Known sources) date_combos → Known sources pwd →
  c ∈ dated date_combos pwd → Known sources c.
Proof.
  intros Hcombos Hpwd. unfold dated. intros (combo & Hc & Hcombo)%list_elem_of_bind.
  apply subseteq_take in Hcombo.
  pose proof (proj1 (Forall_forall _ _) Hcombos combo Hcombo) as Hknown.
  apply elem_of_app in Hc as [Hc|Hc].
  - apply elem_of_cons in Hc as [->|Hc]; [eauto with letters|].
    apply list_elem_of_singleton in Hc as ->. eauto with letters.
  - destruct (Py.existsb_chars Py.is_digit pwd); [|by apply not_elem_of_nil in Hc].
    destruct (Py.search_trailing_digits pwd); [|by apply not_elem_of_nil in Hc].
    apply list_elem_of_singleton in Hc as ->. eauto with letters.
Qed.

Lemma suffixed_Known (pwd c : string) :
  Known sources pwd → c ∈ suffixed pwd → Known sources c.
Proof.
  intros Hp. unfold suffixed. intros (num & Hc & Hnum)%list_elem_of_bind.
  apply first_numbers_Known in Hnum.
  apply elem_of_cons in Hc as [->|Hc]; [eauto with letters|].
  destruct (_ && _); [|by apply not_elem_of_nil in Hc].
  pose proof (Known_re_split sources sep_dot_underscore_dash pwd Hp) as Hsplit.
  destruct (Py.re_split sep_dot_underscore_dash pwd) as [|p0 [|p1 [|p2 rest]]];
    try (by apply not_elem_of_nil in Hc).
  apply list_elem_of_singleton in Hc as ->.
  apply Forall_cons in Hsplit as [H0 [H1 _]%Forall_cons]. eauto with letters.
Qed.

Lemma decorated_Known (specials : list string) (pwd c : string) :
  Forall (Known sources) specials → Known sources pwd →
  c ∈ decorated specials pwd → Known sources c.
Proof.
  intros Hspecials Hpwd. unfold decorated.
  intros [->|Hc]%elem_of_cons; [done|].
  apply list_elem_of_bind in Hc as (special & Hc & Hspecial).
  apply subseteq_take in Hspecial.
  pose proof (proj1 (Forall_forall _ _) Hspecials special Hspecial) as Hknown.
  rewrite !elem_of_app, !elem_of_cons in Hc.
  destruct Hc as [[->|[->|[->|Hc]]]|[Hc|Hc]]; eauto 6 with letters.
  - by apply not_elem_of_nil in Hc.
  - destruct (Py.contains " " pwd); [|by apply not_elem_of_nil in Hc].
    apply list_elem_of_singleton in Hc as ->. by apply Known_replace.
  - destruct (8 <? Py.len pwd); [|by apply not_elem_of_nil in Hc].
    apply list_elem_of_singleton in Hc as ->. eauto 6 with letters.
Qed.

Lemma specials_Known :
  flag false (use_specials data) = true →
  Forall (Known sources) (default common_specials (specials data)).
Proof.
  intros Hon. apply Forall_forall. intros special Hspecial.
  apply Known_entered. intros c Hc. apply elem_of_app. right.
  unfold special_chars. rewrite Hon. apply list_elem_of_bind. by exists special.
Qed.

Lemma random_choice_in (seq : list string) (g g' : rng) (x : string) :
  random_choice seq g = Ok (x, g') → x ∈ seq.
Proof.
  unfold random_choice. destruct seq as [|y seq']; [done|].
  destruct (random_below (length (y :: seq')) g) as [i g1].
  destruct ((y :: seq') !! i) as [z|] eqn:Hz; [|done].
  intros [= <- <-]. by eapply list_elem_of_lookup_2.
Qed.

Lemma draw_special_Known (g g' : rng) (special : string) :
  draw_special data g = Ok (special, g') → Known sources special.
Proof.
  unfold draw_special. destruct (flag false (use_specials data)).
  - intros Hin%random_choice_in. apply Known_plain.
    by apply (proj1 (Forall_forall _ _) common_specials_letterless).
  - intros [= <- <-]. apply Known_empty.
Qed.

Lemma leet_entry_Known (leet_pwd : string) (entry : ascii * list string)
    (g g' : rng) (s : string) :
  Forall (λ sub, letterless sub = true) entry.2 →
  Known sources leet_pwd →
  leet_entry leet_pwd entry g = Ok (s, g') →
  Known sources s.
Proof.
  destruct entry as [char subs]. simpl. intros Hsubs Hp.
  destruct (Py.contains char (Py.lower leet_pwd)); [|by intros [= <- <-]].
  destruct (random_random g) as [x g1].
  destruct (Qltb x (1 # 2)); [|by intros [= <- <-]].
  destruct (random_choice subs g1) as [[sub1 g2]|] eqn:H1; [|done]. simpl.
  destruct (random_choice subs g2) as [[sub2 g3]|] eqn:H2; [|done]. simpl.
  intros [= <- <-].
  apply random_choice_in in H1, H2.
  apply Known_replace; [|apply Known_replace; [|done]];
    apply Known_plain; by apply (proj1 (Forall_forall _ _) Hsubs).
Qed.

Lemma leet_entries_Known (entries : list (ascii * list string)) :
  Forall (λ entry : ascii * list string,
            Forall (λ sub, letterless sub = true) entry.2) entries →
  ∀ leet_pwd g s g',
    Known sources leet_pwd → leet_entries entries leet_pwd g = Ok (s, g') →
    Known sources s.
Proof.
  induction 1 as [|entry rest Hentry _ IH]; intros leet_pwd g s g' Hp; simpl.
  - by intros [= <- <-].
  - destruct (leet_entry leet_pwd entry g) as [[s1 g1]|] eqn:H1; [|done]. simpl.
    apply IH. by eapply leet_entry_Known.
Qed.

Lemma leeted_Known (pwd : string) (g g' : rng) (added : list string) :
  Known sources pwd → leeted pwd g = Ok (added, g') → Forall (Known sources) added.
Proof.
  intros Hp. unfold leeted. destruct (random_random g) as [x g1].
  destruct (Qltb x float_0_3); [|intros [= <- <-]; by repeat constructor].
  destruct (leet_entries leet_map pwd g1) as [[leet_pwd g2]|] eqn:H1; [|done]. simpl.
  intros [= <- <-]. apply (leet_entries_Known _ leet_map_letterless) in H1; [|done].
  case_decide; by repeat constructor.
Qed.

Lemma leet_loop_Known (pwds : list string) :
  ∀ new_passwords g new_passwords' g',
    Forall (Known sources) pwds → KnownSet new_passwords →
    leet_loop pwds new_passwords g = Ok (new_passwords', g') →
    KnownSet new_passwords'.
Proof.
  induction pwds as [|pwd rest IH]; intros X g X' g' Hpwds HX; simpl.
  - by intros [= <- <-].
  - apply Forall_cons in Hpwds as [Hpwd Hrest].
    destruct (leeted pwd g) as [[added g1]|] eqn:H1; [|done]. simpl.
    apply IH; [done|]. apply leeted_Known in H1; [|done].
    intros x [Hx|Hx]%elem_of_union; [by apply HX|].
    apply elem_of_list_to_set in Hx. by apply (proj1 (Forall_forall _ _) H1).
Qed.

Lemma prefix_Known (k : nat) (X : gset string) :
  KnownSet X → Forall (Known sources) (take k (set_iter X)).
Proof.
  intros HX. apply Forall_forall. intros x Hx%subseteq_take.
  by apply HX, elem_of_set_iter.
Qed.

Lemma leet_stage_Known (X : gset string) (g g' : rng) (X' : gset string) :
  KnownSet X → leet_stage data X g = Ok (X', g') → KnownSet X'.
Proof.
  intros HX. unfold leet_stage.
  destruct (flag false (use_leet data)); [|by intros [= <- <-]].
  unfold add_leet_variations.
  destruct (leet_loop (take 100 (set_iter X)) ∅ g) as [[new g1]|] eqn:H1; [|done]. simpl.
  intros [= <- <-]. apply leet_loop_Known in H1; [|by apply prefix_Known|].
  - intros x [Hx|Hx]%elem_of_union; [by apply HX|by apply H1].
  - intros x Hx. by apply not_elem_of_empty in Hx.
Qed.

Lemma number_stage_Known (date_str : string) (X : gset string) :
  KnownSet X → KnownSet (number_stage data (parse_human_date date_str) X).
Proof.
  intros HX. unfold number_stage. destruct (flag true (add_numbers data)); [|done].
  intros x [Hx|Hx]%elem_of_union; [by apply HX|].
  unfold add_number_variations in Hx.
  apply elem_of_list_to_set, elem_of_app in Hx as [Hx|Hx];
    apply list_elem_of_bind in Hx as (pwd & Hx & Hpwd);
    apply subseteq_take, elem_of_set_iter, HX in Hpwd.
  - eapply dated_Known; [apply date_combinations_Known|exact Hpwd|exact Hx].
  - by eapply suffixed_Known.
Qed.

Lemma special_stage_Known (X : gset string) :
  KnownSet X → KnownSet (special_stage data X).
Proof.
  intros HX. unfold special_stage.
  destruct (flag false (use_specials data)) eqn:Hon; [|done].
  intros x [Hx|Hx]%elem_of_union; [by apply HX|].
  unfold add_special_variations in Hx.
  apply elem_of_list_to_set, list_elem_of_bind in Hx as (pwd & Hx & Hpwd).
  apply subseteq_take, elem_of_set_iter, HX in Hpwd.
  eapply decorated_Known; [by apply specials_Known|exact Hpwd|exact Hx].
Qed.

Lemma generate_specific_examples_Known (date_str : string) (X : gset string) :
  KnownSet X →
  KnownSet (generate_specific_examples X (first_of data) (last_of data)
              (parse_human_date date_str)).
Proof.
  intros HX. unfold generate_specific_examples. destruct (_ || _); [done|].
  intros x [Hx|Hx]%elem_of_union; [by apply HX|].
  apply elem_of_list_to_set in Hx.
  by apply (proj1 (Forall_forall _ _) (specific_examples_Known date_str)).
Qed.

Lemma generate_common_passwords_Known (date_str : string) :
  KnownSet (generate_common_passwords (first_of data) (last_of data)
              (parse_human_date date_str)).
Proof.
  unfold generate_common_passwords. destruct (_ || _).
  { intros x Hx. by apply not_elem_of_empty in Hx. }
  intros x Hx%elem_of_list_to_set. revert x Hx. apply Forall_forall.
  pose proof Known_first_of. pose proof Known_last_of.
  repeat (apply Forall_app_2);
    try match goal with |- Forall _ (if ?b then _ else _) => destruct b end;
    repeat (apply Forall_cons_2; [eauto 10 with letters|]); apply Forall_nil_2.
Qed.

Lemma first_generation_Known (g g' : rng) (X : gset string) :
  first_generation data g = Ok (X, g') → KnownSet X.
Proof.
  unfold first_generation.
  destruct (draw_special data g) as [[special g1]|] eqn:Hdraw; [|done].
  apply draw_special_Known in Hdraw.
  cbn [mbind result_bind].
  destruct (apply_patterns data _ human_patterns ∅) as [Y|] eqn:Hrun; [|done].
  cbn [mbind result_bind]. intros [= <- <-].
  eapply (apply_patterns_invariant KnownSet); [| |exact Hrun].
  - intros Z pattern password Hin HZ Hfmt x [Hx|Hx]%elem_of_union; [by apply HZ|].
    apply elem_of_list_to_set in Hx. eapply pattern_candidates_Known; [|exact Hx].
    eapply format_Known; [by apply vars_dict_Known| |exact Hfmt].
    by apply (proj1 (Forall_forall _ _) human_patterns_letterless).
  - intros x Hx. by apply not_elem_of_empty in Hx.
Qed.

Lemma generate_smart_combinations_Known (g g' : rng) (X : gset string) :
  generate_smart_combinations data g = Ok (X, g') → KnownSet X.
Proof.
  unfold generate_smart_combinations.
  destruct (first_generation data g) as [[Y g1]|] eqn:Hfirst; [|done].
  cbn [mbind result_bind].
  apply first_generation_Known in Hfirst.
  destruct (leet_stage data _ g1) as [[Z g2]|] eqn:Hleet; [|done].
  cbn [mbind result_bind]. intros [= <- <-].
  apply leet_stage_Known in Hleet;
    [|by apply special_stage_Known, number_stage_Known,
         generate_specific_examples_Known].
  intros x [Hx|Hx]%elem_of_union; [by apply Hleet|].
  by eapply generate_common_passwords_Known.
Qed.

(** X10.  For a profile of ASCII text the engine invents no letter:
    every letter of a candidate it writes is, up to case, a character of
    one of the profile's text fields (first name, last name, nickname,
    spouse, child, pet) or, when [use_specials] is on, of one of the
    special strings of the stage.  The names of the pattern slots, the
    birth date and the tables of common numbers and leet substitutes
    contribute none. *)
Theorem letters_come_from_the_profile (min_len max_len max : Z) (g : rng) :
  (∀ c, c ∈ field_chars data ++ special_chars data → is_ascii c = true) →
  ∃ output,
    engine data min_len max_len max g = Ok output
    ∧ ∀ pwd c,
        pwd ∈ output → c ∈ chars pwd → Py.is_alpha c = true →
        letter_of (field_chars data ++ special_chars data) c.
Proof.
  intros _.
  destruct (generate_smart_combinations_returns data g) as (X & g' & Hgen).
  eexists. split; [by eapply engine_unfold|].
  intros pwd c Hpwd Hc Hletter.
  unfold sorted_passwords in Hpwd. rewrite merge_sort_Permutation in Hpwd.
  apply elem_of_set_iter, limit_subset, analyze_and_filter_subset in Hpwd.
  apply (generate_smart_combinations_Known _ _ _ Hgen) in Hpwd.
  by apply (proj1 (Forall_forall _ _) Hpwd c Hc).
Qed.

(** X11.  A profile of ASCII text none of whose text fields (and, with
    [use_specials] on, none of whose special strings) contains a letter
    gives no output: whatever the birth date, the options, the bounds and
    the draws, every generated candidate fails the filter's test for a
    letter, and the engine returns the empty sequence. *)
Theorem letterless_profile_gives_no_output (min_len max_len max : Z) (g : rng) :
  (∀ c, c ∈ field_chars data ++ special_chars data →
        is_ascii c = true ∧ Py.is_alpha c = false) →
  engine data min_len max_len max g = Ok [].
Proof.
  intros Hnone.
  destruct (generate_smart_combinations_returns data g) as (X & g' & Hgen).
  rewrite (engine_unfold _ _ _ _ _ _ _ Hgen).
  assert (analyze_and_filter X min_len max_len = ∅) as ->.
  { apply elem_of_equiv_empty_L. intros pwd Hpwd.
    unfold analyze_and_filter in Hpwd. apply elem_of_filter in Hpwd as [Hkeep Hin].
    apply Is_true_true in Hkeep. unfold keeps in Hkeep.
    apply andb_true_iff in Hkeep as [_ Hletter].
    apply existsb_chars_spec in Hletter as (c & Hc & Hletter).
    pose proof (generate_smart_combinations_Known _ _ _ Hgen pwd Hin) as Hknown.
    destruct (proj1 (Forall_forall _ _) Hknown c Hc Hletter) as (d & Hd & Heq).
    apply Hnone in Hd as [_ Hd].
    rewrite <- is_alpha_to_lower, Heq, is_alpha_to_lower in Hd. congruence. }
  by rewrite limit_empty, sorted_passwords_empty.
Qed.

End ProfileLetters.

(** X10 on john doe with the leet stage on: the letters of the candidates
    are those of john and doe. *)
Lemma letters_come_from_the_profile_example :
  let data := {| first_name := Some "john"; last_name := Some "doe";
                 nickname := None; birth_date := Some "15/06/1990";
                 spouse_name := None; child_name := None; pet_name := None;
                 use_specials := Some false; use_leet := Some true;
                 add_numbers := Some true; specials := Some common_specials |} in
  ∃ output,
    engine (R := forward_runtime) data 6 20 5000 tt = Ok output
    ∧ ∀ pwd c,
        pwd ∈ output → c ∈ chars pwd → Py.is_alpha c = true →
        letter_of (String.list_ascii_of_string "johndoe") c.
Proof.
  intros data.
  apply (letters_come_from_the_profile (R := forward_runtime) data 6 20 5000 tt).
  intros c Hc. vm_compute in Hc.
  repeat (apply elem_of_cons in Hc as [->|Hc]; [done|]).
  by apply elem_of_nil in Hc.
Defined.

(** X11 on a profile whose names are digits, with a birth date and every
    stage on: the fixed examples and the patterns are formatted, and no
    candidate passes the filter. *)
Lemma letterless_profile_gives_no_output_example :
  let data := {| first_name := Some "007"; last_name := Some "42";
                 nickname := None; birth_date := Some "15/06/1990";
                 spouse_name := None; child_name := None; pet_name := None;
                 use_specials := Some true; use_leet := Some true;
                 add_numbers := Some true; specials := Some common_specials |} in
  engine (R := forward_runtime) data 6 20 5000 tt = Ok [].
Proof.
  intros data.
  apply (letterless_profile_gives_no_output (R := forward_runtime) data 6 20 5000 tt).
  intros c Hc. vm_compute in Hc.
  repeat (apply elem_of_cons in Hc as [->|Hc]; [done|]).
  by apply elem_of_nil in Hc.
Defined.

(** ** The advanced filter of the window *)

Lemma filter_loop_without_strength (options : Gui.Options) (pwds : list string) :
  (default 0 (Gui.min_strength options) ≤ 0)%Z →
  ∀ filtered,
    Gui.filter_loop options pwds filtered
    = Gui.Returned
        (filtered ∪ list_to_set (filter (λ pwd, negb (Gui.skipped options pwd)) pwds)).
Proof.
  intros Hoff. apply Z.ltb_ge in Hoff.
  induction pwds as [|pwd rest IH]; intros filtered; cbn [Gui.filter_loop].
  - f_equal. rewrite filter_nil. cbn [list_to_set]. by rewrite union_empty_r_L.
  - rewrite Hoff. destruct (Gui.skipped options pwd) eqn:Hskip.
    + rewrite IH. f_equal. rewrite filter_cons_False; [done|].
      rewrite Hskip. simpl. tauto.
    + rewrite IH. f_equal. rewrite filter_cons_True by (by rewrite Hskip).
      cbn [list_to_set]. by rewrite union_assoc_L.
Qed.

Lemma filter_loop_with_strength (options : Gui.Options) (pwds : list string) :
  (0 < default 0 (Gui.min_strength options))%Z →
  ∀ filtered,
    (Forall (λ pwd, Gui.skipped options pwd = true) pwds →
     Gui.filter_loop options pwds filtered = Gui.Returned filtered)
    ∧ (Exists (λ pwd, Gui.skipped options pwd = false) pwds →
       Gui.filter_loop options pwds filtered
       = Gui.AttributeError "calculate_complexity").
Proof.
  intros Hon. apply Z.ltb_lt in Hon.
  induction pwds as [|pwd rest IH]; intros filtered; simpl.
  - split; [done|]. by intros ?%Exists_nil.
  - rewrite Hon. destruct (Gui.skipped options pwd) eqn:Hskip.
    + split.
      * intros [_ Hrest]%Forall_cons. by apply IH.
      * intros [?|Hrest]%Exists_cons; [congruence|]. by apply IH.
    + split; [|done]. intros [? _]%Forall_cons. congruence.
Qed.

Section AdvancedFilter.
Context {R : Runtime}.

(** X12.  The advanced filter of [Gui/v2.py].  With a minimum strength
    that is not positive it returns exactly the candidates that none of
    its other checks skips, whatever the order of the loop.  With a
    positive minimum strength it never returns a candidate: it raises
    [AttributeError] as soon as one candidate passes the other checks (the
    generator has no method [calculate_complexity]), and returns the empty
    set when none does. *)
Theorem advanced_filter_outcome (passwords : gset string) (options : Gui.Options) :
  ((default 0 (Gui.min_strength options) ≤ 0)%Z →
   Gui.apply_advanced_filters passwords options
   = Gui.Returned (filter (λ pwd, negb (Gui.skipped options pwd)) passwords))
  ∧ ((0 < default 0 (Gui.min_strength options))%Z →
     (∀ pwd, pwd ∈ passwords → Gui.skipped options pwd = true) →
     Gui.apply_advanced_filters passwords options = Gui.Returned ∅)
  ∧ ((0 < default 0 (Gui.min_strength options))%Z →
     ∀ pwd, pwd ∈ passwords → Gui.skipped options pwd = false →
     Gui.apply_advanced_filters passwords options
     = Gui.AttributeError "calculate_complexity").
Proof.
  unfold Gui.apply_advanced_filters. split_and!.
  - intros Hoff. rewrite filter_loop_without_strength by done. f_equal.
    apply set_eq. intros pwd.
    rewrite elem_of_union, elem_of_list_to_set, list_elem_of_filter, elem_of_filter,
      elem_of_set_iter.
    split; [intros [Hin|?]; [by apply not_elem_of_empty in Hin|done]|by right].
  - intros Hon Hall. apply (filter_loop_with_strength options _ Hon).
    apply Forall_forall. intros pwd Hpwd. by apply Hall, elem_of_set_iter.
  - intros Hon pwd Hpwd Hpass. apply (filter_loop_with_strength options _ Hon).
    apply Exists_exists. exists pwd. split; [by apply elem_of_set_iter|done].
Qed.

(** X13.  Called with no option, the advanced filter returns the set it
    is given; called with the values the window starts with, where
    [require_lowercase] is set, it returns exactly the candidates with a
    character that is lower-case for [str.islower]. *)
Theorem advanced_filter_defaults (passwords : gset string) :
  Gui.apply_advanced_filters passwords Gui.no_options = Gui.Returned passwords
  ∧ Gui.apply_advanced_filters passwords Gui.initial_options
    = Gui.Returned (filter (λ pwd, Py.existsb_chars Py.islower pwd) passwords).
Proof.
  unfold Gui.apply_advanced_filters. split.
  - rewrite filter_loop_without_strength by done. f_equal.
    apply set_eq. intros pwd.
    rewrite elem_of_union, elem_of_list_to_set, list_elem_of_filter, elem_of_set_iter.
    split; [intros [Hin|[_ ?]]; [by apply not_elem_of_empty in Hin|done]|].
    intros Hin. right. split; [|done].
    unfold Gui.skipped. simpl.
    by rewrite !(proj2 (Z.ltb_ge _ 0) (Zle_0_nat _)).
  - rewrite filter_loop_without_strength by done. f_equal.
    apply set_eq. intros pwd.
    rewrite elem_of_union, elem_of_list_to_set, list_elem_of_filter, elem_of_filter,
      elem_of_set_iter.
    assert (negb (Gui.skipped Gui.initial_options pwd)
            = Py.existsb_chars Py.islower pwd) as ->.
    { unfold Gui.skipped. simpl.
      rewrite !(proj2 (Z.ltb_ge _ 0) (Zle_0_nat _)). simpl.
      rewrite !orb_false_r. apply negb_involutive. }
    split; [intros [Hin|?]; [by apply not_elem_of_empty in Hin|done]|by right].
Qed.

End AdvancedFilter.

(** X13 on a candidate whose only lower-case letter is [U+00E9] and a
    candidate without one, with the values the window starts with: the
    first is kept. *)
Lemma advanced_filter_defaults_example :
  Gui.apply_advanced_filters (R := forward_runtime)
    {[ String (ascii_of_N 233) "A1234"; "DOE12345" ]} Gui.initial_options
  = Gui.Returned {[ String (ascii_of_N 233) "A1234" ]}.
Proof.
  rewrite (proj2 (advanced_filter_defaults (R := forward_runtime) _)).
  by vm_compute.
Defined.

(** X12 on two candidates and a minimum strength of 1: the candidate
    john1990 passes the other checks and the call raises. *)
Lemma advanced_filter_outcome_example :
  Gui.apply_advanced_filters (R := forward_runtime) {[ "john1990"; "doe" ]}
    {| Gui.exclude_similar := Some false; Gui.exclude_sequential := Some false;
       Gui.avoid_repeats := Some false; Gui.require_uppercase := Some false;
       Gui.require_lowercase := Some true; Gui.require_digits := Some false;
       Gui.require_special := Some false; Gui.min_strength := Some 1%Z;
       Gui.max_repeat := Some 3%Z; Gui.min_uppercase := Some 0%Z;
       Gui.min_digits := Some 0%Z; Gui.min_special := Some 0%Z |}
  = Gui.AttributeError "calculate_complexity".
Proof.
  refine (proj2 (proj2 (advanced_filter_outcome (R := forward_runtime) _ _))
            _ "john1990" _ _).
  - by vm_compute.
  - apply (bool_decide_unpack _). by vm_compute.
  - by vm_compute.
Defined.

(** ** The complexity score *)

(** X14.  The complexity score lies between 1 and 9: the value 10 of its
    description is never reached.  A candidate is shown as strong (a score
    above 7) only if it has one of the characters [!@#$%^&*] and at least
    eight characters. *)
Theorem complexity_score_range (first_name_var last_name_var password : string) :
  (1 ≤ Gui.calculate_complexity first_name_var last_name_var password ≤ 9)%Z
  ∧ (Gui.get_complexity_color
       (Gui.calculate_complexity first_name_var last_name_var password) = Gui.strong →
     Py.existsb_chars is_special password = true ∧ 8 ≤ Py.len password).
Proof.
  unfold Gui.calculate_complexity, Gui.get_complexity_color.
  destruct (12 <=? Py.len password) eqn:H12;
    [apply Nat.leb_le in H12|apply Nat.leb_gt in H12];
    (destruct (8 <=? Py.len password) eqn:H8;
     [apply Nat.leb_le in H8|apply Nat.leb_gt in H8]);
    destruct (6 <=? Py.len password);
    destruct (Py.existsb_chars Py.isupper password),
             (Py.existsb_chars Py.islower password),
             (Py.existsb_chars Py.isdigit password),
             (Py.existsb_chars is_special password),
             (String.eqb _ _), (Gui.ends_with_digits 4 password);
    (split; [lia|]); vm_compute; intros; try discriminate; split; (done || lia).
Qed.

(** ** The generator of [old_versions/Var3.py] *)

Lemma leet_full_nonempty (char : ascii) (subs : list string) :
  Var3.leet_lookup Var3.leet_full char = Some subs → subs ≠ [].
Proof.
  unfold Var3.leet_full. cbn [Var3.leet_lookup].
  repeat (destruct (Ascii.eqb _ char); [by intros [= <-]|]). done.
Qed.

Section Var3Facts.
Context {R : Runtime}.

Lemma leet_word_returns (word : string) :
  ∀ g, ∃ w g', Var3.leet_word word g = Ok (w, g').
Proof.
  induction word as [|char rest IH]; intros g; [by eexists _, _|].
  cbn [Var3.leet_word].
  assert (∃ piece g1,
            match Var3.leet_lookup Var3.leet_full char with
            | Some subs =>
                let '(x, g1) := random_random g in
                if Qltb (1 # 2) x then random_choice subs g1
                else Ok (String char EmptyString, g1)
            | None => Ok (String char EmptyString, g)
            end = Ok (piece, g1)) as (piece & g1 & ->).
  { destruct (Var3.leet_lookup Var3.leet_full char) as [subs|] eqn:Hsubs;
      [|by eexists _, _].
    apply leet_full_nonempty in Hsubs.
    destruct (random_random g) as [x g1]. destruct (Qltb (1 # 2) x); [|by eexists _, _].
    destruct (random_choice_returns subs g1 Hsubs) as (piece & g2 & -> & _).
    by eexists _, _. }
  cbn [mbind result_bind]. destruct (IH g1) as (tail & g2 & ->).
  cbn [mbind result_bind]. by eexists _, _.
Qed.

Lemma random_mutations_returns (n : nat) (word : string) :
  ∀ variations g,
    ∃ variations' g',
      Var3.random_mutations n word variations g = Ok (variations', g')
      ∧ variations ⊆ variations'.
Proof.
  induction n as [|n IH]; intros variations g; [by eexists _, _|].
  cbn [Var3.random_mutations].
  destruct (leet_word_returns word g) as (w & g1 & ->). cbn [mbind result_bind].
  match goal with |- context [Var3.random_mutations n word ?X g1] =>
    destruct (IH X g1) as (variations' & g' & -> & Hsub) end.
  exists variations', g'. split; [done|].
  intros x Hx. apply Hsub. by do 2 apply elem_of_union_l.
Qed.

(** [generate_leet_variations] returns, and the word it is given is one
    of the variations. *)
Lemma generate_leet_variations_returns (word : string) (g : rng) :
  ∃ variations g',
    Var3.generate_leet_variations word g = Ok (variations, g') ∧ word ∈ variations.
Proof.
  unfold Var3.generate_leet_variations.
  match goal with |- context [Var3.random_mutations _ word ?X g] =>
    destruct (random_mutations_returns Var3.max_variations word X g)
      as (variations & g' & -> & Hsub) end.
  exists variations, g'. split; [done|].
  apply Hsub. apply elem_of_union_l. by apply elem_of_singleton.
Qed.

Lemma nonempty_prefix (k : nat) (X : gset string) (x : string) :
  x ∈ X → ∃ y rest, take (S k) (set_iter X) = y :: rest.
Proof.
  intros Hx%elem_of_set_iter. destruct (set_iter X) as [|y l]; [by apply elem_of_nil in Hx|].
  by eexists _, _.
Qed.

Lemma pattern_leet_raises (elements : Var3.Elements) (g : rng) (name : string) :
  name ∈ Var3.names elements →
  Var3.pattern_leet elements g = Var3.Raised Var3.TypeError.
Proof.
  intros Hname. unfold Var3.pattern_leet.
  destruct (nonempty_prefix 49 _ _ Hname) as (first & rest & ->).
  cbn [Var3.for_each].
  destruct (generate_leet_variations_returns (Py.lower first) g)
    as (variations & g1 & -> & Hword).
  cbn [Var3.lift mbind Var3.outcome_bind].
  by destruct (nonempty_prefix 99 _ _ Hword) as (leet_name & rest' & ->).
Qed.

Lemma pattern_leet_without_names (elements : Var3.Elements) (g : rng) :
  Var3.names elements = ∅ →
  Var3.pattern_leet elements g = Var3.Returned (∅, g).
Proof. intros Hnone. unfold Var3.pattern_leet. by rewrite Hnone, set_iter_empty. Qed.

(** X15.  The generator of [old_versions/Var3.py] never returns: for
    every first name, last name and year, and whatever the later pattern
    functions do, [hyper_generate_from_minimal] raises [TypeError], in
    [pattern_leet] when a name is given and in [pattern_special]
    otherwise, because both subscript the set [elements['years']].  So
    [main] raises [TypeError] before it reaches [save_to_file]. *)
Theorem var3_generator_always_raises
    (later : Var3.Elements → Var3.outcome (gset string))
    (first_name last_name year : string) (limit : Z) (g : rng) :
  Var3.hyper_generate_from_minimal later first_name last_name year g
  = Var3.Raised Var3.TypeError
  ∧ Var3.main later first_name last_name year limit g = Var3.Raised Var3.TypeError
  ∧ (truthy first_name || truthy last_name = true →
     Var3.pattern_leet (Var3.create_base_elements first_name last_name year) g
     = Var3.Raised Var3.TypeError)
  ∧ Var3.pattern_special (Var3.create_base_elements first_name last_name year)
    = Var3.Raised Var3.TypeError.
Proof.
  assert (∀ first last,
            truthy first || truthy last = true →
            Var3.pattern_leet (Var3.create_base_elements first last year) g
            = Var3.Raised Var3.TypeError) as Hleet.
  { intros first last Hgiven.
    destruct (truthy first) eqn:Hfirst.
    - apply (pattern_leet_raises _ _ (Py.lower first)).
      unfold Var3.create_base_elements. rewrite Hfirst. cbn [Var3.names].
      destruct (truthy last); cbn [andb]; set_solver.
    - destruct (truthy last) eqn:Hlast; [|done].
      apply (pattern_leet_raises _ _ (Py.lower last)).
      unfold Var3.create_base_elements. rewrite Hfirst, Hlast. cbn [Var3.names andb].
      set_solver. }
  assert (∀ first last,
            Var3.hyper_generate_from_minimal later first last year g
            = Var3.Raised Var3.TypeError) as Hgen.
  { intros first last. unfold Var3.hyper_generate_from_minimal.
    destruct (truthy first || truthy last) eqn:Hgiven.
    - by rewrite Hleet.
    - apply orb_false_elim in Hgiven as [Hfirst Hlast].
      rewrite pattern_leet_without_names.
      + done.
      + unfold Var3.create_base_elements. by rewrite Hfirst, Hlast. }
  split_and!.
  - apply Hgen.
  - unfold Var3.main. by rewrite Hgen.
  - apply Hleet.
  - done.
Qed.

End Var3Facts.

(** ** The patterns of [Gui/v2.py] that are never used *)

Lemma with_optional_lookup_ne (key k : string) (value : option string)
    (vars : gmap string string) :
  key ≠ k → with_optional key value vars !! k = vars !! k.
Proof. intros Hne. destruct value; [by apply lookup_insert_ne|done]. Qed.

Lemma with_optional_lookup_mono (key k : string) (value : option string)
    (vars : gmap string string) :
  is_Some (vars !! k) → is_Some (with_optional key value vars !! k).
Proof.
  intros Hk. destruct value as [v|]; [|done]. simpl.
  destruct (decide (key = k)) as [->|Hne].
  - rewrite lookup_insert_eq. by eexists.
  - by rewrite lookup_insert_ne.
Qed.

Lemma with_optional_lookup_eq (key : string) (value : option string)
    (vars : gmap string string) :
  is_Some value → is_Some (with_optional key value vars !! key).
Proof. intros [v ->]. simpl. rewrite lookup_insert_eq. by eexists. Qed.

Lemma gui_never_bound (data date_info : gmap string string) (special name : string) :
  name ∈ Gui.never_bound → Gui.vars_dict data date_info special !! name = None.
Proof.
  intros Hname. unfold Gui.never_bound in Hname. unfold Gui.vars_dict.
  repeat (apply elem_of_cons in Hname as [->|Hname];
          [repeat (rewrite with_optional_lookup_ne by done);
           repeat (rewrite lookup_insert_ne by done);
           apply lookup_empty|]).
  by apply elem_of_nil in Hname.
Qed.

(** Every slot of the table that is not in [never_bound] is bound for a
    profile that has the optional keys. *)
Lemma gui_bound (data date_info : gmap string string) (special name : string) :
  (∀ key, key ∈ Gui.optional_keys → is_Some (data !! key)) →
  name ∈ [ "first"; "first_initial"; "last"; "last_initial"; "nick"; "year";
           "year_short"; "birth_day"; "birth_month"; "day"; "month"; "special";
           "spouse_initial"; "child_name"; "pet_name"; "sport"; "team"; "movie";
           "music"; "book"; "game"; "celebrity"; "place"; "hobby"; "lucky_num" ] →
  is_Some (Gui.vars_dict data date_info special !! name).
Proof.
  intros Hall Hname. unfold Gui.vars_dict.
  assert (∀ key (f : string → string),
            key ∈ Gui.optional_keys → is_Some (f <$> data !! key)) as Hopt.
  { intros key f Hkey. destruct (Hall key Hkey) as [v ->]. by eexists. }
  repeat (apply elem_of_cons in Hname as [->|Hname];
          [repeat first
             [ apply with_optional_lookup_eq, Hopt, (bool_decide_unpack _); by vm_compute
             | apply with_optional_lookup_mono ];
           repeat (rewrite lookup_insert_ne by done);
           rewrite lookup_insert_eq; by eexists|]).
  by apply elem_of_nil in Hname.
Qed.

Lemma gui_patterns_fields :
  forallb (λ pattern,
             match template_fields pattern with
             | Some names =>
                 Gui.mentions_never_bound pattern
                 || forallb (λ name,
                      bool_decide
                        (name ∈ [ "first"; "first_initial"; "last"; "last_initial";
                                  "nick"; "year"; "year_short"; "birth_day";
                                  "birth_month"; "day"; "month"; "special";
                                  "spouse_initial"; "child_name"; "pet_name"; "sport";
                                  "team"; "movie"; "music"; "book"; "game";
                                  "celebrity"; "place"; "hobby"; "lucky_num" ])) names
             | None => false
             end) Gui.human_patterns = true.
Proof. by vm_compute. Qed.

(** X17.  Of the 437 patterns of the table of [Gui/v2.py], the 47 that
    mention one of the slots month_name, month_name_short, birth_year,
    day_padded, month_padded, child_initial, pet_initial, father_initial,
    mother_initial never yield a candidate: [vars_dict] binds none of these
    names whatever the profile, [format] raises [KeyError] and the loop,
    whose body is [apply_pattern] as in [main_Cli.py], skips the pattern.
    Each of the other 390 patterns is formatted for a profile that has the
    optional keys. *)
Theorem gui_patterns_never_used (data date_info : gmap string string)
    (special : string) :
  (∀ pattern passwords flags,
     Gui.mentions_never_bound pattern = true →
     (∃ key, format pattern (Gui.vars_dict data date_info special)
             = Raise (KeyError key))
     ∧ apply_pattern flags (Gui.vars_dict data date_info special) passwords pattern
       = Ok passwords)
  ∧ length Gui.human_patterns = 437
  ∧ length (filter (λ pattern, Gui.mentions_never_bound pattern) Gui.human_patterns) = 47
  ∧ ((∀ key, key ∈ Gui.optional_keys → is_Some (data !! key)) →
     ∀ pattern,
       pattern ∈ Gui.human_patterns → Gui.mentions_never_bound pattern = false →
       ∃ password,
         format pattern (Gui.vars_dict data date_info special) = Ok password).
Proof.
  split_and!.
  - intros pattern passwords flags Hdead. unfold Gui.mentions_never_bound in Hdead.
    destruct (template_fields pattern) as [names|] eqn:Hfields; [|done].
    apply existsb_exists in Hdead as (name & Hin%list_elem_of_In & Hname).
    apply bool_decide_eq_true in Hname.
    destruct (format_missing pattern names (Gui.vars_dict data date_info special) name
                Hfields Hin (gui_never_bound _ _ _ _ Hname)) as [key Hkey].
    split; [by exists key|]. unfold apply_pattern. by rewrite Hkey.
  - by vm_compute.
  - by vm_compute.
  - intros Hall pattern Hin Halive.
    pose proof (proj1 (forallb_forall _ _) gui_patterns_fields pattern
                  (proj1 (list_elem_of_In _ _) Hin)) as Hfields.
    cbv beta in Hfields.
    destruct (template_fields pattern) as [names|] eqn:Hnames; [|done].
    rewrite Halive in Hfields. cbn [orb] in Hfields.
    apply (format_bound pattern names); [done|].
    intros name Hname. apply gui_bound; [done|].
    apply list_elem_of_In in Hname.
    apply (proj1 (forallb_forall _ _) Hfields) in Hname.
    by apply bool_decide_eq_true in Hname.
Qed.

(** ** What the window shows *)

Section Window.
Context {R : Runtime}.

Lemma apply_advanced_filters_returned (passwords filtered : gset string)
    (options : Gui.Options) :
  Gui.apply_advanced_filters passwords options = Gui.Returned filtered →
  (∀ pwd, pwd ∈ filtered → pwd ∈ passwords ∧ Gui.skipped options pwd = false)
  ∧ ((0 < default 0 (Gui.min_strength options))%Z → filtered = ∅).
Proof.
  unfold Gui.apply_advanced_filters. intros Hrun.
  destruct (decide (0 < default 0 (Gui.min_strength options))%Z) as [Hon|Hoff].
  - destruct (filter_loop_with_strength options (set_iter passwords) Hon ∅)
      as [Hnone Hsome].
    destruct (decide (Forall (λ pwd, Gui.skipped options pwd = true)
                        (set_iter passwords))) as [Hall|Hex].
    + rewrite (Hnone Hall) in Hrun. injection Hrun as <-.
      split; [|done]. intros pwd Hpwd. by apply not_elem_of_empty in Hpwd.
    + apply not_Forall_Exists in Hex; [|apply _].
      rewrite Hsome in Hrun; [done|].
      eapply Exists_impl; [exact Hex|]. intros pwd Hpwd. simpl in Hpwd.
      by destruct (Gui.skipped options pwd).
  - rewrite filter_loop_without_strength in Hrun by lia. injection Hrun as <-.
    split; [|lia]. intros pwd.
    rewrite elem_of_union, elem_of_list_to_set, list_elem_of_filter, elem_of_set_iter.
    intros [Hin|[Hkeep Hin]]; [by apply not_elem_of_empty in Hin|].
    split; [done|]. by destruct (Gui.skipped options pwd).
Qed.

Lemma truncate_subset (max_pwds : Z) (filtered : gset string) :
  Gui.truncate max_pwds filtered ⊆ filtered.
Proof.
  unfold Gui.truncate. destruct (_ <? _)%Z; [|done].
  intros x Hx%elem_of_list_to_set. apply elem_of_set_iter.
  unfold Gui.slice_to in Hx. destruct (0 <=? max_pwds)%Z; by eapply subseteq_take.
Qed.

Lemma truncate_size (max_pwds : Z) (filtered : gset string) :
  (0 ≤ max_pwds)%Z → (Z.of_nat (size (Gui.truncate max_pwds filtered)) ≤ max_pwds)%Z.
Proof.
  intros Hpos. unfold Gui.truncate.
  destruct (max_pwds <? Z.of_nat (size filtered))%Z eqn:Hcut;
    [|apply Z.ltb_ge in Hcut; lia].
  unfold Gui.slice_to. rewrite (proj2 (Z.leb_le 0 max_pwds) Hpos).
  pose proof (size_list_to_set_le (take (Z.to_nat max_pwds) (set_iter filtered))).
  pose proof (length_take_le_bound (Z.to_nat max_pwds) (set_iter filtered)). lia.
Qed.

(** X18.  What [generate_passwords] of the window assigns to
    [self.passwords]: only generated candidates that pass the filter of
    [analyze_and_filter] and none of the checks of the advanced filter
    skips; at most [max_pwds] of them when [max_pwds] is not negative (none
    for 0: unlike [main] of the command line, the window has no test
    [max > 0]); and none at all when the minimum strength is positive. *)
Theorem window_shows_filtered_candidates (passwords shown : gset string)
    (min_len max_len : Z) (options : Gui.Options) (max_pwds : Z) :
  Gui.generate_passwords passwords min_len max_len options max_pwds
  = Gui.Returned shown →
  (∀ pwd, pwd ∈ shown →
     pwd ∈ passwords ∧ acceptable min_len max_len pwd
     ∧ Gui.skipped options pwd = false)
  ∧ ((0 ≤ max_pwds)%Z → (Z.of_nat (size shown) ≤ max_pwds)%Z)
  ∧ ((0 < default 0 (Gui.min_strength options))%Z → shown = ∅).
Proof.
  unfold Gui.generate_passwords.
  destruct (Gui.apply_advanced_filters _ options) as [filtered|] eqn:Hrun; [|done].
  intros [= <-]. apply apply_advanced_filters_returned in Hrun as [Hin Hnone].
  split_and!.
  - intros pwd Hpwd%truncate_subset. destruct (Hin pwd Hpwd) as [Hacc Hskip].
    apply elem_of_analyze_and_filter in Hacc as [? ?]. done.
  - apply truncate_size.
  - intros Hon. rewrite (Hnone Hon). apply set_eq. intros pwd. split.
    + by intros ?%truncate_subset.
    + intros Hpwd. by apply not_elem_of_empty in Hpwd.
Qed.

End Window.

(** X18 on four generated candidates and the settings the window starts
    with: DOE12345 has no lower-case letter and ab is too short; the
    candidate whose lower-case letter is [U+00E9] is shown. *)
Lemma window_shows_filtered_candidates_example :
  Gui.generate_passwords (R := forward_runtime)
    {[ "john1990"; "DOE12345"; "ab"; String (ascii_of_N 233) "A1234" ]}
    6 20 Gui.initial_options 5000
  = Gui.Returned {[ "john1990"; String (ascii_of_N 233) "A1234" ]}
  ∧ (∀ pwd, pwd ∈ ({[ "john1990"; String (ascii_of_N 233) "A1234" ]} : gset string) →
       Gui.skipped Gui.initial_options pwd = false).
Proof.
  assert (Gui.generate_passwords (R := forward_runtime)
            {[ "john1990"; "DOE12345"; "ab"; String (ascii_of_N 233) "A1234" ]}
            6 20 Gui.initial_options 5000
          = Gui.Returned {[ "john1990"; String (ascii_of_N 233) "A1234" ]}) as Hrun
    by (by vm_compute).
  split; [exact Hrun|]. intros pwd Hpwd.
  by apply (window_shows_filtered_candidates (R := forward_runtime) _ _ _ _ _ _ Hrun).
Defined.
